(** * BijbelQuiz command-line client: the interactive quiz session

    A shallow embedding of [QuizGame] (src/cli/bijbelquiz_cli.py) and of the
    parts of [BijbelQuizAPI] it calls, with the properties of the quiz session
    proved about it; then the rest of the client (its addresses, its other
    requests and the commands of [main] that use them) and the list of
    error reports of the admin window (src/error_admin_gui.py).

    Python integers are [Z]; Python floats are the primitive binary64
    floats.  A Python string whose characters are all below U+0100 is a
    [string], one [ascii] for each character (its code point, not a byte of
    an encoding): the no-break space U+00A0 is [ascii_of_nat 160].  Strings
    with other characters are outside the model.  The game object ([self])
    is a record of four counters.  A [World] holds the game and everything
    around it: what the user will do at the keyboard, what the service will
    answer, and what has been printed and requested so far.  A computation
    is a function from a [World] to a new [World] and a result, where a
    result is a value or a raised exception. *)

From Stdlib Require Import ZArith List String Ascii Bool Lia.
From Stdlib Require Import Decimal DecimalString DecimalZ DecimalPos.
From Stdlib Require Import Uint63 Floats.
Import ListNotations.

Local Open Scope string_scope.
Local Open Scope list_scope.
Local Open Scope Z_scope.

(* ================================================================= *)
(** ** Python built-ins used by the game *)

Module Py.

(** [c.isspace()] for a character below U+0100: tab, newline, vertical tab,
    form feed, carriage return, the four separators 28..31, the space, the
    next-line character U+0085 and the no-break space U+00A0.  These are the
    characters that [strip] drops. *)
Definition isspace (c : ascii) : bool :=
  let n := nat_of_ascii c in
  ((9 <=? n) && (n <=? 13) || (28 <=? n) && (n <=? 32) || (n =? 133) || (n =? 160))%nat.

(** [s.lstrip()] *)
Fixpoint lstrip (s : string) : string :=
  match s with
  | EmptyString => EmptyString
  | String c r => if isspace c then lstrip r else s
  end.

(** [s.rstrip()] *)
Fixpoint rstrip (s : string) : string :=
  match s with
  | EmptyString => EmptyString
  | String c r =>
      match rstrip r with
      | EmptyString => if isspace c then EmptyString else String c EmptyString
      | r' => String c r'
      end
  end.

(** [s.strip()] *)
Definition strip (s : string) : string := rstrip (lstrip s).

(** [c.lower()] for a character below U+0100: the letters [A]..[Z] and the
    capital letters U+00C0..U+00DE (the multiplication sign U+00D7 apart) are
    32 below their small letters. *)
Definition lower_char (c : ascii) : ascii :=
  let n := nat_of_ascii c in
  if ((65 <=? n) && (n <=? 90) || (192 <=? n) && (n <=? 222) && negb (n =? 215))%nat
  then ascii_of_nat (n + 32) else c.

(** [s.lower()] *)
Fixpoint lower (s : string) : string :=
  match s with
  | EmptyString => EmptyString
  | String c r => String (lower_char c) (lower r)
  end.

(** [str(z)] for an integer: the shortest decimal numeral, with a leading
    minus sign for a negative number. *)
Definition str (z : Z) : string := NilZero.string_of_int (Z.to_int z).

Definition digit_of_ascii (c : ascii) : option (uint -> uint) :=
  match c with
  | "0"%char => Some D0 | "1"%char => Some D1 | "2"%char => Some D2
  | "3"%char => Some D3 | "4"%char => Some D4 | "5"%char => Some D5
  | "6"%char => Some D6 | "7"%char => Some D7 | "8"%char => Some D8
  | "9"%char => Some D9 | _ => None
  end.

(** The digit part of an integer literal given to [int()]: one or more
    digits, with single underscores allowed between two digits. *)
Fixpoint digits (s : string) : option uint :=
  match s with
  | EmptyString => None
  | String c r =>
      match digit_of_ascii c with
      | None => None
      | Some d =>
          match r with
          | EmptyString => Some (d Nil)
          | String "_"%char r' => option_map d (digits r')
          | _ => option_map d (digits r)
          end
      end
  end.

(** The blanks that [int()] drops around a numeral.  They are fewer than
    those of [strip]: the separators 28..31 are not among them, and a
    numeral with one of them beside it is a [ValueError]. *)
Definition int_isspace (c : ascii) : bool :=
  let n := nat_of_ascii c in
  ((9 <=? n) && (n <=? 13) || (n =? 32) || (n =? 133) || (n =? 160))%nat.

Fixpoint int_lstrip (s : string) : string :=
  match s with
  | EmptyString => EmptyString
  | String c r => if int_isspace c then int_lstrip r else s
  end.

Fixpoint int_rstrip (s : string) : string :=
  match s with
  | EmptyString => EmptyString
  | String c r =>
      match int_rstrip r with
      | EmptyString => if int_isspace c then EmptyString else String c EmptyString
      | r' => String c r'
      end
  end.

(** [int(s)] for a string, base ten: the blanks around the numeral are
    dropped, one sign is allowed; [None] stands for the [ValueError] that
    [int] raises. *)
Definition int (s : string) : option Z :=
  match int_rstrip (int_lstrip s) with
  | String "+"%char r => option_map Z.of_uint (digits r)
  | String "-"%char r => option_map (fun u => - Z.of_uint u) (digits r)
  | t => option_map Z.of_uint (digits t)
  end.

(** [x in l] for a list of strings *)
Definition mem (x : string) (l : list string) : bool :=
  existsb (String.eqb x) l.

(** [range(a, b)], [len] further elements from [a] on *)
Fixpoint range_from (a : Z) (len : nat) : list Z :=
  match len with
  | O => []
  | S n => a :: range_from (a + 1) n
  end.

(** [enumerate(l, start)] *)
Fixpoint enumerate {A : Type} (start : Z) (l : list A) : list (Z * A) :=
  match l with
  | [] => []
  | x :: r => (start, x) :: enumerate (start + 1) r
  end.

(** [l[i]]: a negative index counts from the end; [None] stands for
    [IndexError]. *)
Definition index {A : Type} (l : list A) (i : Z) : option A :=
  let n := Z.of_nat (List.length l) in
  if (0 <=? i) && (i <? n) then nth_error l (Z.to_nat i)
  else if (- n <=? i) && (i <? 0) then nth_error l (Z.to_nat (n + i))
  else None.

End Py.


(* ================================================================= *)
(** ** Floating-point numbers: [c / n * 100] and the format [.1f] *)

Module PyFloat.

(** [float(z)] for an integer [0 <= z < 2^53], where the conversion is exact
    (the counters of a game are in that range). *)
Definition of_int (z : Z) : float := PrimFloat.of_uint63 (Uint63.of_Z z).

(** [a / b] for two integers: both are converted and divided in binary64;
    [None] stands for the [ZeroDivisionError] of a zero divisor. *)
Definition truediv (a b : Z) : option float :=
  if b =? 0 then None else Some (PrimFloat.div (of_int a) (of_int b)).

(** [x * k] for a float [x] and an integer [k] *)
Definition mul_int (x : float) (k : Z) : float := PrimFloat.mul x (of_int k).

(** The integer nearest to [m * 2^e], ties to the even one. *)
Definition round_half_even (m : Z) (e : Z) : Z :=
  if 0 <=? e then m * 2 ^ e
  else
    let d := 2 ^ (- e) in
    let q := m / d in
    let r := m mod d in
    match 2 * r ?= d with
    | Lt => q
    | Gt => q + 1
    | Eq => if Z.even q then q else q + 1
    end.

(** What [format(x, '.1f')] shows of a finite [x], as a sign and a number of
    tenths: the decimal with one digit after the point that is nearest to the
    exact value of [x], ties to even. *)
Definition tenths (x : float) : option (bool * Z) :=
  match Prim2SF x with
  | S754_zero s => Some (s, 0)
  | S754_finite s m e => Some (s, round_half_even (10 * Z.pos m) e)
  | _ => None
  end.

(** [format(x, '.1f')] *)
Definition format_1f (x : float) : string :=
  match tenths x with
  | Some (s, t) =>
      ((if s then "-" else "") ++ Py.str (t / 10) ++ "." ++ Py.str (t mod 10))%string
  | None =>
      match Prim2SF x with
      | S754_infinity false => "inf"
      | S754_infinity true => "-inf"
      | _ => "nan"
      end
  end.

End PyFloat.

(* ================================================================= *)
(** ** Data *)

(** The [difficulty] of a question as the service sends it: a JSON number or
    a JSON string ([isinstance(question.difficulty, str)]). *)
Inductive difficulty_field : Type :=
| DInt (d : Z)
| DStr (s : string).

(** [@dataclass class QuizQuestion] *)
Record QuizQuestion : Type := mkQuestion {
  question : string;
  correctAnswer : string;
  incorrectAnswers : list string;
  difficulty : difficulty_field;
  type : string;
  categories : list string;
  biblicalReference : string;
  allOptions : list string;
  correctAnswerIndex : Z
}.

(** The fields that [QuizGame.__init__] sets and the rounds update.
    ([api] is the service in the world below; [start_time] is written once
    and never read.) *)
Record QuizGame : Type := mkGame {
  score : Z;
  total_questions : Z;
  correct_answers : Z;
  stars_earned : Z
}.

(** [QuizGame.__init__] *)
Definition new_game : QuizGame := mkGame 0 0 0 0.

(** *** Exceptions *)

Inductive exception : Type :=
| ValueError
| IndexError
| AttributeError
| EOFError
| ZeroDivisionError.

(** [KeyboardInterrupt] and [SystemExit] are not subclasses of [Exception]:
    an [except Exception] clause lets them through. *)
Inductive exn : Type :=
| KeyboardInterrupt
| SystemExit (code : Z)
| Exception (e : exception).

Inductive outcome (A : Type) : Type :=
| Val (a : A)
| Raise (e : exn).
Arguments Val {A} a.
Arguments Raise {A} e.

(** *** The keyboard *)

(** What the user does next: type a line, press Ctrl-C at a prompt, or press
    Ctrl-C during the next pause ([time.sleep]; should a prompt come before
    any pause, the interrupt arrives at the prompt).  Ctrl-C while a request
    is under way is a [response], below. *)
Inductive key_event : Type :=
| Typed (s : string)
| CtrlC
| CtrlCWhileSleeping.

(** *** The remote service *)

(** The keys of a decoded JSON object that the game reads: ['questions']
    ([None] when the key is absent), the truth value of ['success'], and
    ['balance']. *)
Record api_dict : Type := mkDict {
  d_questions : option (list QuizQuestion);
  d_success : bool;
  d_balance : option Z
}.

(** A decoded response body: an object, or a JSON array (which has [in] but
    no [get]). *)
Inductive json : Type :=
| JDict (d : api_dict)
| JList.

(** What [urllib.request.urlopen] does with a request: the service answers
    with a body, or with an error status, or cannot be reached, or sends
    what cannot be decoded; or the user presses Ctrl-C while the request is
    under way. *)
Inductive response : Type :=
| Reply (body : json)
| HTTPError (code : Z) (detail : option (string * string))
| URLError
| BadReply
| Interrupt.

Inductive value : Type :=
| VInt (z : Z)
| VStr (s : string).

Inductive request : Type :=
| GET (endpoint : string) (params : list (string * value))
| POST (endpoint : string) (data : list (string * value)).

(** *** The terminal *)

Inductive prompt : Type :=
| AskChoice (n : Z)
| AskContinue.

(** The lines the game prints, each with the values it interpolates; then
    what the other commands of [main] print: a response body through
    [print_json], the help of the parser, the help of the [stars] parser. *)
Inductive line : Type :=
| ClearScreen
| Header (title : string)
| ScoreLine (score correct total stars : Z)
| Prompt (p : prompt)
| PleaseEnter (valid_choices : list string)
| InterruptedByUser
| QuestionNo (n : Z)
| QuestionText (s : string)
| BibleReference (s : string)
| Categories (l : list string)
| Difficulty (d : Z)
| ChoicesHeader
| Choice (i : Z) (option_text : string)
| Correct (user_answer : string) (points stars : Z)
| Incorrect (user_answer correct_answer : string)
| FinalResults (questions correct : Z) (accuracy : string) (score stars : Z)
| NewBalance (balance : option Z)
| WarnNotUpdated
| WarnNotAwarded (e : exception)
| Thanks
| Starting
| Loading
| NoQuestions
| Loaded (n : Z)
| InterruptedFinal
| ErrorDuringGame (e : exception)
| Json (data : json)
| Help
| StarsHelp.

(** The lines written to [sys.stderr]. *)
Inductive diagnostic : Type :=
| HttpFailure (code : Z) (detail : option (string * string))
| UrlFailure
| UnexpectedFailure
| OperationCancelled.

(** *** The world *)

Record World : Type := mkWorld {
  self : QuizGame;
  keyboard : list key_event;
  network : list response;
  stdout : list line;
  stderr : list diagnostic;
  requests : list request
}.

Definition initial_world (keys : list key_event) (net : list response) : World :=
  mkWorld new_game keys net [] [] [].

(* ================================================================= *)
(** ** Computations: state and exceptions *)

Definition M (A : Type) : Type := World -> outcome A * World.

Definition ret {A : Type} (a : A) : M A := fun w => (Val a, w).

Definition bind {A B : Type} (m : M A) (k : A -> M B) : M B :=
  fun w =>
    match m w with
    | (Val a, w') => k a w'
    | (Raise e, w') => (Raise e, w')
    end.

Definition raise {A : Type} (e : exn) : M A := fun w => (Raise e, w).

Notation "x <- m ;; k" := (bind m (fun x => k))
  (at level 61, m at next level, right associativity).
Notation "m ;; k" := (bind m (fun _ => k))
  (at level 61, right associativity).

(** [try: body  except ...: handler]: [handler e] is [None] when no clause
    matches [e].  What a handler raises is not caught by the other clauses. *)
Definition try_except {A : Type} (body : M A) (handler : exn -> option (M A)) : M A :=
  fun w =>
    match body w with
    | (Val a, w') => (Val a, w')
    | (Raise e, w') =>
        match handler e with
        | Some h => h w'
        | None => (Raise e, w')
        end
    end.

Definition get_self : M QuizGame := fun w => (Val (self w), w).

Definition set_self (g : QuizGame) : M unit :=
  fun w => (Val tt, mkWorld g (keyboard w) (network w) (stdout w) (stderr w) (requests w)).

Definition set_keyboard (keys : list key_event) (w : World) : World :=
  mkWorld (self w) keys (network w) (stdout w) (stderr w) (requests w).

Definition put_line (l : line) (w : World) : World :=
  mkWorld (self w) (keyboard w) (network w) (stdout w ++ [l]) (stderr w) (requests w).

(** [print(...)] *)
Definition print (l : line) : M unit := fun w => (Val tt, put_line l w).

(** [print(..., file=sys.stderr)] *)
Definition eprint (d : diagnostic) : M unit :=
  fun w => (Val tt, mkWorld (self w) (keyboard w) (network w) (stdout w) (stderr w ++ [d]) (requests w)).

(** [sys.exit(code)] *)
Definition sys_exit {A : Type} (code : Z) : M A := raise (SystemExit code).

(** [time.sleep(_)]: returns, unless the user presses Ctrl-C meanwhile. *)
Definition sleep : M unit :=
  fun w =>
    match keyboard w with
    | CtrlCWhileSleeping :: rest => (Raise KeyboardInterrupt, set_keyboard rest w)
    | _ => (Val tt, w)
    end.

(** A value that a built-in computes, or the exception it raises. *)
Definition or_raise {A : Type} (o : option A) (e : exception) : M A :=
  match o with
  | Some a => ret a
  | None => raise (Exception e)
  end.

(** [urllib.request.urlopen(request)]: the request goes out and the service
    answers with its next response; with no service left the connection
    fails. *)
Definition urlopen (r : request) : M response :=
  fun w =>
    let sent := requests w ++ [r] in
    match network w with
    | [] => (Val URLError, mkWorld (self w) (keyboard w) [] (stdout w) (stderr w) sent)
    | a :: rest => (Val a, mkWorld (self w) (keyboard w) rest (stdout w) (stderr w) sent)
    end.

(* ================================================================= *)
(** ** [class BijbelQuizAPI] *)

(** The three [except] clauses shared by [_get] and [_post]: each prints to
    the diagnostic stream and calls [sys.exit(1)].  A [KeyboardInterrupt]
    is no [Exception]: the three clauses let it through. *)
Definition decode_or_exit (a : response) : M json :=
  match a with
  | Reply body => ret body
  | HTTPError code detail => eprint (HttpFailure code detail) ;; sys_exit 1
  | URLError => eprint UrlFailure ;; sys_exit 1
  | BadReply => eprint UnexpectedFailure ;; sys_exit 1
  | Interrupt => raise KeyboardInterrupt
  end.

Definition _get (endpoint : string) (params : list (string * value)) : M json :=
  a <- urlopen (GET endpoint params) ;;
  decode_or_exit a.

Definition _post (endpoint : string) (data : list (string * value)) : M json :=
  a <- urlopen (POST endpoint data) ;;
  decode_or_exit a.

(** Truth value of an optional string / integer argument. *)
Definition truthy_str (o : option string) : bool :=
  match o with
  | Some (String _ _) => true
  | _ => false
  end.

Definition truthy_int (o : option Z) : bool :=
  match o with
  | Some z => negb (z =? 0)
  | None => false
  end.

Definition get_questions (category : option string) (limit : Z) (difficulty : option Z) : M json :=
  let params := [("limit", VInt limit)] in
  let params :=
    match category with
    | Some c => if truthy_str category then params ++ [("category", VStr c)] else params
    | None => params
    end in
  let params :=
    match difficulty with
    | Some d => if truthy_int difficulty then params ++ [("difficulty", VInt d)] else params
    | None => params
    end in
  _get "questions" params.

Definition add_stars (amount : Z) (reason : string) (lesson_id : option string) : M json :=
  let data := [("amount", VInt amount); ("reason", VStr reason)] in
  let data :=
    match lesson_id with
    | Some l => if truthy_str lesson_id then data ++ [("lessonId", VStr l)] else data
    | None => data
    end in
  _post "stars/add" data.

(* ================================================================= *)
(** ** [class QuizGame] *)

Definition len {A : Type} (l : list A) : Z := Z.of_nat (List.length l).

Definition nonempty {A : Type} (l : list A) : bool :=
  match l with
  | [] => false
  | _ :: _ => true
  end.

Definition nonempty_str (s : string) : bool :=
  match s with
  | EmptyString => false
  | String _ _ => true
  end.

Definition when (b : bool) (m : M unit) : M unit := if b then m else ret tt.

Definition clear_screen : M unit := print ClearScreen.

Definition print_header (title : string) : M unit := print (Header title).

Definition print_score : M unit :=
  g <- get_self ;;
  print (ScoreLine (score g) (correct_answers g) (total_questions g) (stars_earned g)).

(** One pass through the body of [while True] in [get_user_input] for each
    event of the keyboard: a line that is not among [valid_choices] is
    answered with a hint and the loop goes on ([continue]); Ctrl-C at the
    prompt is caught here and ends the process with [sys.exit(0)]; at the end
    of the input, [input] raises [EOFError], which no clause here catches. *)
Fixpoint get_user_input_loop (p : prompt) (valid_choices : list string)
    (keys : list key_event) (w : World) : outcome string * World :=
  let w := put_line (Prompt p) w in
  match keys with
  | [] => (Raise (Exception EOFError), set_keyboard [] w)
  | Typed s :: rest =>
      let user_input := Py.lower (Py.strip s) in
      if nonempty valid_choices && negb (Py.mem user_input valid_choices)
      then get_user_input_loop p valid_choices rest (put_line (PleaseEnter valid_choices) w)
      else (Val user_input, set_keyboard rest w)
  | CtrlC :: rest
  | CtrlCWhileSleeping :: rest =>
      (print InterruptedByUser ;; sys_exit 0) (set_keyboard rest w)
  end.

Definition get_user_input (p : prompt) (valid_choices : list string) : M string :=
  fun w => get_user_input_loop p valid_choices (keyboard w) w.

(** [int(question.difficulty) if isinstance(question.difficulty, str)
     else question.difficulty] *)
Definition coerce_difficulty (d : difficulty_field) : option Z :=
  match d with
  | DInt z => Some z
  | DStr s => Py.int s
  end.

Fixpoint print_choices (l : list (Z * string)) : M unit :=
  match l with
  | [] => ret tt
  | (i, option_text) :: rest => print (Choice i option_text) ;; print_choices rest
  end.

(** [display_question]; the [QuizQuestion] that it builds from
    [question_data] is the record that the function is given. *)
Definition display_question (question_data : QuizQuestion) : M QuizQuestion :=
  let q := question_data in
  clear_screen ;;
  print_header "BIJBEL QUIZ GAME" ;;
  print_score ;;
  g <- get_self ;;
  print (QuestionNo (total_questions g + 1)) ;;
  print (QuestionText (question q)) ;;
  when (nonempty_str (biblicalReference q)) (print (BibleReference (biblicalReference q))) ;;
  when (nonempty (categories q)) (print (Categories (categories q))) ;;
  d <- or_raise (coerce_difficulty (difficulty q)) ValueError ;;
  print (Difficulty d) ;;
  print ChoicesHeader ;;
  print_choices (Py.enumerate 1 (allOptions q)) ;;
  ret q.

(** [[str(i) for i in range(1, len(question.allOptions) + 1)]] *)
Definition valid_choices_of (q : QuizQuestion) : list string :=
  map Py.str (Py.range_from 1 (List.length (allOptions q))).

(** [play_round]: the result is [is_correct]. *)
Definition play_round (question_data : QuizQuestion) : M bool :=
  q <- display_question question_data ;;
  let valid_choices := valid_choices_of q in
  choice <- get_user_input (AskChoice (len (allOptions q))) valid_choices ;;
  n <- or_raise (Py.int choice) ValueError ;;
  let user_answer_index := n - 1 in
  user_answer <- or_raise (Py.index (allOptions q) user_answer_index) IndexError ;;
  let correct_answer := correctAnswer q in
  let is_correct := user_answer_index =? correctAnswerIndex q in
  d <- or_raise (coerce_difficulty (difficulty q)) ValueError ;;
  let points := d * 10 in
  let stars := if is_correct then d else 0 in
  g <- get_self ;;
  let g := mkGame (score g) (total_questions g + 1) (correct_answers g) (stars_earned g) in
  let g :=
    if is_correct
    then mkGame (score g + points) (total_questions g) (correct_answers g + 1)
                (stars_earned g + stars)
    else g in
  set_self g ;;
  clear_screen ;;
  print_header "BIJBEL QUIZ GAME" ;;
  (if is_correct
   then print (Correct user_answer points stars)
   else print (Incorrect user_answer correct_answer)) ;;
  when (nonempty_str (biblicalReference q)) (print (BibleReference (biblicalReference q))) ;;
  sleep ;;
  ret is_correct.

(** [accuracy], as [end_game] formats it with [.1f]: the integer [0] when no
    question was answered, else the float [correct / total * 100]. *)
Definition accuracy (g : QuizGame) : option float :=
  if total_questions g >? 0
  then option_map (fun x => PyFloat.mul_int x 100)
         (PyFloat.truediv (correct_answers g) (total_questions g))
  else Some (PyFloat.of_int 0).

Definition reward_reason (g : QuizGame) : string :=
  ("Quiz game completed - " ++ Py.str (correct_answers g) ++ "/"
     ++ Py.str (total_questions g) ++ " correct")%string.

(** The [except Exception as e] clause of [end_game]. *)
Definition warn_not_awarded (e : exn) : option (M unit) :=
  match e with
  | Exception x => Some (print (WarnNotAwarded x))
  | _ => None
  end.

Definition end_game : M unit :=
  clear_screen ;;
  print_header "GAME COMPLETE!" ;;
  g <- get_self ;;
  accuracy <- or_raise (accuracy g) ZeroDivisionError ;;
  print (FinalResults (total_questions g) (correct_answers g)
           (PyFloat.format_1f accuracy) (score g) (stars_earned g)) ;;
  when (stars_earned g >? 0)
    (try_except
       (result <- add_stars (stars_earned g) (reward_reason g) None ;;
        match result with
        | JDict d =>
            if d_success d then print (NewBalance (d_balance d)) else print WarnNotUpdated
        | JList => raise (Exception AttributeError)
        end)
       warn_not_awarded) ;;
  print Thanks.

(** The [for i, question_data in enumerate(questions, 1)] loop of [start];
    [n] is [len(questions)] and [i] the number of the first question of
    [rest]. *)
Fixpoint play_questions (n i : Z) (rest : list QuizQuestion) : M unit :=
  match rest with
  | [] => ret tt
  | question_data :: rest' =>
      is_correct <- play_round question_data ;;
      if is_correct then play_questions n (i + 1) rest'
      else if i <? n then
        continue_game <- get_user_input AskContinue ["y"; "n"; "yes"; "no"] ;;
        if Py.mem continue_game ["n"; "no"] then ret tt
        else play_questions n (i + 1) rest'
      else play_questions n (i + 1) rest'
  end.

(** The [except] clauses of [start]. *)
Definition start_handlers (e : exn) : option (M unit) :=
  match e with
  | KeyboardInterrupt => Some (print InterruptedFinal ;; end_game)
  | Exception x => Some (print (ErrorDuringGame x))
  | SystemExit _ => None
  end.

Definition start (category : option string) (difficulty : option Z) (num_questions : Z) : M unit :=
  print Starting ;;
  sleep ;;
  try_except
    (print Loading ;;
     result <- get_questions category num_questions difficulty ;;
     match result with
     | JDict (mkDict (Some (q :: qs)) _ _) =>
         let questions := q :: qs in
         print (Loaded (len questions)) ;;
         sleep ;;
         play_questions (len questions) 1 questions ;;
         end_game
     | _ => print NoQuestions
     end)
    start_handlers.

(** The [game] command of [main]: a new [QuizGame] is started; a
    [KeyboardInterrupt] that reaches [main] ends the process with status 1. *)
Definition main_game (category : option string) (difficulty : option Z) (num_questions : Z) : M unit :=
  try_except
    (set_self new_game ;; start category difficulty num_questions)
    (fun e =>
       match e with
       | KeyboardInterrupt => Some (eprint OperationCancelled ;; sys_exit 1)
       | _ => None
       end).

(** The exit status of the process. *)
Definition exit_status {A : Type} (o : outcome A) : Z :=
  match o with
  | Val _ => 0
  | Raise (SystemExit code) => code
  | Raise _ => 1
  end.

(* ================================================================= *)
(** ** Auxiliary notions used in the statements *)

(** Every character of [s] satisfies [P]. *)
Fixpoint all_chars (P : ascii -> bool) (s : string) : bool :=
  match s with
  | EmptyString => true
  | String c r => P c && all_chars P r
  end.


(** The terminal after some more lines. *)
Definition put_lines (ls : list line) (w : World) : World :=
  mkWorld (self w) (keyboard w) (network w) (stdout w ++ ls) (stderr w) (requests w).

Definition choice_lines (l : list (Z * string)) : list line :=
  map (fun p => Choice (fst p) (snd p)) l.

(** What [display_question] prints for [q] when the game is in state [g]. *)
Definition display_lines (q : QuizQuestion) (g : QuizGame) : list line :=
  [ClearScreen; Header "BIJBEL QUIZ GAME";
   ScoreLine (score g) (correct_answers g) (total_questions g) (stars_earned g);
   QuestionNo (total_questions g + 1); QuestionText (question q)]
  ++ (if nonempty_str (biblicalReference q) then [BibleReference (biblicalReference q)] else [])
  ++ (if nonempty (categories q) then [Categories (categories q)] else [])
  ++ match coerce_difficulty (difficulty q) with
     | Some d => [Difficulty d; ChoicesHeader] ++ choice_lines (Py.enumerate 1 (allOptions q))
     | None => []
     end.

(** [play_round] from the prompt on: what follows [display_question]. *)
Definition round_after_display (q : QuizQuestion) : M bool :=
  let valid_choices := valid_choices_of q in
  choice <- get_user_input (AskChoice (len (allOptions q))) valid_choices ;;
  n <- or_raise (Py.int choice) ValueError ;;
  let user_answer_index := n - 1 in
  user_answer <- or_raise (Py.index (allOptions q) user_answer_index) IndexError ;;
  let correct_answer := correctAnswer q in
  let is_correct := user_answer_index =? correctAnswerIndex q in
  d <- or_raise (coerce_difficulty (difficulty q)) ValueError ;;
  let points := d * 10 in
  let stars := if is_correct then d else 0 in
  g <- get_self ;;
  let g := mkGame (score g) (total_questions g + 1) (correct_answers g) (stars_earned g) in
  let g :=
    if is_correct
    then mkGame (score g + points) (total_questions g) (correct_answers g + 1)
                (stars_earned g + stars)
    else g in
  set_self g ;;
  clear_screen ;;
  print_header "BIJBEL QUIZ GAME" ;;
  (if is_correct
   then print (Correct user_answer points stars)
   else print (Incorrect user_answer correct_answer)) ;;
  when (nonempty_str (biblicalReference q)) (print (BibleReference (biblicalReference q))) ;;
  sleep ;;
  ret is_correct.

(** The question [q] with another [difficulty] field. *)
Definition with_difficulty (q : QuizQuestion) (d : difficulty_field) : QuizQuestion :=
  mkQuestion (question q) (correctAnswer q) (incorrectAnswers q) d (type q)
    (categories q) (biblicalReference q) (allOptions q) (correctAnswerIndex q).

(** The request that [add_stars] sends for a finished game. *)
Definition reward_request (g : QuizGame) : request :=
  POST "stars/add"
    [("amount", VInt (stars_earned g));
     ("reason",
      VStr ("Quiz game completed - " ++ Py.str (correct_answers g) ++ "/"
              ++ Py.str (total_questions g) ++ " correct")%string)].

(** The number that [end_game] formats as the accuracy. *)
Definition accuracy_value (g : QuizGame) : float :=
  if total_questions g >? 0
  then PyFloat.mul_int
         (PrimFloat.div (PyFloat.of_int (correct_answers g))
            (PyFloat.of_int (total_questions g))) 100
  else PyFloat.of_int 0.

(** The first lines of the summary that [end_game] prints. *)
Definition summary_lines (g : QuizGame) : list line :=
  [ClearScreen; Header "GAME COMPLETE!";
   FinalResults (total_questions g) (correct_answers g)
     (PyFloat.format_1f (accuracy_value g)) (score g) (stars_earned g)].

(** A request that fails on the way: an error status, no connection, a
    body that cannot be decoded. *)
Definition failed (a : response) : bool :=
  match a with
  | HTTPError _ _ | URLError | BadReply => true
  | Reply _ | Interrupt => false
  end.

(** The user presses Ctrl-C during the next pause. *)
Definition pause_interrupted (keys : list key_event) : bool :=
  match keys with
  | CtrlCWhileSleeping :: _ => true
  | _ => false
  end.

(** Two worlds that differ at most in what is on the terminal. *)
Definition agree (w1 w2 : World) : Prop :=
  self w1 = self w2 /\ keyboard w1 = keyboard w2 /\ network w1 = network w2 /\
  stderr w1 = stderr w2 /\ requests w1 = requests w2.

(** A computation that never reads the terminal back. *)
Definition blind {A : Type} (m : M A) : Prop :=
  forall w1 w2, agree w1 w2 ->
    fst (m w1) = fst (m w2) /\ agree (snd (m w1)) (snd (m w2)).

(** A line of ASCII characters. *)
Definition ascii_only (s : string) : bool :=
  all_chars (fun c => (nat_of_ascii c <? 128)%nat) s.



(** A response body with no question batch: the key is absent, or the batch
    is empty. *)
Definition no_batch (body : json) : bool :=
  match body with
  | JDict d =>
      match d_questions d with
      | Some (_ :: _) => false
      | _ => true
      end
  | JList => true
  end.

(** The invariant of the four counters. *)
Definition consistent (g : QuizGame) : Prop :=
  score g = 10 * stars_earned g /\ 0 <= correct_answers g <= total_questions g.

(** A computation that keeps the invariant of the counters. *)
Definition keeps {A : Type} (m : M A) : Prop :=
  forall w, consistent (self w) -> consistent (self (snd (m w))).

(** [g'] is nowhere below [g]. *)
Definition counters_le (g g' : QuizGame) : Prop :=
  score g <= score g' /\ total_questions g <= total_questions g' /\
  correct_answers g <= correct_answers g' /\ stars_earned g <= stars_earned g'.

(** The record [mrs] of [SpecFloat] (a mantissa with its round and sticky
    bits) stands for the number [N / D], in units of the last place. *)
Definition rep (mrs : shr_record) (N D : Z) : Prop :=
  match shr_r mrs, shr_s mrs with
  | false, false => N = shr_m mrs * D
  | false, true => shr_m mrs * D < N /\ 2 * N < (2 * shr_m mrs + 1) * D
  | true, false => 2 * N = (2 * shr_m mrs + 1) * D
  | true, true => (2 * shr_m mrs + 1) * D < 2 * N /\ N < (shr_m mrs + 1) * D
  end.

(** *** Sample data *)

Definition sample_question (d : difficulty_field) (answer : Z) : QuizQuestion :=
  mkQuestion "Who built the ark?" "Noah" ["Moses"; "Abraham"; "David"] d "multiple_choice"
    ["Genesis"] "Genesis 6" ["Moses"; "Abraham"; "Noah"; "David"] answer.

(** Three questions of difficulty 2, 3 and 1, the second one sent as text. *)
Definition sample_batch : list QuizQuestion :=
  [sample_question (DInt 2) 0; sample_question (DStr "3") 2; sample_question (DInt 1) 1].

Definition sample_reply : response :=
  Reply (JDict (mkDict (Some sample_batch) false None)).

Definition balance_reply (b : Z) : response :=
  Reply (JDict (mkDict None true (Some b))).

(** The answers of a user who gets the first and third question of
    [sample_batch] right, the second one wrong, and goes on after it. *)
Definition sample_keys : list key_event :=
  [Typed "1"; Typed "4"; Typed "y"; Typed " 2 "].

(** The [game] command with its default arguments. *)
Definition run_game (keys : list key_event) (net : list response) : outcome unit * World :=
  main_game None None 10 (initial_world keys net).

(** The world at the end of the session of the scenario: two of three
    questions answered right. *)
Definition finished_world : World := mkWorld (mkGame 30 3 2 3) [] [] [] [] [].

(* ================================================================= *)
(** ** The rest of the client: addresses, the other requests, the commands *)

(** [s.lstrip(c)] and [s.rstrip(c)] for a string [c] of one character *)
Fixpoint lstrip_char (c : ascii) (s : string) : string :=
  match s with
  | EmptyString => EmptyString
  | String a r => if Ascii.eqb a c then lstrip_char c r else s
  end.

Fixpoint rstrip_char (c : ascii) (s : string) : string :=
  match s with
  | EmptyString => EmptyString
  | String a r =>
      match rstrip_char c r with
      | EmptyString => if Ascii.eqb a c then EmptyString else String a EmptyString
      | r' => String a r'
      end
  end.

(** The fields of a [BijbelQuizAPI] object. *)
Record BijbelQuizAPI : Type := mkAPI {
  base_url : string;
  api_key : option string;
  headers : list (string * string)
}.

(** [BijbelQuizAPI.__init__] *)
Definition new_api (url : string) (key : option string) : BijbelQuizAPI :=
  mkAPI (rstrip_char "/" url) key
    ([("Content-Type", "application/json")]
     ++ match key with
        | Some k => if truthy_str key then [("X-API-Key", k)] else []
        | None => []
        end).

(** The address that [_get] and [_post] build for an endpoint (before the
    query string): [f"{self.base_url}/{endpoint.lstrip('/')}"]. *)
Definition endpoint_url (api : BijbelQuizAPI) (endpoint : string) : string :=
  (base_url api ++ "/" ++ lstrip_char "/" endpoint)%string.

Definition health : M json := _get "health" [].

Definition get_progress : M json := _get "progress" [].

Definition get_stats : M json := _get "stats" [].

Definition get_settings : M json := _get "settings" [].

Definition get_star_balance : M json := _get "stars/balance" [].

Definition spend_stars (amount : Z) (reason : string) (lesson_id : option string) : M json :=
  let data := [("amount", VInt amount); ("reason", VStr reason)] in
  let data :=
    match lesson_id with
    | Some l => if truthy_str lesson_id then data ++ [("lessonId", VStr l)] else data
    | None => data
    end in
  _post "stars/spend" data.

Definition get_star_transactions (limit : Z) (type_filter lesson_id : option string) : M json :=
  let params := [("limit", VInt limit)] in
  let params :=
    match type_filter with
    | Some t => if truthy_str type_filter then params ++ [("type", VStr t)] else params
    | None => params
    end in
  let params :=
    match lesson_id with
    | Some l => if truthy_str lesson_id then params ++ [("lessonId", VStr l)] else params
    | None => params
    end in
  _get "stars/transactions" params.

Definition get_star_stats : M json := _get "stars/stats" [].

(** The subcommands of [stars], with their arguments as [argparse] hands
    them over. *)
Inductive stars_command : Type :=
| StarsBalance
| StarsAdd (amount : Z) (reason : string) (lesson_id : option string)
| StarsSpend (amount : Z) (reason : string) (lesson_id : option string)
| StarsTransactions (limit : Z) (type_filter lesson_id : option string)
| StarsStats.

(** The commands of [main]; [stars] may come without a subcommand. *)
Inductive command : Type :=
| CmdHealth
| CmdQuestions (category : option string) (limit : Z) (difficulty : option Z)
| CmdProgress
| CmdStats
| CmdGame (category : option string) (difficulty : option Z) (questions : Z)
| CmdSettings
| CmdStars (stars_command : option stars_command).

(** [print_json] *)
Definition print_json (data : json) : M unit := print (Json data).

(** The [except KeyboardInterrupt] clause of [main]. *)
Definition main_handlers {A : Type} (e : exn) : option (M A) :=
  match e with
  | KeyboardInterrupt => Some (eprint OperationCancelled ;; sys_exit 1)
  | _ => None
  end.

(** [main], from [args = parser.parse_args()] on; [args.command] is [None]
    when no command was given.  (The last [else] of [main] is left out: the
    parser accepts no command beyond those of [command].) *)
Definition main (args_command : option command) : M unit :=
  match args_command with
  | None => print Help ;; sys_exit 1
  | Some c =>
      try_except
        (match c with
         | CmdHealth => result <- health ;; print_json result
         | CmdQuestions category limit difficulty =>
             result <- get_questions category limit difficulty ;; print_json result
         | CmdProgress => result <- get_progress ;; print_json result
         | CmdStats => result <- get_stats ;; print_json result
         | CmdGame category difficulty questions =>
             set_self new_game ;; start category difficulty questions
         | CmdSettings => result <- get_settings ;; print_json result
         | CmdStars (Some StarsBalance) => result <- get_star_balance ;; print_json result
         | CmdStars (Some (StarsAdd amount reason lesson_id)) =>
             result <- add_stars amount reason lesson_id ;; print_json result
         | CmdStars (Some (StarsSpend amount reason lesson_id)) =>
             result <- spend_stars amount reason lesson_id ;; print_json result
         | CmdStars (Some (StarsTransactions limit type_filter lesson_id)) =>
             result <- get_star_transactions limit type_filter lesson_id ;; print_json result
         | CmdStars (Some StarsStats) => result <- get_star_stats ;; print_json result
         | CmdStars None => print StarsHelp
         end)
        main_handlers
  end.

(* ================================================================= *)
(** ** Further notions used in the statements *)

(** A run of [n] slashes. *)
Fixpoint slashes (n : nat) : string :=
  match n with
  | O => EmptyString
  | S k => String "/" (slashes k)
  end.

(** The last character of [s] is not [c] (true of the empty string). *)
Fixpoint no_trailing (c : ascii) (s : string) : bool :=
  match s with
  | EmptyString => true
  | String a EmptyString => negb (Ascii.eqb a c)
  | String _ r => no_trailing c r
  end.

(** The first character of [s] is not [c] (true of the empty string). *)
Definition no_leading (c : ascii) (s : string) : bool :=
  match s with
  | EmptyString => true
  | String a _ => negb (Ascii.eqb a c)
  end.

Definition is_post (r : request) : bool :=
  match r with
  | POST _ _ => true
  | GET _ _ => false
  end.

(** The commands that change the balance. *)
Definition changes_balance (c : command) : bool :=
  match c with
  | CmdStars (Some (StarsAdd _ _ _)) | CmdStars (Some (StarsSpend _ _ _)) => true
  | _ => false
  end.

(** The commands that call the service once and print its answer: all but
    [game] and [stars] without a subcommand. *)
Definition one_call (c : command) : bool :=
  match c with
  | CmdGame _ _ _ | CmdStars None => false
  | _ => true
  end.

(** A computation that talks to the user only: it may print, read the
    keyboard and update the game; it sends nothing to the service, takes no
    answer from it and writes no diagnostic. *)
Definition offline {A : Type} (m : M A) : Prop :=
  forall w,
    network (snd (m w)) = network w /\ requests (snd (m w)) = requests w
    /\ stderr (snd (m w)) = stderr w
    /\ exists more, stdout (snd (m w)) = stdout w ++ more.

(** A computation that ends the process, when it does, with status 0 or
    1. *)
Definition exits_0_or_1 {A : Type} (m : M A) : Prop :=
  forall w code, fst (m w) = Raise (SystemExit code) -> code = 0 \/ code = 1.

(** A question that can be answered right: its difficulty reads as an
    integer and its correct answer is one of its options. *)
Definition playable (q : QuizQuestion) : Prop :=
  coerce_difficulty (difficulty q) <> None
  /\ 0 <= correctAnswerIndex q < len (allOptions q).

(** The difficulty of a question as an integer (0 when it does not read as
    one). *)
Definition difficulty_of (q : QuizQuestion) : Z :=
  match coerce_difficulty (difficulty q) with
  | Some d => d
  | None => 0
  end.

Definition sum_difficulty (qs : list QuizQuestion) : Z :=
  fold_right Z.add 0 (map difficulty_of qs).

(** The lines of a user who picks the correct option of each question. *)
Definition correct_keys (qs : list QuizQuestion) : list key_event :=
  map (fun q => Typed (Py.str (correctAnswerIndex q + 1))) qs.

(** The game after one more round on a question of difficulty [d]. *)
Definition scored (g : QuizGame) (is_correct : bool) (d : Z) : QuizGame :=
  if is_correct
  then mkGame (score g + d * 10) (total_questions g + 1) (correct_answers g + 1)
         (stars_earned g + d)
  else mkGame (score g) (total_questions g + 1) (correct_answers g) (stars_earned g).

(** The next request will not be answered with a body: the connection
    fails, the status is an error, or the body cannot be read. *)
Definition no_reply (net : list response) : bool :=
  match net with
  | Reply _ :: _ | Interrupt :: _ => false
  | _ => true
  end.

(** A response body that carries the batch [q :: qs]. *)
Definition batch_reply (q : QuizQuestion) (qs : list QuizQuestion) (body : json) : Prop :=
  exists success balance, body = JDict (mkDict (Some (q :: qs)) success balance).

(** The requests of a session that began in the world [w], in the world
    [w'] in which it ended: none; or the one for the questions; or that one
    and one for the stars of the game as it stands at the end; or these two
    and the request for the stars once more. *)
Definition session_requests_shape (w w' : World) (params : list (string * value)) : Prop :=
  requests w' = requests w
  \/ requests w' = requests w ++ [GET "questions" params]
  \/ (requests w' = requests w ++ [GET "questions" params; reward_request (self w')]
      /\ stars_earned (self w') > 0)
  \/ (requests w'
      = requests w ++ [GET "questions" params; reward_request (self w'); reward_request (self w')]
      /\ stars_earned (self w') > 0).

(** How [start] can end. *)
Definition start_outcome (o : outcome unit) : Prop :=
  o = Val tt \/ o = Raise KeyboardInterrupt
  \/ o = Raise (SystemExit 0) \/ o = Raise (SystemExit 1).

(** The loop of [start] goes on after the round on [q]: the round returns,
    and, when the answer was wrong and the question is not the last, the
    user does not answer [n] or [no]. *)
Definition round_goes_on (n i : Z) (q : QuizQuestion) (w : World) : option World :=
  match play_round q w with
  | (Val true, w1) => Some w1
  | (Val false, w1) =>
      if i <? n then
        match get_user_input AskContinue ["y"; "n"; "yes"; "no"] w1 with
        | (Val continue_game, w2) => if Py.mem continue_game ["n"; "no"] then None else Some w2
        | (Raise _, _) => None
        end
      else Some w1
  | (Raise _, _) => None
  end.

(** The world in which the loop is after the rounds on [qs], when it went
    on after each of them. *)
Fixpoint rounds_go_on (n i : Z) (qs : list QuizQuestion) (w : World) : option World :=
  match qs with
  | [] => Some w
  | q :: rest =>
      match round_goes_on n i q w with
      | Some w1 => rounds_go_on n (i + 1) rest w1
      | None => None
      end
  end.

(** The parameters that [get_questions] sends. *)
Definition questions_params (category : option string) (limit : Z) (difficulty : option Z) :
    list (string * value) :=
  ([("limit", VInt limit)]
   ++ match category with
      | Some c => if truthy_str category then [("category", VStr c)] else []
      | None => []
      end)
  ++ match difficulty with
     | Some d => if truthy_int difficulty then [("difficulty", VInt d)] else []
     | None => []
     end.

(** The world in which the rounds of [start] begin, after the request for
    the questions was answered with [n] of them. *)
Definition loaded (w : World) (rest : list response) (n : Z)
    (params : list (string * value)) : World :=
  mkWorld (self w) (keyboard w) rest (stdout w ++ [Starting; Loading; Loaded n]) (stderr w)
    (requests w ++ [GET "questions" params]).

(* ================================================================= *)
(** ** The list of error reports (src/error_admin_gui.py)

    [ErrorReportingAdminGUI.load_errors]: the query it builds from the three
    filter fields, and the rows it puts into the tree.  The database is a
    function from the conditions of a query to the records it answers with;
    a column of a record is a text, a number or [None]. *)

Module ErrorAdmin.

Inductive cell : Type :=
| CNone
| CStr (s : string)
| CInt (z : Z).

(** A record of [error_reports], as the dict that the client decodes. *)
Definition report : Type := list (string * cell).

(** The exceptions that [load_errors] can meet: a slice or [len] of
    something that is not a text, a record without ['id'], and whatever the
    client raises when the query fails. *)
Inductive error : Type :=
| TypeError
| KeyError
| APIError.

(** [d.get(key, default)] *)
Fixpoint get (d : report) (key : string) (default : cell) : cell :=
  match d with
  | [] => default
  | (k, v) :: r => if String.eqb k key then v else get r key default
  end.

(** [d[key]] *)
Fixpoint getitem (d : report) (key : string) : error + cell :=
  match d with
  | [] => inl KeyError
  | (k, v) :: r => if String.eqb k key then inr v else getitem r key
  end.

(** The truth value of a column. *)
Definition truthy (c : cell) : bool :=
  match c with
  | CNone => false
  | CStr s => nonempty_str s
  | CInt z => negb (z =? 0)
  end.

(** [a or b] *)
Definition or_else (a b : cell) : cell := if truthy a then a else b.

(** [c[:n]] *)
Definition slice_to (n : nat) (c : cell) : error + cell :=
  match c with
  | CStr s => inr (CStr (substring 0 n s))
  | _ => inl TypeError
  end.

(** [len(c)] *)
Definition cell_len (c : cell) : error + nat :=
  match c with
  | CStr s => inr (String.length s)
  | _ => inl TypeError
  end.

(** [c + "..."] *)
Definition add_dots (c : cell) : error + cell :=
  match c with
  | CStr s => inr (CStr (s ++ "...")%string)
  | _ => inl TypeError
  end.

(** A row of the tree: the five columns shown, and the tags. *)
Record row : Type := mkRow {
  timestamp : cell;
  error_type : cell;
  user_id : cell;
  question_id : cell;
  error_msg : cell;
  tags : list cell
}.

(** The body of the loop [for error in response.data] up to the call of
    [insert]: the row that is inserted, or the exception raised on the
    way. *)
Definition make_row (e : report) : error + row :=
  match slice_to 19 (get e "timestamp" (CStr "")) with
  | inl x => inl x
  | inr timestamp =>
      let error_type := get e "error_type" (CStr "") in
      let user_id := get e "user_id" (CStr "") in
      let question_id := get e "question_id" (CStr "") in
      let error_msg := or_else (get e "user_message" (CStr "")) (get e "error_message" (CStr "")) in
      match cell_len error_msg with
      | inl x => inl x
      | inr n =>
          match (if (50 <? n)%nat
                 then match slice_to 50 error_msg with
                      | inl x => inl x
                      | inr head => add_dots head
                      end
                 else inr error_msg) with
          | inl x => inl x
          | inr error_msg =>
              match getitem e "id" with
              | inl x => inl x
              | inr id => inr (mkRow timestamp error_type user_id question_id error_msg [id])
              end
          end
      end
  end.

Inductive status : Type :=
| Ready
| Loaded (n : nat)
| ErrorLoading.

Inductive dialog : Type :=
| NotConnected
| FailedToLoad (e : error).

(** The widgets that [load_errors] reads and writes. *)
Record gui : Type := mkGui {
  type_filter : string;
  user_filter : string;
  question_filter : string;
  error_tree : list row;
  status_var : status;
  dialogs : list dialog
}.

(** The conditions [.eq(column, value)] of a query on [error_reports]. *)
Definition query : Type := list (string * string).

(** [execute()]: the records, or the exception of the client. *)
Definition database : Type := query -> error + list report.

(** The loop that fills the tree: it stops at the first record that raises,
    with the rows inserted so far in place. *)
Fixpoint insert_all (data : list report) (tree : list row) : list row * option error :=
  match data with
  | [] => (tree, None)
  | e :: rest =>
      match make_row e with
      | inl x => (tree, Some x)
      | inr r => insert_all rest (tree ++ [r])
      end
  end.

(** The query that [load_errors] builds from the filter fields. *)
Definition build_query (g : gui) : query :=
  let q := [] in
  let error_type := type_filter g in
  let q := if nonempty_str error_type then q ++ [("error_type", error_type)] else q in
  let user_id := Py.strip (user_filter g) in
  let q := if nonempty_str user_id then q ++ [("user_id", user_id)] else q in
  let question_id := Py.strip (question_filter g) in
  let q := if nonempty_str question_id then q ++ [("question_id", question_id)] else q in
  q.

(** The [except Exception] clause of [load_errors]. *)
Definition failed_to_load (x : error) (tree : list row) (g : gui) : gui :=
  mkGui (type_filter g) (user_filter g) (question_filter g) tree ErrorLoading
    (dialogs g ++ [FailedToLoad x]).

(** [load_errors]; [supabase_client] is [None] when no connection was
    made. *)
Definition load_errors (supabase_client : option database) (g : gui) : gui :=
  match supabase_client with
  | None =>
      mkGui (type_filter g) (user_filter g) (question_filter g) (error_tree g) (status_var g)
        (dialogs g ++ [NotConnected])
  | Some execute =>
      match execute (build_query g) with
      | inl x => failed_to_load x (error_tree g) g
      | inr data =>
          match insert_all data [] with
          | (tree, Some x) => failed_to_load x tree g
          | (tree, None) =>
              mkGui (type_filter g) (user_filter g) (question_filter g) tree
                (Loaded (List.length data)) (dialogs g)
          end
      end
  end.

(** [clear_filters] *)
Definition clear_filters (supabase_client : option database) (g : gui) : gui :=
  load_errors supabase_client
    (mkGui "" "" "" (error_tree g) (status_var g) (dialogs g)).

(** The rows of the records that can be shown. *)
Definition rows_of (data : list report) : list row :=
  flat_map (fun e => match make_row e with inr r => [r] | inl _ => [] end) data.

(** [p] is what [s] begins with. *)
Definition begins (s p : string) : Prop := exists rest, s = (p ++ rest)%string.

End ErrorAdmin.

(* ================================================================= *)
(** ** Facts about the built-ins *)

Module PyFacts.

Lemma digits_string_of_uint (u : uint) :
  u <> Nil -> Py.digits (NilEmpty.string_of_uint u) = Some u.
Proof.
  induction u as [|u IH|u IH|u IH|u IH|u IH|u IH|u IH|u IH|u IH|u IH];
    intros Hu; [ congruence | .. ];
    cbn [NilEmpty.string_of_uint Py.digits Py.digit_of_ascii];
    (destruct u; [ reflexivity | .. ]);
    (cbn [NilEmpty.string_of_uint] in *; cbn match; rewrite IH by discriminate; reflexivity).
Qed.

Lemma rstrip_string_of_uint (u : uint) :
  Py.rstrip (NilEmpty.string_of_uint u) = NilEmpty.string_of_uint u.
Proof.
  induction u; cbn [NilEmpty.string_of_uint Py.rstrip]; try reflexivity;
    rewrite IHu; destruct u; reflexivity.
Qed.

Lemma lower_string_of_uint (u : uint) :
  Py.lower (NilEmpty.string_of_uint u) = NilEmpty.string_of_uint u.
Proof.
  induction u; cbn [NilEmpty.string_of_uint Py.lower]; try reflexivity;
    rewrite IHu; reflexivity.
Qed.


(** The numeral of a positive number: what [str] prints after the sign. *)
Lemma str_pos (p : positive) :
  Py.str (Z.pos p) = NilEmpty.string_of_uint (Pos.to_uint p).
Proof.
  unfold Py.str. cbn [Z.to_int NilZero.string_of_int NilZero.string_of_uint].
  pose proof (DecimalPos.Unsigned.to_uint_nonnil p) as H.
  destruct (Pos.to_uint p); [ congruence | reflexivity .. ].
Qed.

Lemma str_neg (p : positive) :
  Py.str (Z.neg p) = String "-" (NilEmpty.string_of_uint (Pos.to_uint p)).
Proof.
  unfold Py.str. cbn [Z.to_int NilZero.string_of_int NilZero.string_of_uint].
  pose proof (DecimalPos.Unsigned.to_uint_nonnil p) as H.
  destruct (Pos.to_uint p); [ congruence | reflexivity .. ].
Qed.

Lemma lstrip_string_of_uint (u : uint) :
  Py.lstrip (NilEmpty.string_of_uint u) = NilEmpty.string_of_uint u.
Proof. destruct u; reflexivity. Qed.

Lemma strip_str (z : Z) : Py.strip (Py.str z) = Py.str z.
Proof.
  destruct z as [|p|p]; [ reflexivity | | ]; unfold Py.strip.
  - rewrite str_pos, lstrip_string_of_uint. apply rstrip_string_of_uint.
  - rewrite str_neg. cbn [Py.lstrip]. change (Py.isspace "-") with false. cbv iota.
    cbn [Py.rstrip]. rewrite rstrip_string_of_uint.
    pose proof (DecimalPos.Unsigned.to_uint_nonnil p) as H.
    destruct (Pos.to_uint p); [ congruence | reflexivity .. ].
Qed.

Lemma lower_str (z : Z) : Py.lower (Py.str z) = Py.str z.
Proof.
  destruct z as [|p|p]; [ reflexivity | | ].
  - rewrite str_pos. apply lower_string_of_uint.
  - rewrite str_neg. cbn [Py.lower]. rewrite lower_string_of_uint. reflexivity.
Qed.


Lemma int_rstrip_string_of_uint (u : uint) :
  Py.int_rstrip (NilEmpty.string_of_uint u) = NilEmpty.string_of_uint u.
Proof.
  induction u; cbn [NilEmpty.string_of_uint Py.int_rstrip]; try reflexivity;
    rewrite IHu; destruct u; reflexivity.
Qed.

Lemma int_lstrip_string_of_uint (u : uint) :
  Py.int_lstrip (NilEmpty.string_of_uint u) = NilEmpty.string_of_uint u.
Proof. destruct u; reflexivity. Qed.

(** A numeral has no blanks around it for [int()] to drop. *)
Lemma int_strip_str (z : Z) : Py.int_rstrip (Py.int_lstrip (Py.str z)) = Py.str z.
Proof.
  destruct z as [|p|p]; [ reflexivity | | ].
  - rewrite str_pos, int_lstrip_string_of_uint. apply int_rstrip_string_of_uint.
  - rewrite str_neg. cbn [Py.int_lstrip]. change (Py.int_isspace "-") with false. cbv iota.
    cbn [Py.int_rstrip]. rewrite int_rstrip_string_of_uint.
    pose proof (DecimalPos.Unsigned.to_uint_nonnil p) as H.
    destruct (Pos.to_uint p); [ congruence | reflexivity .. ].
Qed.

(** [int(str(z)) == z] *)
Lemma int_str (z : Z) : Py.int (Py.str z) = Some z.
Proof.
  unfold Py.int. rewrite int_strip_str.
  destruct z as [|p|p]; [ reflexivity | | ].
  - rewrite str_pos.
    pose proof (DecimalPos.Unsigned.to_uint_nonnil p) as Hn.
    pose proof (digits_string_of_uint (Pos.to_uint p) Hn) as Hd.
    pose proof (DecimalZ.of_to (Z.pos p)) as Hz. cbn [Z.to_int Z.of_int] in Hz.
    destruct (Pos.to_uint p); [ congruence | .. ];
      cbn [NilEmpty.string_of_uint] in *; cbv iota beta; rewrite Hd; cbn [option_map];
      rewrite Hz; reflexivity.
  - rewrite str_neg. cbv iota beta.
    rewrite digits_string_of_uint by apply DecimalPos.Unsigned.to_uint_nonnil.
    cbn [option_map].
    pose proof (DecimalZ.of_to (Z.neg p)) as Hz. cbn [Z.to_int Z.of_int] in Hz.
    rewrite Hz. reflexivity.
Qed.

Lemma str_inj (a b : Z) : Py.str a = Py.str b -> a = b.
Proof.
  intros H. pose proof (int_str a) as Ha. rewrite H, int_str in Ha. congruence.
Qed.









Lemma mem_In (x : string) (l : list string) : Py.mem x l = true <-> In x l.
Proof.
  unfold Py.mem. rewrite existsb_exists. split.
  - intros [y [Hy Heq]]. apply String.eqb_eq in Heq. subst. assumption.
  - intros H. exists x. split; [ assumption | apply String.eqb_refl ].
Qed.

Lemma In_range_from (a : Z) (n : nat) (x : Z) :
  In x (Py.range_from a n) <-> a <= x < a + Z.of_nat n.
Proof.
  revert a. induction n as [|n IH]; intros a; cbn [Py.range_from In].
  - lia.
  - rewrite IH. lia.
Qed.

End PyFacts.

(* ================================================================= *)
(** ** Binary64 arithmetic: the roundings of [/], [*] and [.1f]

    The primitive floats are specified by the functions of [SpecFloat]
    ([div_spec], [mul_spec], [of_uint63_spec]); the lemmas below follow a
    positive result through these functions: the shift to 53 bits, the
    rounding to nearest-even, and the error it leaves. *)

Module Binary64.

Ltac hide_pow :=
  repeat match goal with
         | |- context [2 ^ ?e] => let x := fresh "pw" in set (x := 2 ^ e) in *; clearbody x
         | H : context [2 ^ ?e] |- _ => let x := fresh "pw" in set (x := 2 ^ e) in *; clearbody x
         end.

Lemma digits2_bounds (p : positive) :
  2 ^ (Z.pos (digits2_pos p) - 1) <= Z.pos p < 2 ^ Z.pos (digits2_pos p).
Proof.
  induction p as [p IH|p IH|]; cbn [digits2_pos].
  - rewrite Pos2Z.inj_succ, (Pos2Z.inj_xI p).
    replace (Z.succ (Z.pos (digits2_pos p)) - 1) with (Z.succ (Z.pos (digits2_pos p) - 1)) by lia.
    rewrite !Z.pow_succ_r by lia. hide_pow. lia.
  - rewrite Pos2Z.inj_succ, (Pos2Z.inj_xO p).
    replace (Z.succ (Z.pos (digits2_pos p)) - 1) with (Z.succ (Z.pos (digits2_pos p) - 1)) by lia.
    rewrite !Z.pow_succ_r by lia. hide_pow. lia.
  - cbn. lia.
Qed.

Lemma digits2_unique (p : positive) (d : Z) :
  2 ^ (d - 1) <= Z.pos p < 2 ^ d -> Z.pos (digits2_pos p) = d.
Proof.
  intros [Hl Hu]. pose proof (digits2_bounds p) as [Bl Bu].
  assert (0 < d) by (destruct (Z.lt_trichotomy d 0) as [H|[H|H]];
                     [ rewrite Z.pow_neg_r in Hu by lia; lia | subst; cbn in Hu; lia | lia ]).
  destruct (Z.lt_trichotomy (Z.pos (digits2_pos p)) d) as [H1|[H1|H1]]; [ | exact H1 | ].
  - assert (2 ^ Z.pos (digits2_pos p) <= 2 ^ (d - 1)) by (apply Z.pow_le_mono_r; lia). lia.
  - assert (2 ^ d <= 2 ^ (Z.pos (digits2_pos p) - 1)) by (apply Z.pow_le_mono_r; lia). lia.
Qed.

Lemma shr_1_rep (mrs : shr_record) (N D : Z) :
  0 <= shr_m mrs -> 0 < D -> rep mrs N D ->
  rep (shr_1 mrs) N (2 * D) /\ shr_m (shr_1 mrs) = shr_m mrs / 2.
Proof.
  destruct mrs as [m r s]. cbn [shr_m]. intros Hm HD.
  destruct m as [|[p|p|]|]; try lia; unfold rep; cbn [shr_1 shr_m shr_r shr_s orb].
  - split; [ destruct r, s; cbn [orb]; nia | reflexivity ].
  - rewrite (Pos2Z.inj_xI p). split.
    + destruct r, s; cbn [orb]; nia.
    + apply Z.div_unique with 1; lia.
  - rewrite (Pos2Z.inj_xO p). split.
    + destruct r, s; cbn [orb]; nia.
    + apply Z.div_unique with 0; lia.
  - split; [ destruct r, s; cbn [orb]; nia | reflexivity ].
Qed.

Lemma iter_shr_rep (k : positive) :
  forall (mrs : shr_record) (N D : Z),
    0 <= shr_m mrs -> 0 < D -> rep mrs N D ->
    rep (iter_pos shr_1 k mrs) N (2 ^ Z.pos k * D)
    /\ shr_m (iter_pos shr_1 k mrs) = shr_m mrs / 2 ^ Z.pos k.
Proof.
  induction k as [k IH|k IH|]; intros mrs N D Hm HD Hrep; cbn [iter_pos].
  - destruct (shr_1_rep mrs N D Hm HD Hrep) as [R1 M1].
    assert (H1 : 0 <= shr_m (shr_1 mrs)) by (rewrite M1; apply Z.div_pos; lia).
    destruct (IH _ N (2 * D) H1 ltac:(lia) R1) as [R2 M2].
    assert (Hp : 0 < 2 ^ Z.pos k) by (apply Z.pow_pos_nonneg; lia).
    assert (H2 : 0 <= shr_m (iter_pos shr_1 k (shr_1 mrs)))
      by (rewrite M2; apply Z.div_pos; lia).
    destruct (IH _ N (2 ^ Z.pos k * (2 * D)) H2 ltac:(nia) R2) as [R3 M3].
    rewrite (Pos2Z.inj_xI k).
    replace (2 ^ (2 * Z.pos k + 1)) with (2 * (2 ^ Z.pos k * 2 ^ Z.pos k))
      by (rewrite Z.pow_add_r, <- Z.pow_twice_r by lia; rewrite Z.pow_1_r;
          replace (2 * Z.pos k) with (Z.pos k + Z.pos k) by lia;
          rewrite Z.pow_add_r by lia; lia).
    split.
    + replace (2 * (2 ^ Z.pos k * 2 ^ Z.pos k) * D)
        with (2 ^ Z.pos k * (2 ^ Z.pos k * (2 * D))) by ring. exact R3.
    + rewrite M3, M2, M1. rewrite !Z.div_div by lia. f_equal; ring.
  - destruct (IH _ N D Hm HD Hrep) as [R2 M2].
    assert (Hp : 0 < 2 ^ Z.pos k) by (apply Z.pow_pos_nonneg; lia).
    assert (H2 : 0 <= shr_m (iter_pos shr_1 k mrs))
      by (rewrite M2; apply Z.div_pos; lia).
    destruct (IH _ N (2 ^ Z.pos k * D) H2 ltac:(nia) R2) as [R3 M3].
    rewrite (Pos2Z.inj_xO k).
    replace (2 ^ (2 * Z.pos k)) with (2 ^ Z.pos k * 2 ^ Z.pos k)
      by (replace (2 * Z.pos k) with (Z.pos k + Z.pos k) by lia;
          rewrite Z.pow_add_r by lia; lia).
    split.
    + replace (2 ^ Z.pos k * 2 ^ Z.pos k * D) with (2 ^ Z.pos k * (2 ^ Z.pos k * D)) by ring.
      exact R3.
    + rewrite M3, M2. rewrite !Z.div_div by lia. reflexivity.
  - rewrite Z.pow_1_r. apply shr_1_rep; assumption.
Qed.


Lemma rne_rep (mrs : shr_record) (N D : Z) :
  0 < D -> rep mrs N D ->
  (round_nearest_even (shr_m mrs) (loc_of_shr_record mrs) = shr_m mrs
   \/ round_nearest_even (shr_m mrs) (loc_of_shr_record mrs) = shr_m mrs + 1)
  /\ - D <= 2 * (round_nearest_even (shr_m mrs) (loc_of_shr_record mrs) * D - N) <= D.
Proof.
  destruct mrs as [m r s]. unfold rep. cbn [shr_m shr_r shr_s loc_of_shr_record].
  intros HD H. destruct r, s; cbn [round_nearest_even];
    try destruct (Z.even m); split; try (left; reflexivity); try (right; reflexivity); nia.
Qed.

Lemma shr_m_of_loc (m : Z) (l : location) : shr_m (shr_record_of_loc m l) = m.
Proof. destruct l as [|[| |]]; reflexivity. Qed.

(** Shifting a mantissa of at least 53 digits down to exactly 53. *)
Lemma shr_fexp_spec (m : positive) (e : Z) (l : location) (N D : Z) :
  0 < D -> rep (shr_record_of_loc (Z.pos m) l) N D ->
  53 <= Z.pos (digits2_pos m) ->
  -1074 <= Z.pos (digits2_pos m) + e - 53 ->
  exists mrs,
    shr_fexp prec emax (Z.pos m) e l = (mrs, e + (Z.pos (digits2_pos m) - 53))
    /\ rep mrs N (2 ^ (Z.pos (digits2_pos m) - 53) * D)
    /\ shr_m mrs = Z.pos m / 2 ^ (Z.pos (digits2_pos m) - 53)
    /\ 2 ^ 52 <= shr_m mrs < 2 ^ 53.
Proof.
  intros HD Hrep Hd He.
  pose proof (digits2_bounds m) as [Bl Bu].
  set (d := Z.pos (digits2_pos m)) in *.
  unfold shr_fexp, fexp, SpecFloat.emin, prec, emax. cbn [Zdigits2]. fold d.
  replace (Z.max (d + e - 53) (3 - 1024 - 53)) with (d + e - 53) by lia.
  replace (d + e - 53 - e) with (d - 53) by lia.
  assert (Hk : 0 <= d - 53) by lia.
  assert (Hpow : 2 ^ (d - 1) = 2 ^ 52 * 2 ^ (d - 53))
    by (rewrite <- Z.pow_add_r by lia; f_equal; lia).
  assert (Hpow' : 2 ^ d = 2 ^ 53 * 2 ^ (d - 53))
    by (rewrite <- Z.pow_add_r by lia; f_equal; lia).
  assert (Hp : 0 < 2 ^ (d - 53)) by (apply Z.pow_pos_nonneg; lia).
  assert (Hb : 2 ^ 52 <= Z.pos m / 2 ^ (d - 53) < 2 ^ 53).
  { split.
    - apply Z.div_le_lower_bound; [ exact Hp | ]. rewrite Z.mul_comm, <- Hpow. exact Bl.
    - apply Z.div_lt_upper_bound; [ exact Hp | ]. rewrite Z.mul_comm, <- Hpow'. exact Bu. }
  unfold shr. destruct (d - 53) as [|k|k] eqn:Ek; [ | | lia ].
  - exists (shr_record_of_loc (Z.pos m) l).
    rewrite Z.add_0_r, Z.pow_0_r, Z.mul_1_l, shr_m_of_loc, Z.div_1_r in *.
    repeat split; try assumption; lia.
  - destruct (iter_shr_rep k (shr_record_of_loc (Z.pos m) l) N D) as [R M];
      [ rewrite shr_m_of_loc; lia | exact HD | exact Hrep | ].
    rewrite shr_m_of_loc in M.
    exists (iter_pos shr_1 k (shr_record_of_loc (Z.pos m) l)).
    rewrite M. repeat split; try assumption; lia.
Qed.

(** Rounding to nearest-even, as [SFmul] and [SFdiv] do it with their exact
    result: the mantissa [m] at exponent [e], which stands for [N / D] units
    of [2^e], becomes a 53-bit mantissa [m3] at exponent [e + j], at most half
    a unit of [2^(e+j)] from it. *)
Lemma binary_round_aux_spec (m : positive) (e : Z) (l : location) (N D : Z) :
  0 < D -> rep (shr_record_of_loc (Z.pos m) l) N D ->
  53 <= Z.pos (digits2_pos m) ->
  -1074 <= Z.pos (digits2_pos m) + e - 53 ->
  Z.pos (digits2_pos m) + e <= 1023 ->
  exists (m3 : positive) (j : Z),
    binary_round_aux prec emax false (Z.pos m) e l = S754_finite false m3 (e + j)
    /\ Z.pos (digits2_pos m) - 53 <= j <= Z.pos (digits2_pos m) - 52
    /\ 2 ^ 52 <= Z.pos m3 < 2 ^ 53
    /\ - (2 ^ j * D) <= 2 * (Z.pos m3 * 2 ^ j * D - N) <= 2 ^ j * D.
Proof.
  intros HD Hrep Hd He Hmax.
  destruct (shr_fexp_spec m e l N D HD Hrep Hd He) as (mrs & E1 & R1 & M1 & B1).
  set (k := Z.pos (digits2_pos m) - 53) in *.
  assert (Hk : 0 <= k) by (subst k; lia).
  assert (Hp : 0 < 2 ^ k) by (apply Z.pow_pos_nonneg; lia).
  destruct (rne_rep mrs N (2 ^ k * D) ltac:(nia) R1) as [Hm2 Herr].
  set (m2 := round_nearest_even (shr_m mrs) (loc_of_shr_record mrs)) in *.
  unfold binary_round_aux. rewrite E1. fold m2.
  assert (Hm2pos : 0 < m2) by lia.
  destruct m2 as [|p2|p2] eqn:Em2; try lia.
  destruct (Z.eq_dec (Z.pos p2) (2 ^ 53)) as [Htop|Htop].
  - (* the mantissa was rounded up to 2^53 *)
    change (2 ^ 53) with 9007199254740992 in Htop. injection Htop as ->.
    destruct (shr_fexp_spec 9007199254740992 (e + k) loc_Exact 9007199254740992 1)
      as (mrs2 & E2 & _ & M2 & _);
      [ lia | reflexivity | vm_compute; discriminate
      | change (Z.pos (digits2_pos 9007199254740992)) with 54; lia | ].
    change (Z.pos (digits2_pos 9007199254740992)) with 54 in E2, M2.
    change (9007199254740992 / 2 ^ (54 - 53)) with 4503599627370496 in M2.
    change (54 - 53) with 1 in E2.
    rewrite E2, M2.
    exists 4503599627370496%positive, (k + 1).
    split; [ | split; [ lia | split; [ cbn; lia | ] ] ].
    + unfold prec, emax.
      replace (e + k + 1 <=? 1024 - 53) with true by (symmetry; apply Z.leb_le; lia).
      f_equal. lia.
    + rewrite Z.pow_add_r by lia. change (2 ^ 1) with 2. nia.
  - assert (Hd2 : Z.pos (digits2_pos p2) = 53)
      by (apply digits2_unique; change (53 - 1) with 52; lia).
    destruct (shr_fexp_spec p2 (e + k) loc_Exact (Z.pos p2) 1) as (mrs2 & E2 & _ & M2 & _);
      [ lia | unfold rep; cbn [shr_record_of_loc shr_m shr_r shr_s]; lia | lia | lia | ].
    rewrite Hd2 in E2, M2. change (53 - 53) with 0 in E2, M2.
    rewrite Z.pow_0_r, Z.div_1_r in M2. rewrite Z.add_0_r in E2.
    rewrite E2, M2.
    exists p2, k. split; [ | split; [ lia | split; [ lia | nia ] ] ].
    unfold prec, emax.
    replace (e + k <=? 1024 - 53) with true by (symmetry; apply Z.leb_le; lia).
    reflexivity.
Qed.


(** A 53-bit mantissa with nothing to round is kept as it is. *)
Lemma binary_round_aux_exact (m : positive) (e : Z) :
  Z.pos (digits2_pos m) = 53 -> -1074 <= e <= 970 ->
  binary_round_aux prec emax false (Z.pos m) e loc_Exact = S754_finite false m e.
Proof.
  intros Hd He.
  assert (Hs : shr_fexp prec emax (Z.pos m) e loc_Exact
               = (shr_record_of_loc (Z.pos m) loc_Exact, e)).
  { unfold shr_fexp, fexp, SpecFloat.emin, prec, emax. cbn [Zdigits2]. rewrite Hd.
    replace (Z.max (53 + e - 53) (3 - 1024 - 53) - e) with 0 by lia. reflexivity. }
  unfold binary_round_aux. rewrite Hs.
  cbn [shr_record_of_loc shr_m loc_of_shr_record round_nearest_even].
  rewrite Hs. cbn [shr_record_of_loc shr_m]. unfold prec, emax.
  replace (e <=? 1024 - 53) with true by (symmetry; apply Z.leb_le; lia).
  reflexivity.
Qed.

Lemma iter_xO (p d : positive) : Z.pos (Pos.iter xO p d) = Z.pos p * 2 ^ Z.pos d.
Proof.
  apply (Pos.iter_ind _ xO p (fun d r => Z.pos r = Z.pos p * 2 ^ Z.pos d)).
  - rewrite Z.pow_1_r. lia.
  - intros q r IH. rewrite (Pos2Z.inj_xO r), IH, Pos2Z.inj_succ, Z.pow_succ_r by lia. ring.
Qed.

(** The float of a positive integer below [2^53] is that integer: its
    mantissa is the integer shifted to 53 bits. *)
Lemma of_int_exact (c : Z) :
  0 < c < 2 ^ 53 ->
  exists (m : positive) (a : Z),
    Prim2SF (of_uint63 (Uint63.of_Z c)) = S754_finite false m (- a)
    /\ 0 <= a <= 52
    /\ Z.pos m = c * 2 ^ a
    /\ Z.pos (digits2_pos m) = 53.
Proof.
  intros Hc. rewrite of_uint63_spec, Uint63.of_Z_spec.
  rewrite Z.mod_small by (change wB with (2 ^ 63); split; [ lia | ];
                          apply Z.lt_trans with (2 ^ 53); [ lia | reflexivity ]).
  destruct c as [|p|p]; try lia.
  pose proof (digits2_bounds p) as [Bl Bu].
  set (d := Z.pos (digits2_pos p)) in *.
  assert (Hd : 1 <= d <= 53).
  { split; [ subst d; lia | ].
    destruct (Z.le_gt_cases d 53) as [H|H]; [ exact H | ].
    assert (2 ^ 53 <= 2 ^ (d - 1)) by (apply Z.pow_le_mono_r; lia). lia. }
  cbn [binary_normalize]. unfold binary_round, fexp, SpecFloat.emin, prec, emax.
  rewrite Z.add_0_r. fold d.
  replace (Z.max (d - 53) (3 - 1024 - 53)) with (d - 53) by lia.
  unfold shl_align. rewrite Z.sub_0_r.
  destruct (d - 53) as [|k|k] eqn:Ek; try lia.
  - exists p, 0. rewrite binary_round_aux_exact by (fold d; lia).
    rewrite Z.pow_0_r. repeat split; try fold d; lia.
  - assert (Hm : Z.pos (Pos.iter xO p k) = Z.pos p * 2 ^ (53 - d))
      by (rewrite iter_xO; f_equal; f_equal; lia).
    assert (Hdm : Z.pos (digits2_pos (Pos.iter xO p k)) = 53).
    { apply digits2_unique. rewrite Hm. change (53 - 1) with 52.
      replace (2 ^ 52) with (2 ^ (d - 1) * 2 ^ (53 - d))
        by (rewrite <- Z.pow_add_r by lia; f_equal; lia).
      replace (2 ^ 53) with (2 ^ d * 2 ^ (53 - d))
        by (rewrite <- Z.pow_add_r by lia; f_equal; lia).
      assert (0 < 2 ^ (53 - d)) by (apply Z.pow_pos_nonneg; lia).
      split; nia. }
    exists (Pos.iter xO p k), (53 - d).
    rewrite binary_round_aux_exact by (try exact Hdm; lia).
    repeat split; try lia; f_equal; lia.
Qed.


(** The quotient [q] of a division with its remainder [r], as a mantissa
    with round and sticky bits. *)
Lemma new_location_rep (D q r : Z) :
  0 <= r < D ->
  rep (shr_record_of_loc q (new_location D r)) (q * D + r) D.
Proof.
  intros Hr. unfold new_location, new_location_even, new_location_odd.
  destruct (Z.even D) eqn:Hev.
  - destruct (Z.eqb_spec r 0) as [->|Hr0];
      [ unfold rep; cbn [shr_record_of_loc shr_m shr_r shr_s]; lia | ].
    destruct (Z.compare_spec (2 * r) D); unfold rep;
      cbn [shr_record_of_loc shr_m shr_r shr_s]; nia.
  - destruct (Z.eqb_spec r 0) as [->|Hr0];
      [ unfold rep; cbn [shr_record_of_loc shr_m shr_r shr_s]; lia | ].
    assert (Hodd : Z.odd D = true) by (rewrite <- Z.negb_even, Hev; reflexivity).
    apply Z.odd_spec in Hodd. destruct Hodd as [k Hk].
    destruct (Z.compare_spec (2 * r + 1) D); unfold rep;
      cbn [shr_record_of_loc shr_m shr_r shr_s]; nia.
Qed.

(** Division of two positive floats with 53-bit mantissas. *)
Lemma div_finite (m1 m2 : positive) (a1 a2 : Z) :
  Z.pos (digits2_pos m1) = 53 -> Z.pos (digits2_pos m2) = 53 ->
  0 <= a1 <= 52 -> 0 <= a2 <= 52 ->
  exists (m3 : positive) (j : Z),
    SFdiv prec emax (S754_finite false m1 (- a1)) (S754_finite false m2 (- a2))
    = S754_finite false m3 (a2 - a1 - 53 + j)
    /\ 0 <= j <= 2
    /\ 2 ^ 52 <= Z.pos m3 < 2 ^ 53
    /\ - (2 ^ j * Z.pos m2) <= 2 * (Z.pos m3 * 2 ^ j * Z.pos m2 - Z.pos m1 * 2 ^ 53)
       <= 2 ^ j * Z.pos m2.
Proof.
  intros Hd1 Hd2 Ha1 Ha2.
  pose proof (digits2_bounds m1) as B1. pose proof (digits2_bounds m2) as B2.
  rewrite Hd1 in B1. rewrite Hd2 in B2. change (53 - 1) with 52 in B1, B2.
  unfold SFdiv, SFdiv_core_binary. cbn [xorb Zdigits2]. rewrite Hd1, Hd2.
  unfold fexp, SpecFloat.emin, prec, emax.
  replace (Z.min (Z.max (53 + - a1 - (53 + - a2) - 53) (3 - 1024 - 53)) (- a1 - - a2))
    with (a2 - a1 - 53) by lia.
  replace (- a1 - - a2 - (a2 - a1 - 53)) with 53 by lia.
  cbv iota. rewrite Z.shiftl_mul_pow2 by lia.
  pose proof (Z_div_mod (Z.pos m1 * 2 ^ 53) (Z.pos m2) ltac:(lia)) as Hdm.
  destruct (Z.div_eucl (Z.pos m1 * 2 ^ 53) (Z.pos m2)) as [q r].
  destruct Hdm as [Hq Hr].
  assert (Hqb : 2 ^ 52 <= q < 2 ^ 54).
  { change (2 ^ 53) with 9007199254740992 in *. change (2 ^ 52) with 4503599627370496 in *.
    change (2 ^ 54) with 18014398509481984. nia. }
  destruct q as [|pq|pq]; try (change (2 ^ 52) with 4503599627370496 in Hqb; lia).
  pose proof (digits2_bounds pq) as Bq.
  assert (Hdq : 53 <= Z.pos (digits2_pos pq) <= 54).
  { split.
    - destruct (Z.le_gt_cases 53 (Z.pos (digits2_pos pq))) as [H|H]; [ exact H | ].
      assert (2 ^ Z.pos (digits2_pos pq) <= 2 ^ 52) by (apply Z.pow_le_mono_r; lia). lia.
    - destruct (Z.le_gt_cases (Z.pos (digits2_pos pq)) 54) as [H|H]; [ exact H | ].
      assert (2 ^ 54 <= 2 ^ (Z.pos (digits2_pos pq) - 1)) by (apply Z.pow_le_mono_r; lia). lia. }
  destruct (binary_round_aux_spec pq (a2 - a1 - 53) (new_location (Z.pos m2) r)
              (Z.pos m1 * 2 ^ 53) (Z.pos m2)) as (m3 & j & E & Hj & Hm3 & Herr);
    try lia.
  { rewrite Hq. replace (Z.pos m2 * Z.pos pq + r) with (Z.pos pq * Z.pos m2 + r) by ring.
    apply new_location_rep. exact Hr. }
  exists m3, j. split; [ exact E | ]. repeat split; try lia.
Qed.

(** Multiplication of two positive floats with 53-bit mantissas. *)
Lemma mul_finite (m1 m2 : positive) (a1 a2 : Z) :
  Z.pos (digits2_pos m1) = 53 -> Z.pos (digits2_pos m2) = 53 ->
  0 <= a1 <= 200 -> 0 <= a2 <= 200 ->
  exists (m3 : positive) (j : Z),
    SFmul prec emax (S754_finite false m1 (- a1)) (S754_finite false m2 (- a2))
    = S754_finite false m3 (- a1 - a2 + j)
    /\ 52 <= j <= 54
    /\ 2 ^ 52 <= Z.pos m3 < 2 ^ 53
    /\ - 2 ^ j <= 2 * (Z.pos m3 * 2 ^ j - Z.pos m1 * Z.pos m2) <= 2 ^ j.
Proof.
  intros Hd1 Hd2 Ha1 Ha2.
  pose proof (digits2_bounds m1) as B1. pose proof (digits2_bounds m2) as B2.
  rewrite Hd1 in B1. rewrite Hd2 in B2. change (53 - 1) with 52 in B1, B2.
  unfold SFmul. cbn [xorb].
  assert (Hpb : 2 ^ 104 <= Z.pos (m1 * m2) < 2 ^ 106).
  { rewrite Pos2Z.inj_mul.
    change (2 ^ 104) with (2 ^ 52 * 2 ^ 52). change (2 ^ 106) with (2 ^ 53 * 2 ^ 53).
    change (2 ^ 53) with 9007199254740992 in *. change (2 ^ 52) with 4503599627370496 in *.
    nia. }
  pose proof (digits2_bounds (m1 * m2)) as Bp.
  assert (Hdp : 105 <= Z.pos (digits2_pos (m1 * m2)) <= 106).
  { split.
    - destruct (Z.le_gt_cases 105 (Z.pos (digits2_pos (m1 * m2)))) as [H|H]; [ exact H | ].
      assert (2 ^ Z.pos (digits2_pos (m1 * m2)) <= 2 ^ 104) by (apply Z.pow_le_mono_r; lia).
      lia.
    - destruct (Z.le_gt_cases (Z.pos (digits2_pos (m1 * m2))) 106) as [H|H]; [ exact H | ].
      assert (2 ^ 106 <= 2 ^ (Z.pos (digits2_pos (m1 * m2)) - 1))
        by (apply Z.pow_le_mono_r; lia).
      lia. }
  destruct (binary_round_aux_spec (m1 * m2) (- a1 + - a2) loc_Exact (Z.pos (m1 * m2)) 1)
    as (m3 & j & E & Hj & Hm3 & Herr); try lia.
  { unfold rep. cbn [shr_record_of_loc shr_m shr_r shr_s]. lia. }
  exists m3, j. rewrite Pos2Z.inj_mul in Herr.
  split; [ rewrite E; f_equal; lia | ]. repeat split; lia.
Qed.


(** The integer that [round_half_even] picks is at most half a unit away. *)
Lemma round_half_even_near (m a : Z) :
  0 < a ->
  - 2 ^ a <= 2 * (PyFloat.round_half_even m (- a) * 2 ^ a - m) <= 2 ^ a.
Proof.
  intros Ha. unfold PyFloat.round_half_even.
  replace (0 <=? - a) with false by (symmetry; apply Z.leb_gt; lia).
  rewrite Z.opp_involutive.
  assert (Hp : 0 < 2 ^ a) by (apply Z.pow_pos_nonneg; lia).
  pose proof (Z.div_mod m (2 ^ a) ltac:(lia)) as Hdm.
  pose proof (Z.mod_pos_bound m (2 ^ a) Hp) as Hr.
  set (d := 2 ^ a) in *. set (q := m / d) in *. set (r := m mod d) in *.
  destruct (Z.compare_spec (2 * r) d); try destruct (Z.even q); nia.
Qed.

Lemma scale_factor (K A B : Z) :
  0 < K -> - B <= 2 * A <= B -> - (K * B) <= 2 * (K * A) <= K * B.
Proof.
  intros HK [Hl Hu].
  apply (Z.mul_le_mono_nonneg_l _ _ K) in Hl; [ | lia ].
  apply (Z.mul_le_mono_nonneg_l _ _ K) in Hu; [ | lia ].
  rewrite Z.mul_opp_r in Hl. lia.
Qed.

Lemma cancel_factor (K A n : Z) :
  0 < K -> - (K * n) <= 2 * (K * A) <= K * n -> - n <= 2 * A <= n.
Proof. intros HK H. nia. Qed.

(** The two roundings of [c / n * 100] and the rounding of the format:
    what is shown is a tenth nearest to [100 * c / n]. *)
Theorem tenths_of_ratio (c n : Z) :
  0 <= c <= n -> 0 < n <= 2 ^ 39 ->
  exists t : Z,
    PyFloat.tenths
      (PyFloat.mul_int (PrimFloat.div (PyFloat.of_int c) (PyFloat.of_int n)) 100)
    = Some (false, t)
    /\ - n <= 2 * t * n - 2000 * c <= n.
Proof.
  intros Hc Hn.
  assert (H39 : 2 ^ 39 < 2 ^ 53) by reflexivity.
  assert (E100 : Prim2SF (PyFloat.of_int 100) = S754_finite false 7036874417766400 (- 46))
    by (vm_compute; reflexivity).
  destruct (of_int_exact n ltac:(lia)) as (mn & an & En & Han & Hmn & Hdn).
  unfold PyFloat.tenths, PyFloat.mul_int. rewrite mul_spec, div_spec, E100.
  fold (PyFloat.of_int n) in En. rewrite En.
  destruct (Z.eq_dec c 0) as [->|Hc0].
  { exists 0. split; [ vm_compute; reflexivity | lia ]. }
  destruct (of_int_exact c ltac:(lia)) as (mc & ac & Ec & Hac & Hmc & Hdc).
  fold (PyFloat.of_int c) in Ec. rewrite Ec.
  pose proof (digits2_bounds mc) as Bc. pose proof (digits2_bounds mn) as Bn.
  rewrite Hdc in Bc. rewrite Hdn in Bn. change (53 - 1) with 52 in Bc, Bn.
  assert (Hpac : 0 < 2 ^ ac) by (apply Z.pow_pos_nonneg; lia).
  assert (Hpan : 0 < 2 ^ an) by (apply Z.pow_pos_nonneg; lia).
  assert (Hle : an <= ac).
  { destruct (Z.le_gt_cases an ac) as [H|H]; [ exact H | exfalso ].
    assert (2 * 2 ^ ac <= 2 ^ an)
      by (rewrite <- Z.pow_succ_r by lia; apply Z.pow_le_mono_r; lia).
    change (2 ^ 53) with (2 * 2 ^ 52) in Bn. nia. }
  destruct (div_finite mc mn ac an Hdc Hdn Hac Han) as (mx & j1 & Ex & Hj1 & Hmx & Herr1).
  unfold SF64div. rewrite Ex.
  set (ax := ac - an + 53 - j1).
  replace (an - ac - 53 + j1) with (- ax) by (subst ax; lia).
  assert (Hax : 51 <= ax <= 105) by (subst ax; lia).
  assert (Hdx : Z.pos (digits2_pos mx) = 53)
    by (apply digits2_unique; change (53 - 1) with 52; lia).
  destruct (mul_finite mx 7036874417766400 ax 46 Hdx ltac:(reflexivity) ltac:(lia) ltac:(lia))
    as (my & j2 & Ey & Hj2 & Hmy & Herr2).
  change (Z.opp 46) with (Z.neg 46) in Ey.
  unfold SF64mul. rewrite Ey.
  set (ay := ax + 46 - j2).
  replace (- ax - 46 + j2) with (- ay) by (subst ay; lia).
  assert (Hay : 43 <= ay <= 99) by (subst ay; lia).
  exists (PyFloat.round_half_even (10 * Z.pos my) (- ay)). split; [ reflexivity | ].
  pose proof (round_half_even_near (10 * Z.pos my) ay ltac:(lia)) as F3.
  set (t := PyFloat.round_half_even (10 * Z.pos my) (- ay)) in *.
  (* the quotient: [mx / 2^ax] is within half a unit of [c / n] *)
  assert (F1 : - n <= 2 * (Z.pos mx * n - c * 2 ^ ax) <= n).
  { apply (cancel_factor (2 ^ j1 * 2 ^ an)).
    - apply Z.mul_pos_pos; apply Z.pow_pos_nonneg; lia.
    - assert (Hid : 2 ^ ac * 2 ^ 53 = 2 ^ ax * (2 ^ j1 * 2 ^ an))
        by (rewrite <- !Z.pow_add_r by lia; f_equal; subst ax; lia).
      rewrite Hmn, Hmc in Herr1.
      replace (2 ^ j1 * 2 ^ an * (Z.pos mx * n - c * 2 ^ ax))
        with (Z.pos mx * 2 ^ j1 * (n * 2 ^ an) - c * (2 ^ ax * (2 ^ j1 * 2 ^ an))) by ring.
      rewrite <- Hid.
      replace (c * (2 ^ ac * 2 ^ 53)) with (c * 2 ^ ac * 2 ^ 53) by ring.
      replace (2 ^ j1 * 2 ^ an * n) with (2 ^ j1 * (n * 2 ^ an)) by ring.
      exact Herr1. }
  (* the product: [my / 2^ay] is within half a unit of [100 * mx / 2^ax] *)
  assert (F2 : - 2 ^ ax <= 2 * (Z.pos my * 2 ^ ax - 100 * Z.pos mx * 2 ^ ay) <= 2 ^ ax).
  { apply (cancel_factor (2 ^ 46)); [ reflexivity | ].
    assert (Hid : 2 ^ ay * 2 ^ j2 = 2 ^ 46 * 2 ^ ax)
      by (rewrite <- !Z.pow_add_r by lia; f_equal; subst ay; lia).
    assert (Hpy : 0 < 2 ^ ay) by (apply Z.pow_pos_nonneg; lia).
    change 7036874417766400 with (100 * 2 ^ 46) in Herr2.
    pose proof (scale_factor (2 ^ ay) _ _ Hpy Herr2) as Hs.
    rewrite Hid in Hs.
    replace (2 ^ 46 * (Z.pos my * 2 ^ ax - 100 * Z.pos mx * 2 ^ ay))
      with (Z.pos my * (2 ^ 46 * 2 ^ ax) - Z.pos mx * (100 * 2 ^ 46) * 2 ^ ay) by ring.
    rewrite <- Hid.
    replace (Z.pos my * (2 ^ ay * 2 ^ j2) - Z.pos mx * (100 * 2 ^ 46) * 2 ^ ay)
      with (2 ^ ay * (Z.pos my * 2 ^ j2 - Z.pos mx * (100 * 2 ^ 46))) by ring.
    rewrite Hid. exact Hs. }
  (* the three together *)
  assert (HEx : 2 ^ 51 <= 2 ^ ax) by (apply Z.pow_le_mono_r; lia).
  assert (HEy : 2 ^ 43 <= 2 ^ ay) by (apply Z.pow_le_mono_r; lia).
  change (2 ^ 51) with 2251799813685248 in HEx.
  change (2 ^ 43) with 8796093022208 in HEy.
  change (2 ^ 39) with 549755813888 in Hn.
  set (X := 2 ^ ax) in *. set (Y := 2 ^ ay) in *. set (x := Z.pos mx) in *.
  set (y := Z.pos my) in *.
  clearbody X Y x y t.
  clear - Hc Hn F1 F2 F3 HEx HEy.
  assert (Hid : (2 * t * n - 2000 * c) * (X * Y)
                = n * X * (2 * (t * Y - 10 * y)) + 10 * n * (2 * (y * X - 100 * x * Y))
                  + 1000 * Y * (2 * (x * n - c * X))) by ring.
  assert (B1 : - (n * X * Y) <= n * X * (2 * (t * Y - 10 * y)) <= n * X * Y) by nia.
  assert (B2 : - (10 * n * X) <= 10 * n * (2 * (y * X - 100 * x * Y)) <= 10 * n * X) by nia.
  assert (B3 : - (1000 * Y * n) <= 1000 * Y * (2 * (x * n - c * X)) <= 1000 * Y * n) by nia.
  assert (S1 : 16 * (n * X) <= 1 * (X * Y)) by nia.
  assert (S2 : 4096 * (n * Y) <= 1 * (X * Y)) by nia.
  assert (HXY : 0 < X * Y) by nia.
  assert (Hbound : - ((n + 1) * (X * Y)) < (2 * t * n - 2000 * c) * (X * Y) < (n + 1) * (X * Y))
    by (rewrite Hid; nia).
  destruct Hbound as [Hlo Hhi].
  rewrite <- Z.mul_opp_l in Hlo.
  apply Z.mul_lt_mono_pos_r in Hlo; [ | exact HXY ].
  apply Z.mul_lt_mono_pos_r in Hhi; [ | exact HXY ].
  lia.
Qed.

End Binary64.

(* ================================================================= *)
(** ** Worlds and the primitive computations *)

(** Worlds are compared field by field, after naming their fields. *)
Ltac world_fields :=
  cbv [put_lines put_line set_keyboard self keyboard network stdout stderr requests].

Ltac world_eq :=
  world_fields; repeat rewrite <- app_assoc; cbn [app]; try rewrite app_nil_r; reflexivity.

(** One step of a computation built from the primitives. *)
Tactic Notation "run" :=
  cbv [bind ret raise print eprint get_self set_self sys_exit or_raise when
       clear_screen print_header print_score
       put_lines put_line set_keyboard self keyboard network stdout stderr requests].
Tactic Notation "run" "in" hyp(H) :=
  cbv [bind ret raise print eprint get_self set_self sys_exit or_raise when
       clear_screen print_header print_score
       put_lines put_line set_keyboard self keyboard network stdout stderr requests] in H.

Lemma put_lines_nil (w : World) : put_lines [] w = w.
Proof. destruct w. world_eq. Qed.

Lemma put_lines_cons (l : line) (ls : list line) (w : World) :
  put_lines (l :: ls) w = put_lines ls (put_line l w).
Proof. destruct w. world_eq. Qed.

Lemma sleep_quiet (w : World) :
  pause_interrupted (keyboard w) = false -> sleep w = (Val tt, w).
Proof.
  unfold sleep. destruct (keyboard w) as [|[s| |] rest]; cbn; congruence.
Qed.

Lemma print_choices_eq (l : list (Z * string)) (w : World) :
  print_choices l w = (Val tt, put_lines (choice_lines l) w).
Proof.
  revert w. induction l as [|[i o] l IH]; intros w; cbn [print_choices choice_lines map].
  - unfold ret. now rewrite put_lines_nil.
  - unfold bind, print. rewrite IH. cbn [fst snd]. now rewrite put_lines_cons.
Qed.

Lemma display_question_eq (q : QuizQuestion) (w : World) :
  display_question q w =
  (match coerce_difficulty (difficulty q) with
   | Some _ => Val q
   | None => Raise (Exception ValueError)
   end,
   put_lines (display_lines q (self w)) w).
Proof.
  destruct w as [g keys net out err reqs].
  unfold display_question, display_lines.
  destruct (nonempty_str (biblicalReference q)), (nonempty (categories q)),
    (coerce_difficulty (difficulty q));
    run; try rewrite print_choices_eq; f_equal; world_eq.
Qed.

(* ================================================================= *)
(** ** [get_user_input] *)

Lemma loop_ignores_keyboard (p : prompt) (v : list string) (keys k : list key_event) (w : World) :
  get_user_input_loop p v keys (set_keyboard k w) = get_user_input_loop p v keys w.
Proof.
  revert w. induction keys as [|[s| |] rest IH]; intros w;
    cbn [get_user_input_loop]; try (destruct w; reflexivity).
  destruct (nonempty v && negb (Py.mem (Py.lower (Py.strip s)) v)).
  - rewrite <- (IH (put_line (PleaseEnter v) (put_line (Prompt p) w))).
    destruct w; reflexivity.
  - destruct w; reflexivity.
Qed.

(** A line that passes the check is returned, lower-cased and stripped. *)
Lemma get_user_input_accepts (p : prompt) (v : list string) (w : World)
    (raw : string) (rest : list key_event) :
  keyboard w = Typed raw :: rest ->
  nonempty v && negb (Py.mem (Py.lower (Py.strip raw)) v) = false ->
  get_user_input p v w
  = (Val (Py.lower (Py.strip raw)), set_keyboard rest (put_line (Prompt p) w)).
Proof.
  intros Hk Hc. unfold get_user_input. rewrite Hk.
  cbn [get_user_input_loop]. rewrite Hc. reflexivity.
Qed.

(** A line that fails the check is answered with the hint, and the loop
    starts again on what the user does next. *)
Lemma get_user_input_rejects (p : prompt) (v : list string) (w : World)
    (raw : string) (rest : list key_event) :
  keyboard w = Typed raw :: rest ->
  nonempty v && negb (Py.mem (Py.lower (Py.strip raw)) v) = true ->
  get_user_input p v w
  = get_user_input p v
      (put_line (PleaseEnter v) (put_line (Prompt p) (set_keyboard rest w))).
Proof.
  intros Hk Hc. unfold get_user_input. rewrite Hk.
  cbn [get_user_input_loop]. rewrite Hc.
  replace (keyboard (put_line (PleaseEnter v) (put_line (Prompt p) (set_keyboard rest w))))
    with rest by reflexivity.
  rewrite <- (loop_ignores_keyboard p v rest rest
                (put_line (PleaseEnter v) (put_line (Prompt p) w))).
  destruct w; reflexivity.
Qed.

(** Ctrl-C at the prompt ends the process with status 0, there and then. *)
Lemma get_user_input_interrupted (p : prompt) (v : list string) (w : World)
    (rest : list key_event) :
  keyboard w = CtrlC :: rest ->
  get_user_input p v w
  = (Raise (SystemExit 0),
     put_line InterruptedByUser (put_line (Prompt p) (set_keyboard rest w))).
Proof.
  intros Hk. unfold get_user_input. rewrite Hk. destruct w; reflexivity.
Qed.

Lemma get_user_input_loop_self (p : prompt) (v : list string) (keys : list key_event) (w : World) :
  self (snd (get_user_input_loop p v keys w)) = self w.
Proof.
  revert w. induction keys as [|[s| |] rest IH]; intros w;
    cbn [get_user_input_loop]; try reflexivity.
  destruct (nonempty v && negb (Py.mem (Py.lower (Py.strip s)) v)).
  - rewrite IH. reflexivity.
  - reflexivity.
Qed.

Lemma get_user_input_self (p : prompt) (v : list string) (w : World) :
  self (snd (get_user_input p v w)) = self w.
Proof. apply get_user_input_loop_self. Qed.

(** Nothing is sent to the service while the user is asked. *)
Lemma get_user_input_loop_requests (p : prompt) (v : list string) (keys : list key_event) (w : World) :
  requests (snd (get_user_input_loop p v keys w)) = requests w.
Proof.
  revert w. induction keys as [|[s| |] rest IH]; intros w;
    cbn [get_user_input_loop]; try reflexivity.
  destruct (nonempty v && negb (Py.mem (Py.lower (Py.strip s)) v)).
  - rewrite IH. reflexivity.
  - reflexivity.
Qed.

(** The selection prompt accepts exactly the numerals of [1 .. len]. *)
Lemma valid_choice_iff (q : QuizQuestion) (x : string) :
  Py.mem x (valid_choices_of q) = true
  <-> exists s, 1 <= s <= len (allOptions q) /\ x = Py.str s.
Proof.
  unfold valid_choices_of, len. rewrite PyFacts.mem_In, in_map_iff. split.
  - intros [s [Hs Hin]]. apply PyFacts.In_range_from in Hin.
    exists s. split; [ lia | congruence ].
  - intros [s [Hs ->]]. exists s. split; [ reflexivity | ].
    apply PyFacts.In_range_from. lia.
Qed.


Lemma valid_choices_nonempty (q : QuizQuestion) :
  allOptions q <> [] -> nonempty (valid_choices_of q) = true.
Proof.
  unfold valid_choices_of. destruct (allOptions q); [ congruence | reflexivity ].
Qed.

(* ================================================================= *)
(** ** [play_round] *)

Lemma bind_val {A B : Type} (m : M A) (k : A -> M B) (w w' : World) (a : A) :
  m w = (Val a, w') -> bind m k w = k a w'.
Proof. intros H. unfold bind. rewrite H. reflexivity. Qed.

Lemma bind_raise {A B : Type} (m : M A) (k : A -> M B) (w w' : World) (e : exn) :
  m w = (Raise e, w') -> bind m k w = (Raise e, w').
Proof. intros H. unfold bind. rewrite H. reflexivity. Qed.

Lemma index_nil {A : Type} (i : Z) : Py.index (@nil A) i = None.
Proof.
  unfold Py.index. cbv zeta. cbn [List.length].
  destruct ((0 <=? i) && (i <? Z.of_nat 0)); [ destruct (Z.to_nat i); reflexivity | ].
  destruct ((- Z.of_nat 0 <=? i) && (i <? 0)); [ | reflexivity ].
  destruct (Z.to_nat (Z.of_nat 0 + i)); reflexivity.
Qed.


Lemma index_in_range {A : Type} (l : list A) (i : Z) :
  0 <= i < len l -> exists x, Py.index l i = Some x.
Proof.
  unfold len, Py.index. intros H.
  replace ((0 <=? i) && (i <? Z.of_nat (List.length l))) with true
    by (symmetry; apply andb_true_iff; split; [ apply Z.leb_le | apply Z.ltb_lt ]; lia).
  destruct (nth_error l (Z.to_nat i)) as [x|] eqn:E; [ now exists x | ].
  apply nth_error_None in E. lia.
Qed.

(** The round that follows a valid selection [s], for a question whose
    difficulty reads as the integer [d]. *)
Lemma play_round_valid (q : QuizQuestion) (w : World) (raw : string)
    (rest : list key_event) (s d : Z) :
  keyboard w = Typed raw :: rest ->
  Py.lower (Py.strip raw) = Py.str s ->
  1 <= s <= len (allOptions q) ->
  coerce_difficulty (difficulty q) = Some d ->
  exists (w' : World) (user_answer : string),
    play_round q w
    = (if pause_interrupted rest then Raise KeyboardInterrupt
       else Val (s - 1 =? correctAnswerIndex q), w')
    /\ self w'
       = (if s - 1 =? correctAnswerIndex q
          then mkGame (score (self w) + d * 10) (total_questions (self w) + 1)
                      (correct_answers (self w) + 1) (stars_earned (self w) + d)
          else mkGame (score (self w)) (total_questions (self w) + 1)
                      (correct_answers (self w)) (stars_earned (self w)))
    /\ keyboard w' = (if pause_interrupted rest then tl rest else rest)
    /\ network w' = network w
    /\ requests w' = requests w
    /\ stdout w'
       = stdout w ++ display_lines q (self w)
         ++ [Prompt (AskChoice (len (allOptions q))); ClearScreen; Header "BIJBEL QUIZ GAME";
             if s - 1 =? correctAnswerIndex q
             then Correct user_answer (d * 10) d
             else Incorrect user_answer (correctAnswer q)]
         ++ (if nonempty_str (biblicalReference q)
             then [BibleReference (biblicalReference q)] else []).
Proof.
  intros Hk Hraw Hs Hd.
  destruct (index_in_range (allOptions q) (s - 1)) as [ua Hua]; [ lia | ].
  exists (snd (play_round q w)), ua.
  destruct w as [g keys net out err reqs]. cbn [keyboard] in Hk. subst keys.
  unfold play_round.
  erewrite bind_val by (rewrite display_question_eq, Hd; reflexivity).
  erewrite bind_val.
  2:{ apply get_user_input_accepts; [ reflexivity | ].
      rewrite Hraw.
      replace (Py.mem (Py.str s) (valid_choices_of q)) with true
        by (symmetry; apply valid_choice_iff; now exists s).
      apply andb_false_r. }
  rewrite Hraw, PyFacts.int_str. run. rewrite Hua, Hd.
  destruct (s - 1 =? correctAnswerIndex q), (nonempty_str (biblicalReference q));
    destruct rest as [|[x| |] rest]; run; cbn [pause_interrupted tl fst snd sleep];
    world_fields; repeat split; world_eq.
Qed.

Lemma play_round_self_cases (q : QuizQuestion) (w : World) (g' : QuizGame) :
  self (snd (play_round q w)) = g' ->
  g' = self w
  \/ exists d : Z,
       coerce_difficulty (difficulty q) = Some d
       /\ (g' = mkGame (score (self w) + d * 10) (total_questions (self w) + 1)
                       (correct_answers (self w) + 1) (stars_earned (self w) + d)
           \/ g' = mkGame (score (self w)) (total_questions (self w) + 1)
                          (correct_answers (self w)) (stars_earned (self w))).
Proof.
  intros H. destruct w as [g keys net out err reqs]. cbn [self].
  unfold play_round in H. unfold bind at 1 in H.
  rewrite display_question_eq in H.
  destruct (coerce_difficulty (difficulty q)) as [d|] eqn:Hd;
    [ | left; symmetry; exact H ].
  unfold bind at 1 in H.
  pose proof (get_user_input_self (AskChoice (len (allOptions q))) (valid_choices_of q)
                (put_lines (display_lines q g) (mkWorld g keys net out err reqs))) as Hself.
  cbn [self put_lines] in Hself, H.
  destruct (get_user_input _ _ _) as [[choice|e] w1]; cbn [snd] in Hself, H;
    [ | left; congruence ].
  destruct w1 as [g1 keys1 net1 out1 err1 reqs1]. cbn [self] in Hself. subst g1.
  destruct (Py.int choice) as [n|]; [ | left; symmetry; exact H ].
  run in H.
  destruct (Py.index (allOptions q) (n - 1)); [ | left; symmetry; exact H ].
  rewrite Hd in H.
  right. exists d. split; [ reflexivity | ].
  destruct (n - 1 =? correctAnswerIndex q); [ left | right ];
    destruct (nonempty_str (biblicalReference q));
    destruct keys1 as [|[x| |] keys1]; cbv [sleep keyboard snd set_keyboard self] in H;
    symmetry; exact H.
Qed.

(** Whatever happens in a round, the counters are left alone or one answer
    is scored: the round counts, and a correct answer adds [d * 10] points
    and [d] stars, [d] being the difficulty read as an integer. *)
Lemma play_round_self (q : QuizQuestion) (w : World) :
  self (snd (play_round q w)) = self w
  \/ exists d : Z,
       coerce_difficulty (difficulty q) = Some d
       /\ (self (snd (play_round q w))
           = mkGame (score (self w) + d * 10) (total_questions (self w) + 1)
                    (correct_answers (self w) + 1) (stars_earned (self w) + d)
           \/ self (snd (play_round q w))
              = mkGame (score (self w)) (total_questions (self w) + 1)
                       (correct_answers (self w)) (stars_earned (self w))).
Proof. exact (play_round_self_cases q w _ eq_refl). Qed.

(* ================================================================= *)
(** ** Computations do not read the terminal back *)

Lemma agree_refl (w : World) : agree w w.
Proof. unfold agree; auto. Qed.

Lemma blind_ret {A : Type} (a : A) : blind (ret a).
Proof. intros w1 w2 H. split; [ reflexivity | exact H ]. Qed.

Lemma blind_raise {A : Type} (e : exn) : blind (@raise A e).
Proof. intros w1 w2 H. split; [ reflexivity | exact H ]. Qed.


Lemma blind_print (l : line) : blind (print l).
Proof.
  intros w1 w2 H. split; [ reflexivity | ].
  unfold agree in *. cbn. tauto.
Qed.

Lemma blind_get_self : blind get_self.
Proof.
  intros w1 w2 H. split; [ | exact H ].
  unfold get_self. cbn. f_equal. apply H.
Qed.

Lemma blind_set_self (g : QuizGame) : blind (set_self g).
Proof.
  intros w1 w2 H. split; [ reflexivity | ].
  unfold agree in *. cbn. tauto.
Qed.

Lemma blind_or_raise {A : Type} (o : option A) (e : exception) : blind (or_raise o e).
Proof. destruct o; [ apply blind_ret | apply blind_raise ]. Qed.

Lemma blind_when (b : bool) (m : M unit) : blind m -> blind (when b m).
Proof. intros H. destruct b; [ exact H | apply blind_ret ]. Qed.

Lemma blind_sleep : blind sleep.
Proof.
  intros w1 w2 H. unfold sleep.
  destruct H as (Hg & Hk & Hn & He & Hr). rewrite <- Hk.
  destruct (keyboard w1) as [|[s| |] rest] eqn:E; cbn [fst snd];
    (split; [ reflexivity | ]); unfold agree; cbn; rewrite ?E; auto.
Qed.

Lemma blind_get_user_input_loop (p : prompt) (v : list string) (keys : list key_event)
    (w1 w2 : World) :
  agree w1 w2 ->
  fst (get_user_input_loop p v keys w1) = fst (get_user_input_loop p v keys w2)
  /\ agree (snd (get_user_input_loop p v keys w1)) (snd (get_user_input_loop p v keys w2)).
Proof.
  revert w1 w2. induction keys as [|[s| |] rest IH]; intros w1 w2 H;
    cbn [get_user_input_loop];
    try (split; [ reflexivity | ]; unfold agree in *; cbn; tauto).
  destruct (nonempty v && negb (Py.mem (Py.lower (Py.strip s)) v)).
  - apply IH. unfold agree in *. cbn. tauto.
  - split; [ reflexivity | ]. unfold agree in *. cbn. tauto.
Qed.

Lemma blind_get_user_input (p : prompt) (v : list string) : blind (get_user_input p v).
Proof.
  intros w1 w2 H. unfold get_user_input.
  replace (keyboard w2) with (keyboard w1) by apply H.
  now apply blind_get_user_input_loop.
Qed.

Create HintDb blind.
#[local] Hint Resolve blind_ret blind_raise blind_print blind_get_self blind_set_self
  blind_or_raise blind_when blind_sleep blind_get_user_input : blind.

Lemma play_round_split (q : QuizQuestion) :
  play_round q = (q' <- display_question q ;; round_after_display q').
Proof. reflexivity. Qed.


(* ================================================================= *)
(** ** [end_game] and [start] *)

Lemma gtb_true (x : Z) : x > 0 -> (x >? 0) = true.
Proof. intros H. rewrite Z.gtb_ltb. apply Z.ltb_lt. lia. Qed.

Lemma gtb_false (x : Z) : x <= 0 -> (x >? 0) = false.
Proof. intros H. rewrite Z.gtb_ltb. apply Z.ltb_ge. lia. Qed.

(** [end_game] never divides by zero. *)
Lemma accuracy_eq (g : QuizGame) : accuracy g = Some (accuracy_value g).
Proof.
  unfold accuracy, accuracy_value, PyFloat.truediv.
  destruct (total_questions g >? 0) eqn:Hn; [ | reflexivity ].
  rewrite Z.gtb_ltb in Hn. apply Z.ltb_lt in Hn.
  replace (total_questions g =? 0) with false by (symmetry; apply Z.eqb_neq; lia).
  reflexivity.
Qed.

Ltac run_api :=
  cbv [end_game add_stars get_questions _post _get urlopen decode_or_exit try_except
       warn_not_awarded start_handlers truthy_str truthy_int];
  run; try (rewrite accuracy_eq; run).

Lemma end_game_self (w : World) : self (snd (end_game w)) = self w.
Proof.
  destruct w as [g keys net out err reqs].
  run_api. destruct (stars_earned g >? 0); [ | reflexivity ].
  destruct net as [|[[d|]| | | |] net]; try reflexivity.
  destruct (d_success d); reflexivity.
Qed.

Lemma end_game_requests (w : World) :
  requests (snd (end_game w))
  = requests w ++ (if stars_earned (self w) >? 0 then [reward_request (self w)] else []).
Proof.
  destruct w as [g keys net out err reqs].
  run_api. destruct (stars_earned g >? 0); [ | cbn; now rewrite app_nil_r ].
  destruct net as [|[[d|]| | | |] net]; try reflexivity.
  destruct (d_success d); reflexivity.
Qed.

(** The summary is on the terminal before anything is sent. *)
Lemma end_game_summary (w : World) :
  exists more, stdout (snd (end_game w)) = stdout w ++ summary_lines (self w) ++ more.
Proof.
  destruct w as [g keys net out err reqs].
  run_api. destruct (stars_earned g >? 0).
  - destruct net as [|[[d|]| | | |] net];
      [ exists [] | | exists [WarnNotAwarded AttributeError; Thanks]
      | exists [] | exists [] | exists [] | exists [] ];
      try (cbn; unfold summary_lines; repeat rewrite <- app_assoc; reflexivity).
    destruct (d_success d); [ exists [NewBalance (d_balance d); Thanks] | exists [WarnNotUpdated; Thanks] ];
      cbn; unfold summary_lines; repeat rewrite <- app_assoc; reflexivity.
  - exists [Thanks]. cbn. unfold summary_lines. repeat rewrite <- app_assoc. reflexivity.
Qed.

(** With no star earned, [end_game] prints the summary and returns. *)
Lemma end_game_no_stars (w : World) :
  stars_earned (self w) <= 0 ->
  end_game w = (Val tt, put_lines (summary_lines (self w) ++ [Thanks]) w).
Proof.
  intros H. destruct w as [g keys net out err reqs]. cbn [self] in H.
  run_api. rewrite (gtb_false _ H).
  f_equal. unfold summary_lines. world_eq.
Qed.

(** When the request for the stars fails on the way (no connection, an HTTP
    error status, an unreadable body), [_post] ends the process with status
    1: the [except Exception] clause of [end_game] does not see a
    [SystemExit], no warning is printed and the closing line is not
    reached. *)
Lemma end_game_transport_failure (w : World) (a : response) (rest : list response) :
  stars_earned (self w) > 0 ->
  network w = a :: rest ->
  failed a = true ->
  exists d : diagnostic,
    end_game w
    = (Raise (SystemExit 1),
       mkWorld (self w) (keyboard w) rest (stdout w ++ summary_lines (self w))
         (stderr w ++ [d]) (requests w ++ [reward_request (self w)])).
Proof.
  intros Hs Hn Hf. destruct w as [g keys net out err reqs].
  cbn [self network keyboard stdout stderr requests] in *. subst net.
  run_api. rewrite (gtb_true _ Hs).
  destruct a as [body|code detail| | |]; try discriminate Hf;
    eexists; unfold summary_lines, reward_request; cbn;
    repeat rewrite <- app_assoc; reflexivity.
Qed.

(** When the service answers, the game goes on to its closing line: with
    the new balance, or with a warning. *)
Lemma end_game_answered (w : World) (body : json) (rest : list response) :
  stars_earned (self w) > 0 ->
  network w = Reply body :: rest ->
  end_game w
  = (Val tt,
     mkWorld (self w) (keyboard w) rest
       (stdout w ++ summary_lines (self w)
          ++ [match body with
              | JDict d => if d_success d then NewBalance (d_balance d) else WarnNotUpdated
              | JList => WarnNotAwarded AttributeError
              end; Thanks])
       (stderr w) (requests w ++ [reward_request (self w)])).
Proof.
  intros Hs Hn. destruct w as [g keys net out err reqs].
  cbn [self network keyboard stdout stderr requests] in *. subst net.
  run_api. rewrite (gtb_true _ Hs).
  destruct body as [d|]; [ destruct (d_success d) | ];
    unfold summary_lines, reward_request; cbn;
    repeat rewrite <- app_assoc; reflexivity.
Qed.

(* ================================================================= *)
(** ** The scoring of a round *)

Lemma coerce_either (q : QuizQuestion) (d : Z) :
  difficulty q = DInt d \/ difficulty q = DStr (Py.str d) ->
  coerce_difficulty (difficulty q) = Some d.
Proof.
  intros [-> | ->]; cbn [coerce_difficulty]; [ reflexivity | apply PyFacts.int_str ].
Qed.

Lemma display_lines_with_difficulty (q : QuizQuestion) (d : Z) (g : QuizGame) :
  display_lines (with_difficulty q (DStr (Py.str d))) g
  = display_lines (with_difficulty q (DInt d)) g.
Proof.
  unfold display_lines. cbn [with_difficulty difficulty question biblicalReference
                             categories allOptions coerce_difficulty].
  rewrite PyFacts.int_str. reflexivity.
Qed.

(** A round does the same thing whether the difficulty of the question is
    the number [d] or the string [str(d)]. *)
Lemma play_round_textual_difficulty (q : QuizQuestion) (d : Z) (w : World) :
  play_round (with_difficulty q (DStr (Py.str d))) w
  = play_round (with_difficulty q (DInt d)) w.
Proof.
  rewrite !play_round_split.
  erewrite (bind_val (display_question (with_difficulty q (DStr _))))
    by (rewrite display_question_eq; cbn [with_difficulty difficulty coerce_difficulty];
        rewrite PyFacts.int_str; reflexivity).
  erewrite (bind_val (display_question (with_difficulty q (DInt _))))
    by (rewrite display_question_eq; reflexivity).
  rewrite display_lines_with_difficulty.
  unfold round_after_display, valid_choices_of.
  cbn [with_difficulty difficulty question biblicalReference categories allOptions
       correctAnswer correctAnswerIndex coerce_difficulty].
  generalize (PyFacts.int_str d). generalize (Py.int (Py.str d)).
  intros o ->. reflexivity.
Qed.

(** C1. In a round with a valid selection [s], a correct answer (selection
    [s - 1] equal to [correctAnswerIndex]) adds [d * 10] to the score and [d]
    to the stars, and an incorrect one adds nothing to either; this holds for
    a difficulty sent as the integer [d] and for one sent as the string
    [str(d)], and the two rounds are the same in every respect. *)
Theorem scoring_rule (q : QuizQuestion) (w : World) (raw : string)
    (rest : list key_event) (s d : Z) :
  keyboard w = Typed raw :: rest ->
  Py.lower (Py.strip raw) = Py.str s ->
  1 <= s <= len (allOptions q) ->
  difficulty q = DInt d \/ difficulty q = DStr (Py.str d) ->
  score (self (snd (play_round q w))) - score (self w)
  = (if s - 1 =? correctAnswerIndex q then d * 10 else 0)
  /\ stars_earned (self (snd (play_round q w))) - stars_earned (self w)
     = (if s - 1 =? correctAnswerIndex q then d else 0)
  /\ play_round (with_difficulty q (DStr (Py.str d))) w
     = play_round (with_difficulty q (DInt d)) w.
Proof.
  intros Hk Hraw Hs Hd. apply coerce_either in Hd.
  destruct (play_round_valid q w raw rest s d Hk Hraw Hs Hd)
    as (w' & ua & Hrun & Hself & _).
  rewrite Hrun. cbn [snd]. rewrite Hself.
  split; [ | split; [ | apply play_round_textual_difficulty ] ];
    destruct (s - 1 =? correctAnswerIndex q); cbn [score stars_earned]; lia.
Qed.


Lemma scoring_rule_witness :
  (keyboard (initial_world [Typed " 3 "] []) = Typed " 3 " :: []
   /\ Py.lower (Py.strip " 3 ") = Py.str 3
   /\ 1 <= 3 <= len (allOptions (sample_question (DStr "4") 2))
   /\ (difficulty (sample_question (DStr "4") 2) = DInt 4
       \/ difficulty (sample_question (DStr "4") 2) = DStr (Py.str 4)))
  /\ (score (self (snd (play_round (sample_question (DStr "4") 2)
                         (initial_world [Typed " 3 "] []))))
      - score (self (initial_world [Typed " 3 "] [])) = 40
      /\ stars_earned (self (snd (play_round (sample_question (DStr "4") 2)
                                    (initial_world [Typed " 3 "] []))))
         - stars_earned (self (initial_world [Typed " 3 "] [])) = 4
      /\ play_round (with_difficulty (sample_question (DStr "4") 2) (DStr (Py.str 4)))
           (initial_world [Typed " 3 "] [])
         = play_round (with_difficulty (sample_question (DStr "4") 2) (DInt 4))
             (initial_world [Typed " 3 "] [])).
Proof.
  split.
  - repeat split; try reflexivity; try (right; reflexivity); vm_compute; discriminate.
  - apply (scoring_rule (sample_question (DStr "4") 2) (initial_world [Typed " 3 "] [])
             " 3 " [] 3 4).
    + reflexivity.
    + reflexivity.
    + split; vm_compute; discriminate.
    + right. reflexivity.
Defined.

(* ================================================================= *)
(** ** Which selection is the correct one *)

(** C9. For a selection [s] between 1 and the number of options, the round
    is marked correct exactly when [s - 1] is [correctAnswerIndex]: the count
    of correct answers goes up by one in that case and stays in the other,
    and the value that [play_round] returns (when the pause at its end is not
    interrupted) is [True] in that case and [False] in the other. *)
Theorem selection_correct_iff (q : QuizQuestion) (w : World) (raw : string)
    (rest : list key_event) (s d : Z) :
  keyboard w = Typed raw :: rest ->
  Py.lower (Py.strip raw) = Py.str s ->
  1 <= s <= len (allOptions q) ->
  coerce_difficulty (difficulty q) = Some d ->
  (correct_answers (self (snd (play_round q w))) = correct_answers (self w) + 1
   <-> s - 1 = correctAnswerIndex q)
  /\ (correct_answers (self (snd (play_round q w))) = correct_answers (self w)
      <-> s - 1 <> correctAnswerIndex q)
  /\ (pause_interrupted rest = false ->
      (fst (play_round q w) = Val true <-> s - 1 = correctAnswerIndex q)
      /\ (fst (play_round q w) = Val false <-> s - 1 <> correctAnswerIndex q)).
Proof.
  intros Hk Hraw Hs Hd.
  destruct (play_round_valid q w raw rest s d Hk Hraw Hs Hd)
    as (w' & ua & Hrun & Hself & _).
  rewrite Hrun. cbn [fst snd]. rewrite Hself.
  destruct (Z.eqb_spec (s - 1) (correctAnswerIndex q)) as [He|He];
    cbn [correct_answers]; (split; [ | split ]); try intros ->;
    try (split; intros; first [ lia | congruence | reflexivity ]).
  - split; split; intros; first [ congruence | reflexivity ].
  - split; split; intros; first [ congruence | reflexivity ].
Qed.

Lemma selection_correct_iff_witness :
  (keyboard (initial_world [Typed "3"] []) = Typed "3" :: []
   /\ Py.lower (Py.strip "3") = Py.str 3
   /\ 1 <= 3 <= len (allOptions (sample_question (DInt 2) 2))
   /\ coerce_difficulty (difficulty (sample_question (DInt 2) 2)) = Some 2)
  /\ fst (play_round (sample_question (DInt 2) 2) (initial_world [Typed "3"] [])) = Val true.
Proof.
  split.
  - repeat split; try reflexivity; vm_compute; discriminate.
  - apply (selection_correct_iff (sample_question (DInt 2) 2) (initial_world [Typed "3"] [])
             "3" [] 3 2); try reflexivity.
    split; vm_compute; discriminate.
Defined.

(** With [correctAnswerIndex = 2] and four options, selection 3 is the
    correct one and selections 1, 2 and 4 are not. *)
Example third_of_four (d : difficulty_field) (s : Z) :
  coerce_difficulty d <> None -> 1 <= s <= 4 ->
  fst (play_round (sample_question d 2) (initial_world [Typed (Py.str s)] []))
  = Val (s =? 3).
Proof.
  intros Hd Hs. destruct (coerce_difficulty d) as [z|] eqn:Hz; [ | congruence ].
  destruct (play_round_valid (sample_question d 2) (initial_world [Typed (Py.str s)] [])
              (Py.str s) [] s z) as (w' & ua & Hrun & _); try reflexivity; try assumption.
  - now rewrite PyFacts.strip_str, PyFacts.lower_str.
  - rewrite Hrun. cbn [fst pause_interrupted sample_question correctAnswerIndex].
    f_equal. destruct (Z.eqb_spec (s - 1) 2), (Z.eqb_spec s 3); try reflexivity; lia.
Qed.

(* ================================================================= *)
(** ** The counters of a game *)

Lemma new_game_consistent : consistent new_game.
Proof. unfold consistent, new_game. cbn. lia. Qed.

Lemma play_round_consistent (q : QuizQuestion) (w : World) :
  consistent (self w) -> consistent (self (snd (play_round q w))).
Proof.
  unfold consistent. intros [Hsc Hc].
  destruct (play_round_self q w) as [-> | (d & _ & [-> | ->])];
    cbn [score total_questions correct_answers stars_earned]; lia.
Qed.

Lemma play_round_counters_le (q : QuizQuestion) (w : World) :
  (forall d, coerce_difficulty (difficulty q) = Some d -> 0 <= d) ->
  counters_le (self w) (self (snd (play_round q w))).
Proof.
  unfold counters_le. intros Hd.
  destruct (play_round_self q w) as [-> | (d & Hq & [-> | ->])];
    cbn [score total_questions correct_answers stars_earned];
    try specialize (Hd d Hq); lia.
Qed.

(** C10. A new game has its four counters at zero.  A round never lowers a
    counter (for a question whose difficulty is not negative), and it keeps
    [score = 10 * stars_earned] and [correct_answers <= total_questions],
    however the round ends. *)
Theorem counters_invariant (q : QuizQuestion) (w : World) :
  (forall d, coerce_difficulty (difficulty q) = Some d -> 0 <= d) ->
  consistent (self w) ->
  (score new_game = 0 /\ total_questions new_game = 0
   /\ correct_answers new_game = 0 /\ stars_earned new_game = 0)
  /\ consistent new_game
  /\ counters_le (self w) (self (snd (play_round q w)))
  /\ consistent (self (snd (play_round q w))).
Proof.
  intros Hd Hc. split; [ repeat split | ]. split; [ apply new_game_consistent | ].
  split; [ apply play_round_counters_le, Hd | apply play_round_consistent, Hc ].
Qed.

Lemma counters_invariant_witness :
  ((forall d, coerce_difficulty (difficulty (sample_question (DInt 2) 0)) = Some d -> 0 <= d)
   /\ consistent (self (initial_world [Typed "1"] [])))
  /\ self (snd (play_round (sample_question (DInt 2) 0) (initial_world [Typed "1"] [])))
     = mkGame 20 1 1 2
  /\ consistent (self (snd (play_round (sample_question (DInt 2) 0)
                             (initial_world [Typed "1"] [])))).
Proof.
  split; [ split | split ].
  - intros d H. injection H as <-. discriminate.
  - apply new_game_consistent.
  - reflexivity.
  - apply (counters_invariant (sample_question (DInt 2) 0) (initial_world [Typed "1"] [])).
    + intros d H. injection H as <-. discriminate.
    + apply new_game_consistent.
Defined.

(** The same over the whole loop of [start]. *)
Lemma play_questions_consistent (n i : Z) (qs : list QuizQuestion) (w : World) :
  consistent (self w) -> consistent (self (snd (play_questions n i qs w))).
Proof.
  revert i w. induction qs as [|q qs IH]; intros i w Hc; cbn [play_questions].
  - exact Hc.
  - unfold bind at 1.
    pose proof (play_round_consistent q w Hc) as H1.
    destruct (play_round q w) as [[[|]|e] w1]; cbn [snd] in H1 |- *; auto.
    destruct (i <? n); auto.
    unfold bind at 1.
    pose proof (get_user_input_self AskContinue ["y"; "n"; "yes"; "no"] w1) as H2.
    destruct (get_user_input _ _ w1) as [[c|e] w2]; cbn [snd] in H2 |- *;
      [ | congruence ].
    destruct (Py.mem c ["n"; "no"]); [ cbn; congruence | ].
    apply IH. congruence.
Qed.

Lemma play_questions_counters_le (n i : Z) (qs : list QuizQuestion) (w : World) :
  Forall (fun q => forall d, coerce_difficulty (difficulty q) = Some d -> 0 <= d) qs ->
  counters_le (self w) (self (snd (play_questions n i qs w))).
Proof.
  assert (Htrans : forall a b c, counters_le a b -> counters_le b c -> counters_le a c)
    by (unfold counters_le; intros; lia).
  assert (Hrefl : forall a, counters_le a a) by (unfold counters_le; intros; lia).
  intros Hqs. revert i w. induction Hqs as [|q qs Hq Hqs IH]; intros i w;
    cbn [play_questions].
  - apply Hrefl.
  - unfold bind at 1.
    pose proof (play_round_counters_le q w Hq) as H1.
    destruct (play_round q w) as [[[|]|e] w1]; cbn [snd] in H1 |- *; eauto.
    destruct (i <? n); eauto.
    unfold bind at 1.
    pose proof (get_user_input_self AskContinue ["y"; "n"; "yes"; "no"] w1) as H2.
    destruct (get_user_input _ _ w1) as [[c|e] w2]; cbn [snd] in H2 |- *;
      [ | congruence ].
    destruct (Py.mem c ["n"; "no"]); [ cbn; congruence | ].
    apply Htrans with (self w2); [ congruence | apply IH ].
Qed.

(** The invariant over a whole session. *)
Lemma keeps_same {A : Type} (m : M A) :
  (forall w, self (snd (m w)) = self w) -> keeps m.
Proof. intros H w Hw. rewrite H. exact Hw. Qed.

Lemma keeps_bind {A B : Type} (m : M A) (k : A -> M B) :
  keeps m -> (forall a, keeps (k a)) -> keeps (bind m k).
Proof.
  intros Hm Hk w Hw. unfold bind. specialize (Hm w Hw).
  destruct (m w) as [[a|e] w']; cbn [snd] in *; [ apply Hk; exact Hm | exact Hm ].
Qed.

Lemma keeps_try_except {A : Type} (body : M A) (handler : exn -> option (M A)) :
  keeps body -> (forall e h, handler e = Some h -> keeps h) ->
  keeps (try_except body handler).
Proof.
  intros Hb Hh w Hw. unfold try_except. specialize (Hb w Hw).
  destruct (body w) as [[a|e] w']; cbn [snd] in *; [ exact Hb | ].
  destruct (handler e) as [h|] eqn:He; [ apply (Hh e h He); exact Hb | exact Hb ].
Qed.

Lemma keeps_print (l : line) : keeps (print l).
Proof. apply keeps_same. reflexivity. Qed.

Lemma keeps_sleep : keeps sleep.
Proof.
  apply keeps_same. intros w. unfold sleep.
  destruct (keyboard w) as [|[s| |] rest]; reflexivity.
Qed.

Lemma keeps_end_game : keeps end_game.
Proof. apply keeps_same, end_game_self. Qed.

Lemma keeps_get_questions (category : option string) (limit : Z) (difficulty : option Z) :
  keeps (get_questions category limit difficulty).
Proof.
  apply keeps_same. intros [g keys net out err reqs].
  unfold get_questions, _get, urlopen, decode_or_exit. run.
  destruct net as [|[body|code detail| | |] net]; reflexivity.
Qed.

Lemma keeps_start (category : option string) (difficulty : option Z) (num_questions : Z) :
  keeps (start category difficulty num_questions).
Proof.
  unfold start.
  apply keeps_bind; [ apply keeps_print | intros _ ].
  apply keeps_bind; [ apply keeps_sleep | intros _ ].
  apply keeps_try_except.
  - apply keeps_bind; [ apply keeps_print | intros _ ].
    apply keeps_bind; [ apply keeps_get_questions | intros result ].
    destruct result as [[[[|q qs]|] sc bl]|]; try apply keeps_print.
    apply keeps_bind; [ apply keeps_print | intros _ ].
    apply keeps_bind; [ apply keeps_sleep | intros _ ].
    apply keeps_bind; [ | intros _; apply keeps_end_game ].
    intros w Hw. apply play_questions_consistent, Hw.
  - intros [|code|x] h He; cbn [start_handlers] in He; try discriminate He;
      injection He as <-.
    + apply keeps_bind; [ apply keeps_print | intros _; apply keeps_end_game ].
    + apply keeps_print.
Qed.

(** However a session goes, the counters it ends with satisfy the
    invariant. *)
Lemma session_consistent (keys : list key_event) (net : list response) :
  consistent (self (snd (run_game keys net))).
Proof.
  unfold run_game, main_game. apply keeps_try_except.
  - apply keeps_bind; [ | intros _; apply keeps_start ].
    intros w _. apply new_game_consistent.
  - intros e h He. destruct e; try discriminate He. injection He as <-.
    apply keeps_same. reflexivity.
  - apply new_game_consistent.
Qed.

(* ================================================================= *)
(** ** Invalid selections *)



(** A question without options has no valid selection: there the check is
    skipped ([valid_choices] is empty), any line is taken, and the round
    raises before it touches the game. *)
Lemma no_options_no_round (q : QuizQuestion) (w : World) :
  allOptions q = [] ->
  self (snd (play_round q w)) = self w
  /\ forall b, fst (play_round q w) <> Val b.
Proof.
  intros Hq. destruct w as [g keys net out err reqs].
  rewrite play_round_split. unfold bind at 1 2. rewrite display_question_eq.
  destruct (coerce_difficulty (difficulty q)) as [d|] eqn:Hd;
    [ | split; [ reflexivity | discriminate ] ].
  unfold round_after_display. cbv zeta. unfold bind at 1 12.
  pose proof (get_user_input_self (AskChoice (len (allOptions q))) (valid_choices_of q)
                (put_lines (display_lines q g) (mkWorld g keys net out err reqs))) as Hself.
  cbn [self put_lines] in Hself |- *.
  destruct (get_user_input _ _ _) as [[choice|e] w1]; cbn [fst snd] in Hself |- *;
    [ | split; [ exact Hself | discriminate ] ].
  destruct w1 as [g1 keys1 net1 out1 err1 reqs1]. cbn [self] in Hself. subst g1.
  destruct (Py.int choice) as [n|]; [ | split; [ reflexivity | discriminate ] ].
  run. rewrite Hq, index_nil.
  split; [ reflexivity | discriminate ].
Qed.

(* ================================================================= *)
(** ** The end of a session *)

(** C8. [end_game] sends one request for the stars when [stars_earned] is
    positive and none otherwise; the request carries [stars_earned] as its
    amount and a reason made of the number of correct answers and the number
    of questions answered. *)
Theorem reward_submission_iff_stars (w : World) :
  requests (snd (end_game w))
  = requests w
    ++ (if stars_earned (self w) >? 0
        then [POST "stars/add"
                [("amount", VInt (stars_earned (self w)));
                 ("reason",
                  VStr ("Quiz game completed - " ++ Py.str (correct_answers (self w))
                          ++ "/" ++ Py.str (total_questions (self w)) ++ " correct")%string)]]
        else []).
Proof. apply end_game_requests. Qed.

Lemma stop_is_a_choice (x : string) :
  Py.mem x ["n"; "no"] = true -> Py.mem x ["y"; "n"; "yes"; "no"] = true.
Proof.
  unfold Py.mem. cbn [existsb].
  destruct (x =? "n")%string, (x =? "no")%string, (x =? "y")%string, (x =? "yes")%string;
    cbn; congruence.
Qed.

Lemma not_last (done rest' : list QuizQuestion) (q : QuizQuestion) :
  rest' <> [] -> (len done + 1 <? len (done ++ q :: rest')) = true.
Proof.
  intros H. apply Z.ltb_lt. unfold len. rewrite length_app. cbn [List.length].
  destruct rest'; [ congruence | cbn [List.length]; lia ].
Qed.

(** C6. When a round that is not the last one is answered incorrectly, the
    user is asked whether to continue; on the answer [n] or [no] the loop is
    left and the session goes straight to [end_game], in the state in which
    the round left it: no further question is shown or scored, the summary is
    printed, and the stars earned so far are sent (when there are any). *)
Theorem stop_after_incorrect (done rest' : list QuizQuestion) (q : QuizQuestion)
    (w w1 : World) (raw : string) (keys : list key_event) :
  rest' <> [] ->
  play_round q w = (Val false, w1) ->
  keyboard w1 = Typed raw :: keys ->
  Py.mem (Py.lower (Py.strip raw)) ["n"; "no"] = true ->
  (play_questions (len (done ++ q :: rest')) (len done + 1) (q :: rest') ;; end_game) w
  = end_game (set_keyboard keys (put_line (Prompt AskContinue) w1))
  /\ self (snd ((play_questions (len (done ++ q :: rest')) (len done + 1) (q :: rest') ;;
                 end_game) w))
     = self w1
  /\ requests (snd ((play_questions (len (done ++ q :: rest')) (len done + 1) (q :: rest') ;;
                     end_game) w))
     = requests w1
       ++ (if stars_earned (self w1) >? 0 then [reward_request (self w1)] else [])
  /\ exists more,
       stdout (snd ((play_questions (len (done ++ q :: rest')) (len done + 1) (q :: rest') ;;
                     end_game) w))
       = stdout w1 ++ [Prompt AskContinue] ++ summary_lines (self w1) ++ more.
Proof.
  intros Hrest Hround Hk Hstop.
  assert (Heq : (play_questions (len (done ++ q :: rest')) (len done + 1) (q :: rest') ;;
                 end_game) w
                = end_game (set_keyboard keys (put_line (Prompt AskContinue) w1))).
  { refine (bind_val _ (fun _ : unit => end_game) _ _ tt _). cbn [play_questions].
    rewrite (bind_val _ _ _ _ _ Hround). cbv iota.
    rewrite (not_last done rest' q Hrest).
    erewrite bind_val.
    2:{ apply get_user_input_accepts with (raw := raw) (rest := keys); [ exact Hk | ].
        rewrite (stop_is_a_choice _ Hstop). reflexivity. }
    rewrite Hstop. reflexivity. }
  rewrite Heq. split; [ reflexivity | ].
  rewrite end_game_self, end_game_requests.
  split; [ reflexivity | split; [ reflexivity | ] ].
  destruct (end_game_summary (set_keyboard keys (put_line (Prompt AskContinue) w1)))
    as [more Hmore].
  exists more. rewrite Hmore. cbn [stdout set_keyboard put_line self].
  now rewrite <- app_assoc.
Qed.

Lemma stop_after_incorrect_witness :
  ([sample_question (DInt 1) 1] <> []
   /\ play_round (sample_question (DStr "3") 2) (initial_world [Typed "4"; Typed "No"] [])
      = (Val false,
         snd (play_round (sample_question (DStr "3") 2)
                (initial_world [Typed "4"; Typed "No"] [])))
   /\ keyboard (snd (play_round (sample_question (DStr "3") 2)
                       (initial_world [Typed "4"; Typed "No"] [])))
      = Typed "No" :: []
   /\ Py.mem (Py.lower (Py.strip "No")) ["n"; "no"] = true)
  /\ self (snd ((play_questions
                   (len ([sample_question (DInt 2) 0]
                         ++ sample_question (DStr "3") 2 :: [sample_question (DInt 1) 1]))
                   (len [sample_question (DInt 2) 0] + 1)
                   (sample_question (DStr "3") 2 :: [sample_question (DInt 1) 1]) ;;
                 end_game)
                  (initial_world [Typed "4"; Typed "No"] [])))
     = self (snd (play_round (sample_question (DStr "3") 2)
                    (initial_world [Typed "4"; Typed "No"] []))).
Proof.
  assert (H1 : [sample_question (DInt 1) 1] <> []) by discriminate.
  assert (H2 : play_round (sample_question (DStr "3") 2)
                 (initial_world [Typed "4"; Typed "No"] [])
               = (Val false,
                  snd (play_round (sample_question (DStr "3") 2)
                         (initial_world [Typed "4"; Typed "No"] []))))
    by (vm_compute; reflexivity).
  assert (H3 : keyboard (snd (play_round (sample_question (DStr "3") 2)
                                (initial_world [Typed "4"; Typed "No"] [])))
               = Typed "No" :: [])
    by (vm_compute; reflexivity).
  assert (H4 : Py.mem (Py.lower (Py.strip "No")) ["n"; "no"] = true)
    by (vm_compute; reflexivity).
  split; [ exact (conj H1 (conj H2 (conj H3 H4))) | ].
  exact (proj1 (proj2 (stop_after_incorrect [sample_question (DInt 2) 0]
                         [sample_question (DInt 1) 1] (sample_question (DStr "3") 2)
                         _ _ "No" [] H1 H2 H3 H4))).
Defined.

(** A whole session that stops early: first question right, second wrong,
    then [n]: the third question is never shown, the summary counts two
    questions, and the two stars of the first are sent. *)
Example early_stop_session :
  fst (run_game [Typed "1"; Typed "4"; Typed "n"] [sample_reply; balance_reply 2]) = Val tt
  /\ self (snd (run_game [Typed "1"; Typed "4"; Typed "n"] [sample_reply; balance_reply 2]))
     = mkGame 20 2 1 2
  /\ ~ In (QuestionNo 3)
         (stdout (snd (run_game [Typed "1"; Typed "4"; Typed "n"]
                         [sample_reply; balance_reply 2])))
  /\ In (FinalResults 2 1 "50.0" 20 2)
       (stdout (snd (run_game [Typed "1"; Typed "4"; Typed "n"]
                       [sample_reply; balance_reply 2])))
  /\ requests (snd (run_game [Typed "1"; Typed "4"; Typed "n"] [sample_reply; balance_reply 2]))
     = [GET "questions" [("limit", VInt 10)]; reward_request (mkGame 20 2 1 2)].
Proof.
  vm_compute. repeat split; try tauto.
  intros H. repeat (destruct H as [H|H]; [ discriminate H | ]). exact H.
Qed.

(** After the last round there is no such question: a wrong answer to the
    last question leads to [end_game] directly. *)
Lemma last_round_no_prompt (done : list QuizQuestion) (q : QuizQuestion) (w w1 : World) (b : bool) :
  play_round q w = (Val b, w1) ->
  (play_questions (len (done ++ [q])) (len done + 1) [q] ;; end_game) w = end_game w1.
Proof.
  intros Hround. refine (bind_val _ (fun _ : unit => end_game) _ _ tt _). cbn [play_questions].
  rewrite (bind_val _ _ _ _ _ Hround).
  replace (len done + 1 <? len (done ++ [q])) with false
    by (symmetry; apply Z.ltb_ge; unfold len; rewrite length_app; cbn [List.length]; lia).
  destruct b; reflexivity.
Qed.

(* ================================================================= *)
(** ** The start of a session *)

(** C7. When the service answers the request for questions with a body that
    has no batch or an empty one, [start] prints that no questions are
    available and returns: no question is shown, the game is untouched, and
    the request for questions is the only one sent. *)
Theorem no_questions_no_session (category : option string) (difficulty : option Z)
    (num_questions : Z) (w : World) (body : json) (rest : list response) :
  pause_interrupted (keyboard w) = false ->
  network w = Reply body :: rest ->
  no_batch body = true ->
  exists params,
    start category difficulty num_questions w
    = (Val tt,
       mkWorld (self w) (keyboard w) rest (stdout w ++ [Starting; Loading; NoQuestions])
         (stderr w) (requests w ++ [GET "questions" params])).
Proof.
  intros Hp Hn Hb. destruct w as [g keys net out err reqs].
  cbn [self keyboard network stdout stderr requests] in *. subst net.
  unfold start. run_api. unfold sleep. cbn [keyboard].
  destruct keys as [|[x| |] keys]; try discriminate Hp;
    destruct category as [[|c cs]|], difficulty as [d|];
    try destruct (d =? 0); cbn [negb app];
    (destruct body as [[[[|q0 qs]|] sc bl]|]; [ | discriminate Hb | | ]);
    eexists; cbn; repeat rewrite <- app_assoc; reflexivity.
Qed.

Lemma no_questions_no_session_witness :
  (pause_interrupted (keyboard (initial_world sample_keys [Reply (JDict (mkDict (Some []) true None))]))
   = false
   /\ network (initial_world sample_keys [Reply (JDict (mkDict (Some []) true None))])
      = Reply (JDict (mkDict (Some []) true None)) :: []
   /\ no_batch (JDict (mkDict (Some []) true None)) = true)
  /\ exists params,
       start (Some "Genesis") None 10
         (initial_world sample_keys [Reply (JDict (mkDict (Some []) true None))])
       = (Val tt,
          mkWorld new_game sample_keys [] [Starting; Loading; NoQuestions] []
            [GET "questions" params]).
Proof.
  split.
  - repeat split.
  - apply (no_questions_no_session (Some "Genesis") None 10
             (initial_world sample_keys [Reply (JDict (mkDict (Some []) true None))])
             (JDict (mkDict (Some []) true None)) []); reflexivity.
Defined.

(* ================================================================= *)
(** ** Failures on the way to the end of a session *)

(** C2. The session of [sample_keys] on [sample_batch] earns three stars;
    when the request that sends them fails on the way (here: no connection),
    [_post] calls [sys.exit(1)].  The [SystemExit] passes the
    [except Exception] clause of [end_game] and the clauses of [start] and
    [main]: the process ends with status 1 right after the summary, with a
    line on the diagnostic stream, no warning on the terminal and no closing
    line.  The counters are as the rounds left them. *)
Theorem reward_failure_ends_process :
  fst (run_game sample_keys [sample_reply; URLError]) = Raise (SystemExit 1)
  /\ exit_status (fst (run_game sample_keys [sample_reply; URLError])) = 1
  /\ self (snd (run_game sample_keys [sample_reply; URLError])) = mkGame 30 3 2 3
  /\ requests (snd (run_game sample_keys [sample_reply; URLError]))
     = [GET "questions" [("limit", VInt 10)]; reward_request (mkGame 30 3 2 3)]
  /\ last (stdout (snd (run_game sample_keys [sample_reply; URLError]))) Thanks
     = FinalResults 3 2 "66.7" 30 3
  /\ stderr (snd (run_game sample_keys [sample_reply; URLError])) = [UrlFailure].
Proof. vm_compute. repeat split. Qed.

(** The same for the other two failures that [_post] catches. *)
Example reward_failure_http_error :
  fst (run_game sample_keys [sample_reply; HTTPError 500 None]) = Raise (SystemExit 1)
  /\ fst (run_game sample_keys [sample_reply; BadReply]) = Raise (SystemExit 1).
Proof. vm_compute. split; reflexivity. Qed.

(** The warnings of [end_game] are reached only when the service answers:
    with a body that does not report success, or with one that is not an
    object. *)
Example reward_refused_is_a_warning :
  fst (run_game sample_keys [sample_reply; Reply (JDict (mkDict None false None))]) = Val tt
  /\ In WarnNotUpdated
       (stdout (snd (run_game sample_keys
                       [sample_reply; Reply (JDict (mkDict None false None))])))
  /\ fst (run_game sample_keys [sample_reply; Reply JList]) = Val tt
  /\ In (WarnNotAwarded AttributeError)
       (stdout (snd (run_game sample_keys [sample_reply; Reply JList]))).
Proof. vm_compute. intuition. Qed.

(** The session of the scenario: three questions of difficulty 2, 3 and 1
    answered right, wrong, right. *)
Example sample_session :
  run_game sample_keys [sample_reply; balance_reply 12]
  = (Val tt,
     mkWorld (mkGame 30 3 2 3) [] []
       (stdout (snd (run_game sample_keys [sample_reply; balance_reply 12])))
       [] [GET "questions" [("limit", VInt 10)]; reward_request (mkGame 30 3 2 3)])
  /\ In (FinalResults 3 2 "66.7" 30 3)
       (stdout (snd (run_game sample_keys [sample_reply; balance_reply 12])))
  /\ reward_request (mkGame 30 3 2 3)
     = POST "stars/add"
         [("amount", VInt 3); ("reason", VStr "Quiz game completed - 2/3 correct")].
Proof. vm_compute. intuition. Qed.

(** C3. The user answers the first question of [sample_batch] right (two
    stars) and presses Ctrl-C at the prompt of the second one:
    [get_user_input] catches the interrupt itself and calls [sys.exit(0)].
    The process ends there with status 0: no summary is printed and the two
    stars are not sent. *)
Theorem interrupt_at_prompt_ends_process :
  fst (run_game [Typed "1"; CtrlC] [sample_reply; balance_reply 12]) = Raise (SystemExit 0)
  /\ self (snd (run_game [Typed "1"; CtrlC] [sample_reply; balance_reply 12]))
     = mkGame 20 1 1 2
  /\ requests (snd (run_game [Typed "1"; CtrlC] [sample_reply; balance_reply 12]))
     = [GET "questions" [("limit", VInt 10)]]
  /\ last (stdout (snd (run_game [Typed "1"; CtrlC] [sample_reply; balance_reply 12]))) Thanks
     = InterruptedByUser
  /\ ~ In (Header "GAME COMPLETE!")
         (stdout (snd (run_game [Typed "1"; CtrlC] [sample_reply; balance_reply 12]))).
Proof.
  vm_compute. repeat split. intros H.
  repeat (destruct H as [H|H]; [ discriminate H | ]). exact H.
Qed.

(** The interrupt that [start] does handle: Ctrl-C during the pause after
    the first round reaches the [except KeyboardInterrupt] clause of [start],
    which prints the summary and sends the two stars. *)
Example interrupt_during_pause_reaches_end_game :
  fst (run_game [Typed "1"; CtrlCWhileSleeping] [sample_reply; balance_reply 12]) = Val tt
  /\ requests (snd (run_game [Typed "1"; CtrlCWhileSleeping] [sample_reply; balance_reply 12]))
     = [GET "questions" [("limit", VInt 10)]; reward_request (mkGame 20 1 1 2)]
  /\ In InterruptedFinal
       (stdout (snd (run_game [Typed "1"; CtrlCWhileSleeping] [sample_reply; balance_reply 12])))
  /\ In (FinalResults 1 1 "100.0" 20 2)
       (stdout (snd (run_game [Typed "1"; CtrlCWhileSleeping] [sample_reply; balance_reply 12]))).
Proof. vm_compute. intuition. Qed.

(** At any prompt of a round, Ctrl-C ends the process with status 0 before
    the round touches the game. *)
Lemma play_round_interrupted (q : QuizQuestion) (w : World) (rest : list key_event) (d : Z) :
  coerce_difficulty (difficulty q) = Some d ->
  keyboard w = CtrlC :: rest ->
  fst (play_round q w) = Raise (SystemExit 0)
  /\ self (snd (play_round q w)) = self w
  /\ requests (snd (play_round q w)) = requests w.
Proof.
  intros Hd Hk. rewrite play_round_split.
  erewrite bind_val by (rewrite display_question_eq, Hd; reflexivity).
  unfold round_after_display. cbv zeta.
  erewrite bind_raise by (apply get_user_input_interrupted with (rest := rest); exact Hk).
  repeat split.
Qed.

(** A [SystemExit] raised in the loop leaves [start] as it is: [end_game]
    is not run. *)
Lemma start_handlers_pass_exit (code : Z) : start_handlers (SystemExit code) = None.
Proof. reflexivity. Qed.

(* ================================================================= *)
(** ** The accuracy of the summary *)

Lemma end_game_outcome (w : World) :
  fst (end_game w) = Val tt \/ fst (end_game w) = Raise (SystemExit 1)
  \/ fst (end_game w) = Raise KeyboardInterrupt.
Proof.
  destruct w as [g keys net out err reqs].
  run_api. destruct (stars_earned g >? 0); [ | left; reflexivity ].
  destruct net as [|[[d|]| | | |] net]; try (right; left; reflexivity);
    try (left; reflexivity); try (right; right; reflexivity).
  destruct (d_success d); left; reflexivity.
Qed.

Lemma format_1f_tenths (x : float) (t : Z) :
  PyFloat.tenths x = Some (false, t) ->
  PyFloat.format_1f x = (Py.str (t / 10) ++ "." ++ Py.str (t mod 10))%string.
Proof. intros H. unfold PyFloat.format_1f. rewrite H. reflexivity. Qed.

(** C4. [end_game] never divides by zero.  With no question answered the
    accuracy is 0 and is shown as [0.0].  Otherwise the accuracy shown is the
    number of tenths [t] that [.1f] reads off the float
    [correct / total * 100], and [t / 10] is a one-decimal number nearest to
    [100 * correct / total]: it differs from it by at most [1/20], that is,
    [|2 * t * total - 2000 * correct| <= total].  (The bound on
    [total_questions] keeps the two binary roundings, of the quotient and of
    the product, below the distance between [100 * correct / total] and the
    nearest midpoint of two tenths.) *)
Theorem accuracy_rounded (w : World) :
  0 <= correct_answers (self w) <= total_questions (self w) ->
  total_questions (self w) <= 2 ^ 39 ->
  exists (x : float) (t : Z),
    accuracy (self w) = Some x
    /\ PyFloat.tenths x = Some (false, t)
    /\ PyFloat.format_1f x = (Py.str (t / 10) ++ "." ++ Py.str (t mod 10))%string
    /\ (exists more,
          stdout (snd (end_game w))
          = stdout w
            ++ [ClearScreen; Header "GAME COMPLETE!";
                FinalResults (total_questions (self w)) (correct_answers (self w))
                  (PyFloat.format_1f x) (score (self w)) (stars_earned (self w))]
            ++ more)
    /\ fst (end_game w) <> Raise (Exception ZeroDivisionError)
    /\ (total_questions (self w) = 0 -> t = 0)
    /\ (0 < total_questions (self w) ->
        - total_questions (self w)
        <= 2 * t * total_questions (self w) - 2000 * correct_answers (self w)
        <= total_questions (self w)).
Proof.
  intros Hc Hn.
  assert (Hx : exists t,
             PyFloat.tenths (accuracy_value (self w)) = Some (false, t)
             /\ (total_questions (self w) = 0 -> t = 0)
             /\ (0 < total_questions (self w) ->
                 - total_questions (self w)
                 <= 2 * t * total_questions (self w) - 2000 * correct_answers (self w)
                 <= total_questions (self w))).
  { unfold accuracy_value.
    destruct (total_questions (self w) >? 0) eqn:Hpos.
    - rewrite Z.gtb_ltb in Hpos. apply Z.ltb_lt in Hpos.
      destruct (Binary64.tenths_of_ratio (correct_answers (self w)) (total_questions (self w)))
        as (t & Ht & Hb); [ exact Hc | lia | ].
      exists t. split; [ exact Ht | split; [ lia | intros _; exact Hb ] ].
    - rewrite Z.gtb_ltb in Hpos. apply Z.ltb_ge in Hpos.
      exists 0. split; [ vm_compute; reflexivity | split; [ reflexivity | lia ] ]. }
  destruct Hx as (t & Ht & H0 & Hb).
  exists (accuracy_value (self w)), t.
  split; [ apply accuracy_eq | ].
  split; [ exact Ht | ].
  split; [ apply format_1f_tenths, Ht | ].
  split; [ apply end_game_summary | ].
  split; [ | split; assumption ].
  destruct (end_game_outcome w) as [-> | [-> | ->]]; discriminate.
Qed.

Lemma accuracy_rounded_witness :
  (0 <= correct_answers (self finished_world) <= total_questions (self finished_world)
   /\ total_questions (self finished_world) <= 2 ^ 39)
  /\ exists (x : float) (t : Z),
       accuracy (self finished_world) = Some x
       /\ PyFloat.tenths x = Some (false, t)
       /\ PyFloat.format_1f x = (Py.str (t / 10) ++ "." ++ Py.str (t mod 10))%string
       /\ (exists more,
             stdout (snd (end_game finished_world))
             = stdout finished_world
               ++ [ClearScreen; Header "GAME COMPLETE!";
                   FinalResults (total_questions (self finished_world))
                     (correct_answers (self finished_world))
                     (PyFloat.format_1f x) (score (self finished_world))
                     (stars_earned (self finished_world))]
               ++ more)
       /\ fst (end_game finished_world) <> Raise (Exception ZeroDivisionError)
       /\ (total_questions (self finished_world) = 0 -> t = 0)
       /\ (0 < total_questions (self finished_world) ->
           - total_questions (self finished_world)
           <= 2 * t * total_questions (self finished_world)
              - 2000 * correct_answers (self finished_world)
           <= total_questions (self finished_world)).
Proof.
  assert (H1 : 0 <= correct_answers (self finished_world)
               <= total_questions (self finished_world))
    by (vm_compute; split; discriminate).
  assert (H2 : total_questions (self finished_world) <= 2 ^ 39)
    by (vm_compute; discriminate).
  split; [ exact (conj H1 H2) | ].
  exact (accuracy_rounded finished_world H1 H2).
Defined.

(** Two of three is shown as 66.7, one of sixteen (6.25, a midpoint) as 6.2,
    nothing of nothing as 0.0 and seven of seven as 100.0. *)
Example accuracy_examples :
  option_map PyFloat.format_1f (accuracy (mkGame 30 3 2 3)) = Some "66.7"
  /\ option_map PyFloat.format_1f (accuracy (mkGame 10 16 1 1)) = Some "6.2"
  /\ option_map PyFloat.format_1f (accuracy (mkGame 0 0 0 0)) = Some "0.0"
  /\ option_map PyFloat.format_1f (accuracy (mkGame 70 7 7 7)) = Some "100.0".
Proof. vm_compute. repeat split. Qed.

(* ================================================================= *)
(** ** What [get_user_input] returns *)

Lemma get_user_input_loop_member (p : prompt) (v : list string) (keys : list key_event)
    (w w' : World) (x : string) :
  v <> [] ->
  get_user_input_loop p v keys w = (Val x, w') ->
  Py.mem x v = true
  /\ exists raw, In (Typed raw) keys /\ x = Py.lower (Py.strip raw).
Proof.
  intros Hv. revert w. induction keys as [|[s| |] rest IH]; intros w H;
    cbn [get_user_input_loop] in H; try discriminate H.
  destruct v as [|v0 v]; [ congruence | ].
  cbn [nonempty andb] in H.
  destruct (Py.mem (Py.lower (Py.strip s)) (v0 :: v)) eqn:Hm; cbn [negb] in H.
  - injection H as <- _. split; [ exact Hm | ].
    exists s. split; [ left; reflexivity | reflexivity ].
  - destruct (IH _ H) as [H1 (raw & Hin & Hraw)].
    split; [ exact H1 | ]. exists raw. split; [ right; exact Hin | exact Hraw ].
Qed.

(** [get_user_input] raises nothing but the [SystemExit] of status 0 that
    follows Ctrl-C and the [EOFError] of an input that has ended. *)
Lemma get_user_input_loop_raises (p : prompt) (v : list string) (keys : list key_event)
    (w w' : World) (e : exn) :
  get_user_input_loop p v keys w = (Raise e, w') ->
  e = SystemExit 0 \/ e = Exception EOFError.
Proof.
  revert w. induction keys as [|[s| |] rest IH]; intros w H;
    cbn [get_user_input_loop] in H.
  - injection H as <- _. right; reflexivity.
  - destruct (nonempty v && negb (Py.mem (Py.lower (Py.strip s)) v)).
    + exact (IH _ H).
    + discriminate H.
  - injection H as <- _. left; reflexivity.
  - injection H as <- _. left; reflexivity.
Qed.

(** X1. When [get_user_input] is given a non-empty list of valid choices,
    whatever it returns is one of them, and it is a line that the user typed,
    stripped and lower-cased; the game and the requests sent are as
    before. *)
Theorem get_user_input_returns_choice (p : prompt) (v : list string) (w w' : World)
    (x : string) :
  v <> [] ->
  get_user_input p v w = (Val x, w') ->
  Py.mem x v = true
  /\ (exists raw, In (Typed raw) (keyboard w) /\ x = Py.lower (Py.strip raw))
  /\ self w' = self w
  /\ requests w' = requests w.
Proof.
  intros Hv H. unfold get_user_input in H.
  destruct (get_user_input_loop_member p v (keyboard w) w w' x Hv H) as [H1 H2].
  split; [ exact H1 | split; [ exact H2 | ] ].
  pose proof (get_user_input_loop_self p v (keyboard w) w) as Hs.
  pose proof (get_user_input_loop_requests p v (keyboard w) w) as Hr.
  rewrite H in Hs, Hr. split; assumption.
Qed.

Lemma get_user_input_returns_choice_witness :
  (["y"; "n"; "yes"; "no"] <> []
   /\ get_user_input AskContinue ["y"; "n"; "yes"; "no"]
        (initial_world [Typed "maybe"; Typed " YES "; Typed "n"] [])
      = (Val "yes",
         mkWorld new_game [Typed "n"] []
           [Prompt AskContinue; PleaseEnter ["y"; "n"; "yes"; "no"]; Prompt AskContinue]
           [] []))
  /\ Py.mem "yes" ["y"; "n"; "yes"; "no"] = true.
Proof.
  assert (H1 : ["y"; "n"; "yes"; "no"] <> []) by discriminate.
  assert (H2 : get_user_input AskContinue ["y"; "n"; "yes"; "no"]
                 (initial_world [Typed "maybe"; Typed " YES "; Typed "n"] [])
               = (Val "yes",
                  mkWorld new_game [Typed "n"] []
                    [Prompt AskContinue; PleaseEnter ["y"; "n"; "yes"; "no"];
                     Prompt AskContinue]
                    [] []))
    by (vm_compute; reflexivity).
  split; [ exact (conj H1 H2) | ].
  exact (proj1 (get_user_input_returns_choice _ _ _ _ _ H1 H2)).
Defined.

(* ================================================================= *)
(** ** How a round can end *)

(** X2. A round on a question with at least one option and a difficulty
    that reads as an integer ends in one of four ways: it returns, the pause
    at its end is interrupted, the user presses Ctrl-C at the prompt (status
    0), or the input has ended.  In particular no selection that the prompt
    lets through makes [int()] or the indexing of the options fail. *)
Theorem play_round_outcomes (q : QuizQuestion) (w : World) :
  allOptions q <> [] ->
  coerce_difficulty (difficulty q) <> None ->
  (exists b, fst (play_round q w) = Val b)
  \/ fst (play_round q w) = Raise KeyboardInterrupt
  \/ fst (play_round q w) = Raise (SystemExit 0)
  \/ fst (play_round q w) = Raise (Exception EOFError).
Proof.
  intros Hopts Hd.
  destruct (coerce_difficulty (difficulty q)) as [d|] eqn:Ed; [ clear Hd | congruence ].
  rewrite play_round_split.
  erewrite bind_val by (rewrite display_question_eq, Ed; reflexivity).
  unfold round_after_display. cbv zeta.
  destruct (get_user_input (AskChoice (len (allOptions q))) (valid_choices_of q)
              (put_lines (display_lines q (self w)) w)) as [[x|e] w1] eqn:Eg.
  - assert (Hv : valid_choices_of q <> []).
    { intros Hn. pose proof (valid_choices_nonempty q Hopts) as Hne.
      rewrite Hn in Hne. discriminate Hne. }
    destruct (get_user_input_loop_member _ _ _ _ _ _ Hv Eg) as [Hm _].
    apply valid_choice_iff in Hm. destruct Hm as (s & Hs & ->).
    rewrite (bind_val _ _ _ _ _ Eg).
    destruct (index_in_range (allOptions q) (s - 1)) as [ua Hua]; [ lia | ].
    destruct w1 as [g1 keys1 net1 out1 err1 reqs1].
    rewrite PyFacts.int_str. run. rewrite Hua, Ed.
    destruct (s - 1 =? correctAnswerIndex q), (nonempty_str (biblicalReference q));
      destruct keys1 as [|[y| |] keys1]; cbv [sleep keyboard fst];
      first [ left; eexists; reflexivity | right; left; reflexivity ].
  - rewrite (bind_raise _ _ _ _ _ Eg). cbn [fst].
    destruct (get_user_input_loop_raises _ _ _ _ _ _ Eg) as [-> | ->]; auto.
Qed.

Lemma play_round_outcomes_witness :
  (allOptions (sample_question (DStr " 4") 2) <> []
   /\ coerce_difficulty (difficulty (sample_question (DStr " 4") 2)) <> None)
  /\ ((exists b, fst (play_round (sample_question (DStr " 4") 2)
                        (initial_world [Typed "0"; Typed "-1"; Typed "5"] [])) = Val b)
      \/ fst (play_round (sample_question (DStr " 4") 2)
                (initial_world [Typed "0"; Typed "-1"; Typed "5"] [])) = Raise KeyboardInterrupt
      \/ fst (play_round (sample_question (DStr " 4") 2)
                (initial_world [Typed "0"; Typed "-1"; Typed "5"] [])) = Raise (SystemExit 0)
      \/ fst (play_round (sample_question (DStr " 4") 2)
                (initial_world [Typed "0"; Typed "-1"; Typed "5"] []))
         = Raise (Exception EOFError)).
Proof.
  assert (H1 : allOptions (sample_question (DStr " 4") 2) <> []) by discriminate.
  assert (H2 : coerce_difficulty (difficulty (sample_question (DStr " 4") 2)) <> None)
    by (vm_compute; discriminate).
  split; [ exact (conj H1 H2) | ].
  exact (play_round_outcomes (sample_question (DStr " 4") 2)
           (initial_world [Typed "0"; Typed "-1"; Typed "5"] []) H1 H2).
Defined.

(* ================================================================= *)
(** ** The option that is picked is the option that was shown *)

Lemma enumerate_nth {A : Type} (l : list A) (start : Z) (k : nat) (x : A) :
  nth_error l k = Some x -> In (start + Z.of_nat k, x) (Py.enumerate start l).
Proof.
  revert start k. induction l as [|a l IH]; intros start k H.
  - destruct k; discriminate H.
  - destruct k as [|k]; cbn [nth_error] in H; cbn [Py.enumerate].
    + injection H as ->. left. f_equal. cbn. lia.
    + right. replace (start + Z.of_nat (S k)) with (start + 1 + Z.of_nat k) by lia.
      apply IH, H.
Qed.

Lemma index_nth {A : Type} (l : list A) (i : Z) :
  0 <= i < len l -> Py.index l i = nth_error l (Z.to_nat i).
Proof.
  unfold len, Py.index. intros H.
  replace ((0 <=? i) && (i <? Z.of_nat (List.length l))) with true
    by (symmetry; apply andb_true_iff; split; [ apply Z.leb_le | apply Z.ltb_lt ]; lia).
  reflexivity.
Qed.

(** The round that follows a valid selection, with the answer that is
    read off the options. *)
Lemma play_round_answer (q : QuizQuestion) (w : World) (raw : string)
    (rest : list key_event) (s d : Z) (user_answer : string) :
  keyboard w = Typed raw :: rest ->
  Py.lower (Py.strip raw) = Py.str s ->
  1 <= s <= len (allOptions q) ->
  coerce_difficulty (difficulty q) = Some d ->
  Py.index (allOptions q) (s - 1) = Some user_answer ->
  stdout (snd (play_round q w))
  = stdout w ++ display_lines q (self w)
    ++ [Prompt (AskChoice (len (allOptions q))); ClearScreen; Header "BIJBEL QUIZ GAME";
        if s - 1 =? correctAnswerIndex q
        then Correct user_answer (d * 10) d
        else Incorrect user_answer (correctAnswer q)]
    ++ (if nonempty_str (biblicalReference q)
        then [BibleReference (biblicalReference q)] else []).
Proof.
  intros Hk Hraw Hs Hd Hua.
  destruct w as [g keys net out err reqs]. cbn [keyboard] in Hk. subst keys.
  unfold play_round.
  erewrite bind_val by (rewrite display_question_eq, Hd; reflexivity).
  erewrite bind_val.
  2:{ apply get_user_input_accepts; [ reflexivity | ].
      rewrite Hraw.
      replace (Py.mem (Py.str s) (valid_choices_of q)) with true
        by (symmetry; apply valid_choice_iff; now exists s).
      apply andb_false_r. }
  rewrite Hraw, PyFacts.int_str. run. rewrite Hua, Hd.
  destruct (s - 1 =? correctAnswerIndex q), (nonempty_str (biblicalReference q));
    destruct rest as [|[x| |] rest]; run; cbn [fst snd sleep];
    world_eq.
Qed.

(** X3. In a round with a valid selection [s], the option printed beside
    the number [s] by [display_question] is the answer that [play_round]
    takes: it is the entry [s - 1] of [allOptions], it is on the terminal as
    choice [s], and it is the answer named in the line that reports the
    round as correct or incorrect. *)
Theorem selected_option_is_shown (q : QuizQuestion) (w : World) (raw : string)
    (rest : list key_event) (s d : Z) :
  keyboard w = Typed raw :: rest ->
  Py.lower (Py.strip raw) = Py.str s ->
  1 <= s <= len (allOptions q) ->
  coerce_difficulty (difficulty q) = Some d ->
  exists option_text,
    nth_error (allOptions q) (Z.to_nat (s - 1)) = Some option_text
    /\ In (Choice s option_text) (display_lines q (self w))
    /\ In (if s - 1 =? correctAnswerIndex q
           then Correct option_text (d * 10) d
           else Incorrect option_text (correctAnswer q))
          (stdout (snd (play_round q w)))
    /\ forall other, In (Choice s other) (stdout (snd (play_round q w))) ->
                     In (Choice s other) (stdout w) \/ other = option_text.
Proof.
  intros Hk Hraw Hs Hd.
  destruct (index_in_range (allOptions q) (s - 1)) as [ua Hua]; [ lia | ].
  exists ua.
  assert (Hnth : nth_error (allOptions q) (Z.to_nat (s - 1)) = Some ua)
    by (rewrite <- index_nth by lia; exact Hua).
  split; [ exact Hnth | ].
  assert (Hshown : In (Choice s ua) (display_lines q (self w))).
  { unfold display_lines. rewrite Hd.
    apply in_or_app; right. apply in_or_app; right. apply in_or_app; right.
    right. right. unfold choice_lines.
    apply (in_map (fun p => Choice (fst p) (snd p)) _ (s, ua)).
    replace s with (1 + Z.of_nat (Z.to_nat (s - 1))) at 1 by lia.
    apply enumerate_nth, Hnth. }
  split; [ exact Hshown | ].
  rewrite (play_round_answer q w raw rest s d ua Hk Hraw Hs Hd Hua).
  split.
  - apply in_or_app; right. apply in_or_app; right. apply in_or_app; left.
    right. right. right. left. reflexivity.
  - intros other Hin.
    apply in_app_or in Hin. destruct Hin as [Hin | Hin]; [ left; exact Hin | right ].
    apply in_app_or in Hin. destruct Hin as [Hin | Hin].
    + (* among the lines of the question: the choices are numbered apart *)
      unfold display_lines in Hin. rewrite Hd in Hin.
      apply in_app_or in Hin. destruct Hin as [Hin | Hin].
      { repeat (destruct Hin as [Hin | Hin]; [ discriminate Hin | ]). destruct Hin. }
      apply in_app_or in Hin. destruct Hin as [Hin | Hin].
      { destruct (nonempty_str (biblicalReference q));
          repeat (destruct Hin as [Hin | Hin]; [ discriminate Hin | ]); destruct Hin. }
      apply in_app_or in Hin. destruct Hin as [Hin | Hin].
      { destruct (nonempty (categories q));
          repeat (destruct Hin as [Hin | Hin]; [ discriminate Hin | ]); destruct Hin. }
      destruct Hin as [Hin | [Hin | Hin]]; try discriminate Hin.
      unfold choice_lines in Hin. apply in_map_iff in Hin.
      destruct Hin as ([i o] & Heq & Hin). cbn [fst snd] in Heq. injection Heq as -> ->.
      clear - Hin Hnth.
      assert (Hgen : forall (l : list string) start i o,
                 In (i, o) (Py.enumerate start l) ->
                 start <= i /\ nth_error l (Z.to_nat (i - start)) = Some o).
      { induction l as [|a l IH]; intros start i o H; [ destruct H | ].
        cbn [Py.enumerate] in H. destruct H as [H | H].
        - injection H as <- <-. split; [ lia | ]. now rewrite Z.sub_diag.
        - apply IH in H. destruct H as [Hle Hn]. split; [ lia | ].
          replace (Z.to_nat (i - start)) with (S (Z.to_nat (i - (start + 1)))) by lia.
          exact Hn. }
      apply Hgen in Hin. destruct Hin as [_ Hin]. congruence.
    + apply in_app_or in Hin. destruct Hin as [Hin | Hin].
      * destruct (s - 1 =? correctAnswerIndex q);
          repeat (destruct Hin as [Hin | Hin]; [ discriminate Hin | ]); destruct Hin.
      * destruct (nonempty_str (biblicalReference q));
          repeat (destruct Hin as [Hin | Hin]; [ discriminate Hin | ]); destruct Hin.
Qed.

Lemma selected_option_is_shown_witness :
  (keyboard (initial_world [Typed " 3"] []) = Typed " 3" :: []
   /\ Py.lower (Py.strip " 3") = Py.str 3
   /\ 1 <= 3 <= len (allOptions (sample_question (DInt 2) 0))
   /\ coerce_difficulty (difficulty (sample_question (DInt 2) 0)) = Some 2)
  /\ exists option_text,
       nth_error (allOptions (sample_question (DInt 2) 0)) (Z.to_nat (3 - 1))
       = Some option_text
       /\ In (Choice 3 option_text)
            (display_lines (sample_question (DInt 2) 0) (self (initial_world [Typed " 3"] [])))
       /\ In (if 3 - 1 =? correctAnswerIndex (sample_question (DInt 2) 0)
              then Correct option_text (2 * 10) 2
              else Incorrect option_text (correctAnswer (sample_question (DInt 2) 0)))
            (stdout (snd (play_round (sample_question (DInt 2) 0)
                            (initial_world [Typed " 3"] []))))
       /\ forall other,
            In (Choice 3 other)
              (stdout (snd (play_round (sample_question (DInt 2) 0)
                              (initial_world [Typed " 3"] [])))) ->
            In (Choice 3 other) (stdout (initial_world [Typed " 3"] []))
            \/ other = option_text.
Proof.
  assert (H1 : keyboard (initial_world [Typed " 3"] []) = Typed " 3" :: [])
    by reflexivity.
  assert (H2 : Py.lower (Py.strip " 3") = Py.str 3) by (vm_compute; reflexivity).
  assert (H3 : 1 <= 3 <= len (allOptions (sample_question (DInt 2) 0)))
    by (vm_compute; split; discriminate).
  assert (H4 : coerce_difficulty (difficulty (sample_question (DInt 2) 0)) = Some 2)
    by reflexivity.
  split; [ exact (conj H1 (conj H2 (conj H3 H4))) | ].
  exact (selected_option_is_shown (sample_question (DInt 2) 0)
           (initial_world [Typed " 3"] []) " 3" [] 3 2 H1 H2 H3 H4).
Defined.

(* ================================================================= *)
(** ** Going on after a wrong answer *)

Lemma go_on_is_a_choice (x : string) :
  Py.mem x ["y"; "yes"] = true ->
  Py.mem x ["y"; "n"; "yes"; "no"] = true /\ Py.mem x ["n"; "no"] = false.
Proof.
  unfold Py.mem. cbn [existsb]. rewrite !orb_false_r.
  intros H. apply orb_true_iff in H.
  destruct H as [H | H]; apply String.eqb_eq in H; subst x; split; reflexivity.
Qed.

(** X4. When a round that is not the last one is answered incorrectly and
    the user answers the question whether to continue with [y] or [yes] (in
    any case, with blanks around it), the loop goes on with the next
    question, in the state the round left; nothing is sent to the service in
    between. *)
Theorem continue_after_incorrect (done rest' : list QuizQuestion) (q : QuizQuestion)
    (w w1 : World) (raw : string) (keys : list key_event) :
  rest' <> [] ->
  play_round q w = (Val false, w1) ->
  keyboard w1 = Typed raw :: keys ->
  Py.mem (Py.lower (Py.strip raw)) ["y"; "yes"] = true ->
  play_questions (len (done ++ q :: rest')) (len done + 1) (q :: rest') w
  = play_questions (len (done ++ q :: rest')) (len done + 1 + 1) rest'
      (mkWorld (self w1) keys (network w1) (stdout w1 ++ [Prompt AskContinue])
         (stderr w1) (requests w1)).
Proof.
  intros Hrest Hround Hk Hgo.
  destruct (go_on_is_a_choice _ Hgo) as [Hin Hstop].
  cbn [play_questions].
  rewrite (bind_val _ _ _ _ _ Hround). cbv iota.
  rewrite (not_last done rest' q Hrest).
  erewrite bind_val.
  2:{ apply get_user_input_accepts with (raw := raw) (rest := keys); [ exact Hk | ].
      rewrite Hin. reflexivity. }
  rewrite Hstop. reflexivity.
Qed.

Lemma continue_after_incorrect_witness :
  ([sample_question (DInt 1) 1] <> []
   /\ play_round (sample_question (DStr "3") 2) (initial_world [Typed "4"; Typed " Yes"] [])
      = (Val false,
         snd (play_round (sample_question (DStr "3") 2)
                (initial_world [Typed "4"; Typed " Yes"] [])))
   /\ keyboard (snd (play_round (sample_question (DStr "3") 2)
                       (initial_world [Typed "4"; Typed " Yes"] [])))
      = Typed " Yes" :: []
   /\ Py.mem (Py.lower (Py.strip " Yes")) ["y"; "yes"] = true)
  /\ play_questions
       (len ([sample_question (DInt 2) 0]
             ++ sample_question (DStr "3") 2 :: [sample_question (DInt 1) 1]))
       (len [sample_question (DInt 2) 0] + 1)
       (sample_question (DStr "3") 2 :: [sample_question (DInt 1) 1])
       (initial_world [Typed "4"; Typed " Yes"] [])
     = play_questions
         (len ([sample_question (DInt 2) 0]
               ++ sample_question (DStr "3") 2 :: [sample_question (DInt 1) 1]))
         (len [sample_question (DInt 2) 0] + 1 + 1)
         [sample_question (DInt 1) 1]
         (mkWorld
            (self (snd (play_round (sample_question (DStr "3") 2)
                          (initial_world [Typed "4"; Typed " Yes"] []))))
            []
            (network (snd (play_round (sample_question (DStr "3") 2)
                             (initial_world [Typed "4"; Typed " Yes"] []))))
            (stdout (snd (play_round (sample_question (DStr "3") 2)
                            (initial_world [Typed "4"; Typed " Yes"] [])))
             ++ [Prompt AskContinue])
            (stderr (snd (play_round (sample_question (DStr "3") 2)
                            (initial_world [Typed "4"; Typed " Yes"] []))))
            (requests (snd (play_round (sample_question (DStr "3") 2)
                              (initial_world [Typed "4"; Typed " Yes"] []))))).
Proof.
  assert (H1 : [sample_question (DInt 1) 1] <> []) by discriminate.
  assert (H2 : play_round (sample_question (DStr "3") 2)
                 (initial_world [Typed "4"; Typed " Yes"] [])
               = (Val false,
                  snd (play_round (sample_question (DStr "3") 2)
                         (initial_world [Typed "4"; Typed " Yes"] []))))
    by (vm_compute; reflexivity).
  assert (H3 : keyboard (snd (play_round (sample_question (DStr "3") 2)
                                (initial_world [Typed "4"; Typed " Yes"] [])))
               = Typed " Yes" :: [])
    by (vm_compute; reflexivity).
  assert (H4 : Py.mem (Py.lower (Py.strip " Yes")) ["y"; "yes"] = true)
    by (vm_compute; reflexivity).
  split; [ exact (conj H1 (conj H2 (conj H3 H4))) | ].
  exact (continue_after_incorrect [sample_question (DInt 2) 0]
           [sample_question (DInt 1) 1] (sample_question (DStr "3") 2)
           _ _ " Yes" [] H1 H2 H3 H4).
Defined.

(* ================================================================= *)
(** ** The rounds of a session, taken together *)

(** X5. However the rounds of a batch go, the number of questions counted
    grows by at most the size of the batch, the number of correct answers
    grows by at most the number of questions counted, and the score grows by
    ten times the stars earned. *)
Theorem rounds_bounded (n i : Z) (qs : list QuizQuestion) (w : World) :
  0 <= total_questions (self (snd (play_questions n i qs w))) - total_questions (self w)
    <= len qs
  /\ 0 <= correct_answers (self (snd (play_questions n i qs w))) - correct_answers (self w)
       <= total_questions (self (snd (play_questions n i qs w))) - total_questions (self w)
  /\ score (self (snd (play_questions n i qs w))) - score (self w)
     = 10 * (stars_earned (self (snd (play_questions n i qs w))) - stars_earned (self w)).
Proof.
  set (P := fun (g g' : QuizGame) (k : Z) =>
              0 <= total_questions g' - total_questions g <= k
              /\ 0 <= correct_answers g' - correct_answers g
                   <= total_questions g' - total_questions g
              /\ score g' - score g = 10 * (stars_earned g' - stars_earned g)).
  change (P (self w) (self (snd (play_questions n i qs w))) (len qs)).
  assert (Hrefl : forall g k, 0 <= k -> P g g k) by (unfold P; intros; lia).
  assert (Htrans : forall a b c k, P a b 1 -> P b c k -> P a c (k + 1))
    by (unfold P; intros; lia).
  assert (Hweak : forall a b k, 0 <= k -> P a b 1 -> P a b (k + 1))
    by (unfold P; intros; lia).
  assert (Hround : forall q w, P (self w) (self (snd (play_round q w))) 1).
  { intros q w0. unfold P.
    destruct (play_round_self q w0) as [-> | (d & _ & [-> | ->])];
      cbn [score total_questions correct_answers stars_earned]; lia. }
  clearbody P.
  revert i w. induction qs as [|q qs IH]; intros i w; cbn [play_questions].
  - apply Hrefl. reflexivity.
  - assert (Hpos : 0 <= len qs) by (unfold len; lia).
    replace (len (q :: qs)) with (len qs + 1) by (unfold len; cbn [List.length]; lia).
    unfold bind at 1. specialize (Hround q w).
    destruct (play_round q w) as [[b|e] w1]; cbn [snd] in Hround |- *;
      [ | apply Hweak; assumption ].
    destruct b; [ apply Htrans with (self w1); [ exact Hround | apply IH ] | ].
    destruct (i <? n); [ | apply Htrans with (self w1); [ exact Hround | apply IH ] ].
    unfold bind.
    pose proof (get_user_input_self AskContinue ["y"; "n"; "yes"; "no"] w1) as H2.
    destruct (get_user_input _ _ w1) as [[c|e] w2]; cbn [snd] in H2 |- *;
      [ | rewrite H2; apply Hweak; assumption ].
    destruct (Py.mem c ["n"; "no"]);
      [ cbn [ret snd]; rewrite H2; apply Hweak; assumption | ].
    apply Htrans with (self w1); [ exact Hround | rewrite <- H2; apply IH ].
Qed.

(** X6. A user who picks the correct option of every question of a batch
    goes through all of it without being asked whether to continue: the
    loop returns, the lines typed are used up one per question, every
    question counts as correct, and the stars earned are the sum of the
    difficulties, the score ten times as much. *)
Theorem all_correct_session (n i : Z) (qs : list QuizQuestion) (w : World)
    (rest : list key_event) :
  Forall playable qs ->
  keyboard w = correct_keys qs ++ rest ->
  pause_interrupted rest = false ->
  fst (play_questions n i qs w) = Val tt
  /\ keyboard (snd (play_questions n i qs w)) = rest
  /\ self (snd (play_questions n i qs w))
     = mkGame (score (self w) + sum_difficulty qs * 10)
              (total_questions (self w) + len qs)
              (correct_answers (self w) + len qs)
              (stars_earned (self w) + sum_difficulty qs).
Proof.
  intros Hqs. revert i w. induction Hqs as [|q qs [Hd Hc] Hqs IH]; intros i w Hk Hp.
  - cbn [play_questions correct_keys map app] in *. unfold ret, sum_difficulty, len. cbn.
    split; [ reflexivity | split; [ exact Hk | ] ].
    destruct (self w); cbn. f_equal; lia.
  - cbn [correct_keys map app] in Hk. fold (correct_keys qs) in Hk.
    destruct (coerce_difficulty (difficulty q)) as [d|] eqn:Ed; [ clear Hd | congruence ].
    destruct (play_round_valid q w (Py.str (correctAnswerIndex q + 1))
                (correct_keys qs ++ rest) (correctAnswerIndex q + 1) d)
      as (w1 & ua & Hrun & Hself & Hkeys & _); try assumption.
    { now rewrite PyFacts.strip_str, PyFacts.lower_str. }
    { lia. }
    assert (Hquiet : pause_interrupted (correct_keys qs ++ rest) = false).
    { destruct qs; [ exact Hp | reflexivity ]. }
    rewrite Hquiet in Hrun, Hkeys.
    replace (correctAnswerIndex q + 1 - 1 =? correctAnswerIndex q) with true in Hrun, Hself
      by (symmetry; apply Z.eqb_eq; lia).
    cbn [play_questions]. rewrite (bind_val _ _ _ _ _ Hrun). cbv iota.
    destruct (IH (i + 1) w1 Hkeys Hp) as (H1 & H2 & H3).
    split; [ exact H1 | split; [ exact H2 | ] ].
    rewrite H3, Hself. cbn [score total_questions correct_answers stars_earned].
    unfold sum_difficulty, len. cbn [map fold_right List.length].
    set (rest_sum := fold_right Z.add 0 (map difficulty_of qs)).
    unfold difficulty_of. rewrite Ed. f_equal; lia.
Qed.

Lemma all_correct_session_witness :
  (Forall playable sample_batch
   /\ keyboard (initial_world (correct_keys sample_batch ++ [Typed "spare"]) [])
      = correct_keys sample_batch ++ [Typed "spare"]
   /\ pause_interrupted [Typed "spare"] = false)
  /\ self (snd (play_questions 3 1 sample_batch
                  (initial_world (correct_keys sample_batch ++ [Typed "spare"]) [])))
     = mkGame 60 3 3 6.
Proof.
  assert (H1 : Forall playable sample_batch).
  { repeat constructor; try (vm_compute; discriminate). }
  assert (H2 : keyboard (initial_world (correct_keys sample_batch ++ [Typed "spare"]) [])
               = correct_keys sample_batch ++ [Typed "spare"]) by reflexivity.
  assert (H3 : pause_interrupted [Typed "spare"] = false) by reflexivity.
  split; [ exact (conj H1 (conj H2 H3)) | ].
  exact (proj2 (proj2 (all_correct_session 3 1 sample_batch
                         (initial_world (correct_keys sample_batch ++ [Typed "spare"]) [])
                         [Typed "spare"] H1 H2 H3))).
Defined.

(* ================================================================= *)
(** ** A session from its start *)

Lemma try_except_val_bind {A B : Type} (m : M A) (k : A -> M B) (h : exn -> option (M B))
    (w w' : World) (a : A) :
  m w = (Val a, w') -> try_except (bind m k) h w = try_except (k a) h w'.
Proof. intros H. unfold try_except, bind. rewrite H. reflexivity. Qed.

Lemma try_except_raise {A : Type} (body : M A) (h : exn -> option (M A)) (w w' : World)
    (e : exn) (handler : M A) :
  body w = (Raise e, w') -> h e = Some handler -> try_except body h w = handler w'.
Proof. intros H He. unfold try_except. rewrite H, He. reflexivity. Qed.

Lemma try_except_pass {A : Type} (body : M A) (h : exn -> option (M A)) (w w' : World)
    (e : exn) :
  body w = (Raise e, w') -> h e = None -> try_except body h w = (Raise e, w').
Proof. intros H He. unfold try_except. rewrite H, He. reflexivity. Qed.

(** [get_questions] is one [_get] on the endpoint [questions]. *)
Lemma get_questions_eq (category : option string) (limit : Z) (difficulty : option Z) :
  exists params, get_questions category limit difficulty = _get "questions" params.
Proof. unfold get_questions. eexists. reflexivity. Qed.

Lemma _get_reply (endpoint : string) (params : list (string * value)) (w : World)
    (body : json) (rest : list response) :
  network w = Reply body :: rest ->
  _get endpoint params w
  = (Val body,
     mkWorld (self w) (keyboard w) rest (stdout w) (stderr w)
       (requests w ++ [GET endpoint params])).
Proof.
  intros Hn. destruct w as [g keys net out err reqs]. cbn [network] in Hn. subst net.
  reflexivity.
Qed.

Lemma _get_failure (endpoint : string) (params : list (string * value)) (w : World) :
  no_reply (network w) = true ->
  exists diag,
    _get endpoint params w
    = (Raise (SystemExit 1),
       mkWorld (self w) (keyboard w) (tl (network w)) (stdout w) (stderr w ++ [diag])
         (requests w ++ [GET endpoint params])).
Proof.
  intros Hn. destruct w as [g keys net out err reqs]. cbn [network] in Hn.
  destruct net as [|[body|code detail| | |] net]; try discriminate Hn;
    eexists; reflexivity.
Qed.

(** The world in which the rounds begin. *)
Lemma start_loaded (category : option string) (difficulty : option Z) (num_questions : Z)
    (w : World) (q : QuizQuestion) (qs : list QuizQuestion) (body : json)
    (rest : list response) :
  pause_interrupted (keyboard w) = false ->
  network w = Reply body :: rest ->
  batch_reply q qs body ->
  exists params,
    start category difficulty num_questions w
    = try_except (play_questions (len (q :: qs)) 1 (q :: qs) ;; end_game) start_handlers
        (mkWorld (self w) (keyboard w) rest
           (stdout w ++ [Starting; Loading; Loaded (len (q :: qs))]) (stderr w)
           (requests w ++ [GET "questions" params])).
Proof.
  intros Hp Hn (success & balance & ->).
  destruct (get_questions_eq category num_questions difficulty) as [params Hq].
  exists params. unfold start. rewrite Hq.
  destruct w as [g keys net out err reqs].
  cbn [self keyboard network stdout stderr requests] in *. subst net.
  erewrite bind_val by reflexivity.
  erewrite bind_val by (apply sleep_quiet; exact Hp).
  erewrite try_except_val_bind by reflexivity.
  erewrite try_except_val_bind by (apply _get_reply; reflexivity).
  cbv beta iota.
  erewrite try_except_val_bind by reflexivity.
  erewrite try_except_val_bind by (apply sleep_quiet; exact Hp).
  f_equal. world_eq.
Qed.

(** X7. When the request for the questions fails on the way (no
    connection, an HTTP error status, a body that cannot be read), [start]
    ends the process with status 1 after one line on the diagnostic stream:
    no question is shown, nothing is read from the keyboard, the game is
    untouched, and neither the summary nor any further request follows. *)
Theorem questions_failure_ends_session (category : option string) (difficulty : option Z)
    (num_questions : Z) (w : World) :
  pause_interrupted (keyboard w) = false ->
  no_reply (network w) = true ->
  exists params diag,
    start category difficulty num_questions w
    = (Raise (SystemExit 1),
       mkWorld (self w) (keyboard w) (tl (network w)) (stdout w ++ [Starting; Loading])
         (stderr w ++ [diag]) (requests w ++ [GET "questions" params])).
Proof.
  intros Hp Hn.
  destruct (get_questions_eq category num_questions difficulty) as [params Hq].
  destruct (_get_failure "questions" params (put_line Loading (put_line Starting w)) Hn)
    as [diag Hg].
  exists params, diag. unfold start. rewrite Hq.
  erewrite bind_val by reflexivity.
  erewrite bind_val by (apply sleep_quiet; exact Hp).
  erewrite try_except_pass with (e := SystemExit 1); [ | | reflexivity ].
  2:{ erewrite bind_val by reflexivity. erewrite bind_raise by exact Hg. reflexivity. }
  f_equal. destruct w. world_eq.
Qed.

Lemma questions_failure_ends_session_witness :
  (pause_interrupted (keyboard (initial_world sample_keys [HTTPError 503 None; sample_reply]))
   = false
   /\ no_reply (network (initial_world sample_keys [HTTPError 503 None; sample_reply])) = true)
  /\ exists params diag,
       start None (Some 3) 5 (initial_world sample_keys [HTTPError 503 None; sample_reply])
       = (Raise (SystemExit 1),
          mkWorld new_game sample_keys [sample_reply] [Starting; Loading] [diag]
            [GET "questions" params]).
Proof.
  assert (H1 : pause_interrupted
                 (keyboard (initial_world sample_keys [HTTPError 503 None; sample_reply]))
               = false) by reflexivity.
  assert (H2 : no_reply (network (initial_world sample_keys [HTTPError 503 None; sample_reply]))
               = true) by reflexivity.
  split; [ exact (conj H1 H2) | ].
  exact (questions_failure_ends_session None (Some 3) 5
           (initial_world sample_keys [HTTPError 503 None; sample_reply]) H1 H2).
Defined.

(** X8. When the difficulty of the first question of the batch is a string
    of ASCII characters that [int()] cannot read, [display_question] raises
    [ValueError] after the head of the question; the [except Exception]
    clause of [start] prints the error line and [start] returns: the options
    are not shown, nothing is read from the keyboard, no round is scored,
    and the summary of [end_game] is not printed. *)
Theorem unreadable_difficulty_ends_session (category : option string)
    (difficulty0 : option Z) (num_questions : Z) (w : World) (q : QuizQuestion)
    (qs : list QuizQuestion) (body : json) (rest : list response) (text : string) :
  pause_interrupted (keyboard w) = false ->
  network w = Reply body :: rest ->
  batch_reply q qs body ->
  difficulty q = DStr text ->
  ascii_only text = true ->
  Py.int text = None ->
  exists params,
    start category difficulty0 num_questions w
    = (Val tt,
       mkWorld (self w) (keyboard w) rest
         (stdout w ++ [Starting; Loading; Loaded (len (q :: qs))]
            ++ display_lines q (self w) ++ [ErrorDuringGame ValueError])
         (stderr w) (requests w ++ [GET "questions" params])).
Proof.
  intros Hp Hn Hb Hq _ Hint.
  assert (Hd : coerce_difficulty (difficulty q) = None) by (rewrite Hq; exact Hint).
  destruct (start_loaded category difficulty0 num_questions w q qs body rest Hp Hn Hb)
    as [params Hs].
  exists params. rewrite Hs.
  erewrite try_except_raise with (e := Exception ValueError); [ | | reflexivity ].
  2:{ apply bind_raise. cbn [play_questions]. apply bind_raise.
      rewrite play_round_split. apply bind_raise.
      rewrite display_question_eq, Hd. reflexivity. }
  destruct w. unfold print. f_equal. world_eq.
Qed.

Lemma unreadable_difficulty_ends_session_witness :
  (pause_interrupted
     (keyboard (initial_world sample_keys
        [Reply (JDict (mkDict (Some [sample_question (DStr "hard") 2]) true None))]))
   = false
   /\ network (initial_world sample_keys
        [Reply (JDict (mkDict (Some [sample_question (DStr "hard") 2]) true None))])
      = Reply (JDict (mkDict (Some [sample_question (DStr "hard") 2]) true None)) :: []
   /\ batch_reply (sample_question (DStr "hard") 2) []
        (JDict (mkDict (Some [sample_question (DStr "hard") 2]) true None))
   /\ difficulty (sample_question (DStr "hard") 2) = DStr "hard"
   /\ ascii_only "hard" = true
   /\ Py.int "hard" = None)
  /\ exists params,
       start None None 10
         (initial_world sample_keys
            [Reply (JDict (mkDict (Some [sample_question (DStr "hard") 2]) true None))])
       = (Val tt,
          mkWorld new_game sample_keys []
            ([] ++ [Starting; Loading; Loaded (len [sample_question (DStr "hard") 2])]
               ++ display_lines (sample_question (DStr "hard") 2) new_game
               ++ [ErrorDuringGame ValueError])
            [] ([] ++ [GET "questions" params])).
Proof.
  assert (H1 : pause_interrupted
                 (keyboard (initial_world sample_keys
                    [Reply (JDict (mkDict (Some [sample_question (DStr "hard") 2]) true None))]))
               = false) by reflexivity.
  assert (H2 : network (initial_world sample_keys
                 [Reply (JDict (mkDict (Some [sample_question (DStr "hard") 2]) true None))])
               = Reply (JDict (mkDict (Some [sample_question (DStr "hard") 2]) true None)) :: [])
    by reflexivity.
  assert (H3 : batch_reply (sample_question (DStr "hard") 2) []
                 (JDict (mkDict (Some [sample_question (DStr "hard") 2]) true None)))
    by (exists true, None; reflexivity).
  assert (H4 : difficulty (sample_question (DStr "hard") 2) = DStr "hard") by reflexivity.
  assert (H5 : ascii_only "hard" = true) by reflexivity.
  assert (H6 : Py.int "hard" = None) by (vm_compute; reflexivity).
  split; [ exact (conj H1 (conj H2 (conj H3 (conj H4 (conj H5 H6))))) | ].
  exact (unreadable_difficulty_ends_session None None 10 _ _ _ _ _ "hard" H1 H2 H3 H4 H5 H6).
Defined.

(** X9. When the input has ended before the first selection (nothing is
    left to read at the prompt), [input] raises [EOFError]; the
    [except Exception] clause of [start] prints the error line and [start]
    returns without the summary: the game is untouched and no stars are
    sent. *)
Theorem end_of_input_ends_session (category : option string) (difficulty0 : option Z)
    (num_questions : Z) (w : World) (q : QuizQuestion) (qs : list QuizQuestion)
    (body : json) (rest : list response) :
  keyboard w = [] ->
  network w = Reply body :: rest ->
  batch_reply q qs body ->
  coerce_difficulty (difficulty q) <> None ->
  exists params,
    start category difficulty0 num_questions w
    = (Val tt,
       mkWorld (self w) [] rest
         (stdout w ++ [Starting; Loading; Loaded (len (q :: qs))]
            ++ display_lines q (self w)
            ++ [Prompt (AskChoice (len (allOptions q))); ErrorDuringGame EOFError])
         (stderr w) (requests w ++ [GET "questions" params])).
Proof.
  intros Hk Hn Hb Hd.
  destruct (coerce_difficulty (difficulty q)) as [d|] eqn:Ed; [ clear Hd | congruence ].
  assert (Hp : pause_interrupted (keyboard w) = false) by (rewrite Hk; reflexivity).
  destruct (start_loaded category difficulty0 num_questions w q qs body rest Hp Hn Hb)
    as [params Hs].
  exists params. rewrite Hs.
  destruct w as [g keys net out err reqs]. cbn [keyboard] in Hk. subst keys.
  erewrite try_except_raise with (e := Exception EOFError); [ | | reflexivity ].
  2:{ apply bind_raise. cbn [play_questions]. apply bind_raise.
      rewrite play_round_split.
      erewrite bind_val by (rewrite display_question_eq, Ed; reflexivity).
      unfold round_after_display. cbv zeta. apply bind_raise. reflexivity. }
  unfold print. f_equal. world_eq.
Qed.

Lemma end_of_input_ends_session_witness :
  (keyboard (initial_world [] [sample_reply]) = []
   /\ network (initial_world [] [sample_reply]) = Reply (JDict (mkDict (Some sample_batch) false None)) :: []
   /\ batch_reply (sample_question (DInt 2) 0)
        [sample_question (DStr "3") 2; sample_question (DInt 1) 1]
        (JDict (mkDict (Some sample_batch) false None))
   /\ coerce_difficulty (difficulty (sample_question (DInt 2) 0)) <> None)
  /\ exists params,
       start None None 10 (initial_world [] [sample_reply])
       = (Val tt,
          mkWorld new_game [] []
            ([] ++ [Starting; Loading; Loaded 3]
               ++ display_lines (sample_question (DInt 2) 0) new_game
               ++ [Prompt (AskChoice 4); ErrorDuringGame EOFError])
            [] ([] ++ [GET "questions" params])).
Proof.
  assert (H1 : keyboard (initial_world [] [sample_reply]) = []) by reflexivity.
  assert (H2 : network (initial_world [] [sample_reply])
               = Reply (JDict (mkDict (Some sample_batch) false None)) :: []) by reflexivity.
  assert (H3 : batch_reply (sample_question (DInt 2) 0)
                 [sample_question (DStr "3") 2; sample_question (DInt 1) 1]
                 (JDict (mkDict (Some sample_batch) false None)))
    by (exists false, None; reflexivity).
  assert (H4 : coerce_difficulty (difficulty (sample_question (DInt 2) 0)) <> None)
    by discriminate.
  split; [ exact (conj H1 (conj H2 (conj H3 H4))) | ].
  exact (end_of_input_ends_session None None 10 _ _ _ _ _ H1 H2 H3 H4).
Defined.

(** X11. Ctrl-C during the pause at the very start of a session, before
    anything is requested, is not caught by [start]; it reaches [main], which
    writes that the operation was cancelled to the diagnostic stream and ends
    the process with status 1.  No request is sent and no summary is
    printed. *)
Theorem interrupt_before_loading (category : option string) (difficulty0 : option Z)
    (num_questions : Z) (w : World) (keys : list key_event) :
  keyboard w = CtrlCWhileSleeping :: keys ->
  main_game category difficulty0 num_questions w
  = (Raise (SystemExit 1),
     mkWorld new_game keys (network w) (stdout w ++ [Starting])
       (stderr w ++ [OperationCancelled]) (requests w)).
Proof.
  intros Hk. destruct w as [g ks net out err reqs]. cbn [keyboard] in Hk. subst ks.
  reflexivity.
Qed.

Lemma interrupt_before_loading_witness :
  keyboard (initial_world [CtrlCWhileSleeping; Typed "1"] [sample_reply])
  = CtrlCWhileSleeping :: [Typed "1"]
  /\ run_game [CtrlCWhileSleeping; Typed "1"] [sample_reply]
     = (Raise (SystemExit 1),
        mkWorld new_game [Typed "1"] [sample_reply] [Starting] [OperationCancelled] []).
Proof.
  assert (H1 : keyboard (initial_world [CtrlCWhileSleeping; Typed "1"] [sample_reply])
               = CtrlCWhileSleeping :: [Typed "1"]) by reflexivity.
  split; [ exact H1 | ].
  exact (interrupt_before_loading None None 10
           (initial_world [CtrlCWhileSleeping; Typed "1"] [sample_reply]) [Typed "1"] H1).
Defined.

(** X12. When the service answers the request for the stars, [end_game]
    returns normally, whatever the answer says: after the summary it prints
    the new balance when the body reports success, the warning that the
    stars could not be updated when it does not, and the warning that they
    could not be awarded when the body is not an object; the closing line
    follows in each case, and nothing is written to the diagnostic
    stream. *)
Theorem reward_answer_reported (w : World) (body : json) (rest : list response) :
  stars_earned (self w) > 0 ->
  network w = Reply body :: rest ->
  fst (end_game w) = Val tt
  /\ stdout (snd (end_game w))
     = stdout w ++ summary_lines (self w)
       ++ [match body with
           | JDict d => if d_success d then NewBalance (d_balance d) else WarnNotUpdated
           | JList => WarnNotAwarded AttributeError
           end; Thanks]
  /\ stderr (snd (end_game w)) = stderr w
  /\ network (snd (end_game w)) = rest.
Proof.
  intros Hs Hn. rewrite (end_game_answered w body rest Hs Hn).
  repeat split.
Qed.

Lemma reward_answer_reported_witness :
  (stars_earned (self (mkWorld (mkGame 30 3 2 3) [] [balance_reply 12] [] [] [])) > 0
   /\ network (mkWorld (mkGame 30 3 2 3) [] [balance_reply 12] [] [] [])
      = Reply (JDict (mkDict None true (Some 12))) :: [])
  /\ stdout (snd (end_game (mkWorld (mkGame 30 3 2 3) [] [balance_reply 12] [] [] [])))
     = [] ++ summary_lines (mkGame 30 3 2 3) ++ [NewBalance (Some 12); Thanks].
Proof.
  assert (H1 : stars_earned (self (mkWorld (mkGame 30 3 2 3) [] [balance_reply 12] [] [] []))
               > 0) by reflexivity.
  assert (H2 : network (mkWorld (mkGame 30 3 2 3) [] [balance_reply 12] [] [] [])
               = Reply (JDict (mkDict None true (Some 12))) :: []) by reflexivity.
  split; [ exact (conj H1 H2) | ].
  exact (proj1 (proj2 (reward_answer_reported _ _ _ H1 H2))).
Defined.

(* ================================================================= *)
(** ** Rounds leave the service alone *)

Lemma offline_ret {A : Type} (a : A) : offline (ret a).
Proof. intros w. repeat split. exists []. cbn. now rewrite app_nil_r. Qed.

Lemma offline_raise {A : Type} (e : exn) : offline (@raise A e).
Proof. intros w. repeat split. exists []. cbn. now rewrite app_nil_r. Qed.

Lemma offline_bind {A B : Type} (m : M A) (k : A -> M B) :
  offline m -> (forall a, offline (k a)) -> offline (bind m k).
Proof.
  intros Hm Hk w. unfold bind.
  destruct (Hm w) as (Hn & Hr & He & more & Ho).
  destruct (m w) as [[a|e] w']; cbn [snd] in *.
  - destruct (Hk a w') as (Hn' & Hr' & He' & more' & Ho').
    rewrite Hn', Hr', He', Ho', Hn, Hr, He, Ho.
    repeat split. exists (more ++ more'). now rewrite app_assoc.
  - repeat split; try assumption. exists more. exact Ho.
Qed.

Lemma offline_print (l : line) : offline (print l).
Proof. intros w. repeat split. exists [l]. reflexivity. Qed.

Lemma offline_get_self : offline get_self.
Proof. intros w. repeat split. exists []. cbn. now rewrite app_nil_r. Qed.

Lemma offline_set_self (g : QuizGame) : offline (set_self g).
Proof. intros w. repeat split. exists []. cbn. now rewrite app_nil_r. Qed.

Lemma offline_or_raise {A : Type} (o : option A) (e : exception) : offline (or_raise o e).
Proof. destruct o; [ apply offline_ret | apply offline_raise ]. Qed.

Lemma offline_when (b : bool) (m : M unit) : offline m -> offline (when b m).
Proof. intros H. destruct b; [ exact H | apply offline_ret ]. Qed.

Lemma offline_sleep : offline sleep.
Proof.
  intros w. unfold sleep.
  destruct (keyboard w) as [|[s| |] rest]; repeat split; exists []; cbn;
    now rewrite app_nil_r.
Qed.

Lemma offline_get_user_input_loop (p : prompt) (v : list string) (keys : list key_event)
    (w : World) :
  network (snd (get_user_input_loop p v keys w)) = network w
  /\ requests (snd (get_user_input_loop p v keys w)) = requests w
  /\ stderr (snd (get_user_input_loop p v keys w)) = stderr w
  /\ exists more, stdout (snd (get_user_input_loop p v keys w)) = stdout w ++ more.
Proof.
  revert w. induction keys as [|[s| |] rest IH]; intros w; cbn [get_user_input_loop].
  - repeat split. exists [Prompt p]. reflexivity.
  - destruct (nonempty v && negb (Py.mem (Py.lower (Py.strip s)) v)).
    + destruct (IH (put_line (PleaseEnter v) (put_line (Prompt p) w)))
        as (Hn & Hr & He & more & Ho).
      rewrite Hn, Hr, He, Ho. repeat split.
      exists ([Prompt p; PleaseEnter v] ++ more). cbn [stdout put_line].
      now rewrite <- !app_assoc.
    + repeat split. exists [Prompt p]. reflexivity.
  - repeat split. exists [Prompt p; InterruptedByUser]. cbn. now rewrite <- app_assoc.
  - repeat split. exists [Prompt p; InterruptedByUser]. cbn. now rewrite <- app_assoc.
Qed.

Lemma offline_get_user_input (p : prompt) (v : list string) : offline (get_user_input p v).
Proof. intros w. apply offline_get_user_input_loop. Qed.

Lemma offline_display_question (q : QuizQuestion) : offline (display_question q).
Proof.
  intros w. rewrite display_question_eq. cbn [snd].
  repeat split. exists (display_lines q (self w)). reflexivity.
Qed.

Create HintDb offline.
#[local] Hint Resolve offline_ret offline_raise offline_print offline_get_self
  offline_set_self offline_or_raise offline_when offline_sleep offline_get_user_input
  offline_display_question : offline.

Lemma offline_play_round (q : QuizQuestion) : offline (play_round q).
Proof.
  rewrite play_round_split. apply offline_bind; [ auto with offline | intros q' ].
  unfold round_after_display.
  repeat first
    [ apply offline_bind; [ | intros ? ]
    | progress cbv zeta
    | match goal with |- offline (if ?b then _ else _) => destruct b end
    | solve [ unfold clear_screen, print_header; auto with offline ] ].
Qed.

Lemma offline_play_questions (n i : Z) (qs : list QuizQuestion) :
  offline (play_questions n i qs).
Proof.
  revert i. induction qs as [|q qs IH]; intros i; cbn [play_questions].
  - apply offline_ret.
  - apply offline_bind; [ apply offline_play_round | intros b ].
    destruct b; [ apply IH | ].
    destruct (i <? n); [ | apply IH ].
    apply offline_bind; [ apply offline_get_user_input | intros c ].
    destruct (Py.mem c ["n"; "no"]); [ apply offline_ret | apply IH ].
Qed.

(** X13. The rounds of a session talk to the user only: between the
    request for the questions and [end_game], whatever the user types and
    however the rounds end, nothing is sent to the service, nothing is taken
    from its answers, nothing is written to the diagnostic stream, and what
    was on the terminal stays there (lines are only added). *)
Theorem rounds_stay_offline (n i : Z) (qs : list QuizQuestion) (w : World) :
  requests (snd (play_questions n i qs w)) = requests w
  /\ network (snd (play_questions n i qs w)) = network w
  /\ stderr (snd (play_questions n i qs w)) = stderr w
  /\ exists more, stdout (snd (play_questions n i qs w)) = stdout w ++ more.
Proof.
  destruct (offline_play_questions n i qs w) as (Hn & Hr & He & Ho).
  repeat split; assumption.
Qed.

(* ================================================================= *)
(** ** An interrupt during the pause after a round *)

Lemma get_questions_params (category : option string) (limit : Z) (difficulty : option Z) :
  get_questions category limit difficulty
  = _get "questions" (questions_params category limit difficulty).
Proof.
  unfold get_questions, questions_params.
  destruct category as [[|c cs]|], difficulty as [d|]; cbn [truthy_str truthy_int app];
    try destruct (negb (d =? 0)); reflexivity.
Qed.

(** The world in which the rounds begin, for any batch that is not empty. *)
Lemma start_loaded_batch (category : option string) (difficulty : option Z)
    (num_questions : Z) (w : World) (batch : list QuizQuestion) (success : bool)
    (balance : option Z) (rest : list response) :
  pause_interrupted (keyboard w) = false ->
  network w = Reply (JDict (mkDict (Some batch) success balance)) :: rest ->
  batch <> [] ->
  start category difficulty num_questions w
  = try_except (play_questions (len batch) 1 batch ;; end_game) start_handlers
      (loaded w rest (len batch) (questions_params category num_questions difficulty)).
Proof.
  intros Hp Hn Hb. destruct batch as [|q qs]; [ congruence | clear Hb ].
  unfold start. rewrite get_questions_params.
  destruct w as [g keys net out err reqs].
  cbn [self keyboard network stdout stderr requests] in *. subst net.
  erewrite bind_val by reflexivity.
  erewrite bind_val by (apply sleep_quiet; exact Hp).
  erewrite try_except_val_bind by reflexivity.
  erewrite try_except_val_bind by (apply _get_reply; reflexivity).
  cbv beta iota.
  erewrite try_except_val_bind by reflexivity.
  erewrite try_except_val_bind by (apply sleep_quiet; exact Hp).
  f_equal. unfold loaded. world_eq.
Qed.

(** When the loop went on after each question of [done], what is left of it
    is the loop on the other questions. *)
Lemma play_questions_app (n i : Z) (done more : list QuizQuestion) (w w1 : World) :
  rounds_go_on n i done w = Some w1 ->
  play_questions n i (done ++ more) w = play_questions n (i + len done) more w1.
Proof.
  revert i w. induction done as [|q done IH]; intros i w H.
  - cbn [rounds_go_on] in H. injection H as <-. unfold len. cbn [List.length Z.of_nat app].
    now rewrite Z.add_0_r.
  - cbn [rounds_go_on] in H. unfold round_goes_on in H.
    replace (i + len (q :: done)) with (i + 1 + len done)
      by (unfold len; cbn [List.length]; lia).
    rewrite <- app_comm_cons. cbn [play_questions]. unfold bind at 1.
    destruct (play_round q w) as [[[|]|e] w2]; [ apply IH, H | | discriminate H ].
    destruct (i <? n); [ | apply IH, H ].
    unfold bind at 1.
    destruct (get_user_input AskContinue ["y"; "n"; "yes"; "no"] w2) as [[c|e] w3];
      [ | discriminate H ].
    destruct (Py.mem c ["n"; "no"]); [ discriminate H | apply IH, H ].
Qed.

Lemma rounds_go_on_offline (n i : Z) (done : list QuizQuestion) (w w1 : World) :
  rounds_go_on n i done w = Some w1 ->
  requests w1 = requests w /\ network w1 = network w.
Proof.
  intros H. pose proof (play_questions_app n i done [] w w1 H) as Happ.
  rewrite app_nil_r in Happ. cbn [play_questions] in Happ.
  destruct (offline_play_questions n i done w) as (Hn & Hr & _).
  rewrite Happ in Hn, Hr. split; assumption.
Qed.

Lemma end_game_keyboard (w : World) : keyboard (snd (end_game w)) = keyboard w.
Proof.
  destruct w as [g keys net out err reqs].
  run_api. destruct (stars_earned g >? 0); [ | reflexivity ].
  destruct net as [|[[d|]| | | |] net]; try reflexivity.
  destruct (d_success d); reflexivity.
Qed.

(** X10. Ctrl-C during the pause that follows a scored round, whichever
    round of the session it is, reaches the [except KeyboardInterrupt]
    clause of [start]: the round just played counts, the summary is printed
    for the counters it left, and the stars earned, the ones of that round
    included, are sent (when there are any).  The round is the one on [q],
    after the rounds on the questions of [done], which the loop has gone
    through in whatever way; [w1] is the world it is in then. *)
Theorem interrupt_after_round_keeps_stars (category : option string)
    (difficulty0 : option Z) (num_questions : Z) (w w1 : World)
    (done rest' : list QuizQuestion) (q : QuizQuestion) (success : bool)
    (balance : option Z) (rest : list response) (raw : string)
    (keys : list key_event) (s d : Z) :
  pause_interrupted (keyboard w) = false ->
  network w = Reply (JDict (mkDict (Some (done ++ q :: rest')) success balance)) :: rest ->
  rounds_go_on (len (done ++ q :: rest')) 1 done
    (loaded w rest (len (done ++ q :: rest'))
       (questions_params category num_questions difficulty0))
  = Some w1 ->
  keyboard w1 = Typed raw :: CtrlCWhileSleeping :: keys ->
  Py.lower (Py.strip raw) = Py.str s ->
  1 <= s <= len (allOptions q) ->
  coerce_difficulty (difficulty q) = Some d ->
  self (snd (start category difficulty0 num_questions w))
  = scored (self w1) (s - 1 =? correctAnswerIndex q) d
  /\ requests (snd (start category difficulty0 num_questions w))
     = requests w ++ [GET "questions" (questions_params category num_questions difficulty0)]
       ++ (if stars_earned (scored (self w1) (s - 1 =? correctAnswerIndex q) d) >? 0
           then [reward_request (scored (self w1) (s - 1 =? correctAnswerIndex q) d)]
           else [])
  /\ (exists before more,
        stdout (snd (start category difficulty0 num_questions w))
        = before ++ [InterruptedFinal]
          ++ summary_lines (scored (self w1) (s - 1 =? correctAnswerIndex q) d) ++ more)
  /\ keyboard (snd (start category difficulty0 num_questions w)) = keys.
Proof.
  intros Hp Hn Hgo Hk Hraw Hs Hd.
  rewrite (start_loaded_batch category difficulty0 num_questions w (done ++ q :: rest')
             success balance rest Hp Hn)
    by (destruct done; discriminate).
  destruct (rounds_go_on_offline _ _ _ _ _ Hgo) as [Hreq0 _].
  cbn [requests loaded] in Hreq0.
  destruct (play_round_valid q w1 raw (CtrlCWhileSleeping :: keys) s d)
    as (w2 & ua & Hrun & Hself & Hkeys & Hnet & Hreq & Hout); try assumption.
  cbn [pause_interrupted tl] in Hrun, Hkeys.
  assert (Hg : self w2 = scored (self w1) (s - 1 =? correctAnswerIndex q) d).
  { rewrite Hself. unfold scored. reflexivity. }
  erewrite try_except_raise with (e := KeyboardInterrupt); [ | | reflexivity ].
  2:{ apply bind_raise. rewrite (play_questions_app _ _ _ _ _ _ Hgo).
      cbn [play_questions]. apply bind_raise. exact Hrun. }
  erewrite bind_val by reflexivity.
  rewrite end_game_self, end_game_requests, end_game_keyboard.
  cbn [self requests keyboard put_line]. rewrite Hg, Hreq, Hreq0.
  split; [ reflexivity | ].
  split; [ now rewrite <- app_assoc | ].
  split; [ | exact Hkeys ].
  destruct (end_game_summary (put_line InterruptedFinal w2)) as [more Hmore].
  exists (stdout w2), more. rewrite Hmore. cbn [stdout self put_line].
  rewrite Hg. now rewrite <- app_assoc.
Qed.

Lemma interrupt_after_round_keeps_stars_witness :
  (pause_interrupted
     (keyboard (initial_world [Typed "1"; Typed "3"; CtrlCWhileSleeping; Typed "2"]
                  [sample_reply])) = false
   /\ network (initial_world [Typed "1"; Typed "3"; CtrlCWhileSleeping; Typed "2"]
                 [sample_reply])
      = Reply (JDict (mkDict
                 (Some ([sample_question (DInt 2) 0]
                        ++ sample_question (DStr "3") 2 :: [sample_question (DInt 1) 1]))
                 false None)) :: []
   /\ rounds_go_on
        (len ([sample_question (DInt 2) 0]
              ++ sample_question (DStr "3") 2 :: [sample_question (DInt 1) 1]))
        1 [sample_question (DInt 2) 0]
        (loaded (initial_world [Typed "1"; Typed "3"; CtrlCWhileSleeping; Typed "2"]
                   [sample_reply]) []
           (len ([sample_question (DInt 2) 0]
                 ++ sample_question (DStr "3") 2 :: [sample_question (DInt 1) 1]))
           (questions_params None 10 None))
      = Some (mkWorld (mkGame 20 1 1 2) [Typed "3"; CtrlCWhileSleeping; Typed "2"] []
                (stdout (snd (play_round (sample_question (DInt 2) 0)
                                (loaded (initial_world
                                           [Typed "1"; Typed "3"; CtrlCWhileSleeping; Typed "2"]
                                           [sample_reply]) [] 3
                                   (questions_params None 10 None)))))
                [] [GET "questions" [("limit", VInt 10)]])
   /\ Py.lower (Py.strip "3") = Py.str 3
   /\ 1 <= 3 <= len (allOptions (sample_question (DStr "3") 2))
   /\ coerce_difficulty (difficulty (sample_question (DStr "3") 2)) = Some 3)
  /\ self (snd (start None None 10
                  (initial_world [Typed "1"; Typed "3"; CtrlCWhileSleeping; Typed "2"]
                     [sample_reply])))
     = mkGame 50 2 2 5
  /\ requests (snd (start None None 10
                      (initial_world [Typed "1"; Typed "3"; CtrlCWhileSleeping; Typed "2"]
                         [sample_reply])))
     = [GET "questions" [("limit", VInt 10)]; reward_request (mkGame 50 2 2 5)].
Proof.
  assert (H1 : pause_interrupted
                 (keyboard (initial_world [Typed "1"; Typed "3"; CtrlCWhileSleeping; Typed "2"]
                              [sample_reply])) = false) by reflexivity.
  assert (H2 : network (initial_world [Typed "1"; Typed "3"; CtrlCWhileSleeping; Typed "2"]
                          [sample_reply])
               = Reply (JDict (mkDict
                          (Some ([sample_question (DInt 2) 0]
                                 ++ sample_question (DStr "3") 2 :: [sample_question (DInt 1) 1]))
                          false None)) :: []) by reflexivity.
  assert (H3 : rounds_go_on
                 (len ([sample_question (DInt 2) 0]
                       ++ sample_question (DStr "3") 2 :: [sample_question (DInt 1) 1]))
                 1 [sample_question (DInt 2) 0]
                 (loaded (initial_world [Typed "1"; Typed "3"; CtrlCWhileSleeping; Typed "2"]
                            [sample_reply]) []
                    (len ([sample_question (DInt 2) 0]
                          ++ sample_question (DStr "3") 2 :: [sample_question (DInt 1) 1]))
                    (questions_params None 10 None))
               = Some (mkWorld (mkGame 20 1 1 2) [Typed "3"; CtrlCWhileSleeping; Typed "2"] []
                         (stdout (snd (play_round (sample_question (DInt 2) 0)
                                         (loaded (initial_world
                                                    [Typed "1"; Typed "3"; CtrlCWhileSleeping;
                                                     Typed "2"]
                                                    [sample_reply]) [] 3
                                            (questions_params None 10 None)))))
                         [] [GET "questions" [("limit", VInt 10)]]))
    by (vm_compute; reflexivity).
  assert (H4 : Py.lower (Py.strip "3") = Py.str 3) by (vm_compute; reflexivity).
  assert (H5 : 1 <= 3 <= len (allOptions (sample_question (DStr "3") 2)))
    by (vm_compute; split; discriminate).
  assert (H6 : coerce_difficulty (difficulty (sample_question (DStr "3") 2)) = Some 3)
    by (vm_compute; reflexivity).
  split; [ exact (conj H1 (conj H2 (conj H3 (conj H4 (conj H5 H6))))) | ].
  pose proof (interrupt_after_round_keeps_stars None None 10 _ _ _ _ _ _ _ _ "3" [Typed "2"] 3 3
                H1 H2 H3 eq_refl H4 H5 H6) as H.
  split; [ exact (proj1 H) | exact (proj1 (proj2 H)) ].
Defined.

(* ================================================================= *)
(** ** How a process can end *)

Lemma exits_bind {A B : Type} (m : M A) (k : A -> M B) :
  exits_0_or_1 m -> (forall a, exits_0_or_1 (k a)) -> exits_0_or_1 (bind m k).
Proof.
  intros Hm Hk w code. unfold bind. specialize (Hm w code).
  destruct (m w) as [[a|e] w']; cbn [fst] in *; [ apply Hk | ].
  intros H. injection H as ->. apply Hm. reflexivity.
Qed.

Lemma exits_ret {A : Type} (a : A) : exits_0_or_1 (ret a).
Proof. intros w code H. discriminate H. Qed.

Lemma exits_print (l : line) : exits_0_or_1 (print l).
Proof. intros w code H. discriminate H. Qed.

Lemma exits_get_self : exits_0_or_1 get_self.
Proof. intros w code H. discriminate H. Qed.

Lemma exits_set_self (g : QuizGame) : exits_0_or_1 (set_self g).
Proof. intros w code H. discriminate H. Qed.

Lemma exits_or_raise {A : Type} (o : option A) (e : exception) : exits_0_or_1 (or_raise o e).
Proof. intros w code H. destruct o; discriminate H. Qed.

Lemma exits_when (b : bool) (m : M unit) : exits_0_or_1 m -> exits_0_or_1 (when b m).
Proof. intros H. destruct b; [ exact H | apply exits_ret ]. Qed.

Lemma exits_sleep : exits_0_or_1 sleep.
Proof.
  intros w code H. unfold sleep in H.
  destruct (keyboard w) as [|[s| |] rest]; discriminate H.
Qed.

Lemma exits_get_user_input (p : prompt) (v : list string) : exits_0_or_1 (get_user_input p v).
Proof.
  intros w code H. unfold get_user_input in H.
  destruct (get_user_input_loop p v (keyboard w) w) as [[x|e] w'] eqn:E; cbn [fst] in H;
    [ discriminate H | ].
  injection H as ->.
  destruct (get_user_input_loop_raises _ _ _ _ _ _ E) as [He | He];
    [ injection He as ->; left; reflexivity | discriminate He ].
Qed.

Lemma exits_display_question (q : QuizQuestion) : exits_0_or_1 (display_question q).
Proof.
  intros w code H. rewrite display_question_eq in H. cbn [fst] in H.
  destruct (coerce_difficulty (difficulty q)); discriminate H.
Qed.

Create HintDb exits.
#[local] Hint Resolve exits_ret exits_print exits_get_self exits_set_self exits_or_raise
  exits_when exits_sleep exits_get_user_input exits_display_question : exits.

Lemma exits_play_round (q : QuizQuestion) : exits_0_or_1 (play_round q).
Proof.
  rewrite play_round_split. apply exits_bind; [ auto with exits | intros q' ].
  unfold round_after_display.
  repeat first
    [ apply exits_bind; [ | intros ? ]
    | progress cbv zeta
    | match goal with |- exits_0_or_1 (if ?b then _ else _) => destruct b end
    | solve [ unfold clear_screen, print_header; auto with exits ] ].
Qed.

Lemma exits_play_questions (n i : Z) (qs : list QuizQuestion) :
  exits_0_or_1 (play_questions n i qs).
Proof.
  revert i. induction qs as [|q qs IH]; intros i; cbn [play_questions].
  - apply exits_ret.
  - apply exits_bind; [ apply exits_play_round | intros b ].
    destruct b; [ apply IH | ].
    destruct (i <? n); [ | apply IH ].
    apply exits_bind; [ apply exits_get_user_input | intros c ].
    destruct (Py.mem c ["n"; "no"]); [ apply exits_ret | apply IH ].
Qed.

Lemma end_game_interrupted (w : World) :
  fst (end_game w) = Raise KeyboardInterrupt ->
  stars_earned (self w) > 0 /\ exists rest, network w = Interrupt :: rest.
Proof.
  destruct w as [g keys net out err reqs].
  run_api. destruct (stars_earned g >? 0) eqn:Hs; [ | discriminate ].
  intros H. split; [ rewrite Z.gtb_ltb in Hs; apply Z.ltb_lt in Hs; cbn [self]; lia | ].
  destruct net as [|[[d|]| | | |] net]; try discriminate H;
    [ destruct (d_success d); discriminate H | eexists; reflexivity ].
Qed.

Lemma end_game_start_outcome (w : World) : start_outcome (fst (end_game w)).
Proof.
  unfold start_outcome. destruct (end_game_outcome w) as [-> | [-> | ->]]; auto.
Qed.

(** The rounds and what follows them, under the handlers of [start]. *)
Lemma rounds_then_end (m : M unit) (w : World) :
  offline m -> exits_0_or_1 m ->
  (requests (snd (try_except (m ;; end_game) start_handlers w)) = requests w
   \/ (requests (snd (try_except (m ;; end_game) start_handlers w))
       = requests w ++ [reward_request (self (snd (try_except (m ;; end_game) start_handlers w)))]
       /\ stars_earned (self (snd (try_except (m ;; end_game) start_handlers w))) > 0)
   \/ (requests (snd (try_except (m ;; end_game) start_handlers w))
       = requests w
         ++ [reward_request (self (snd (try_except (m ;; end_game) start_handlers w)));
             reward_request (self (snd (try_except (m ;; end_game) start_handlers w)))]
       /\ stars_earned (self (snd (try_except (m ;; end_game) start_handlers w))) > 0))
  /\ start_outcome (fst (try_except (m ;; end_game) start_handlers w)).
Proof.
  intros Hoff Hex.
  (* one run of [end_game] in a world that has the requests of [w] *)
  assert (Hend : forall w1 : World,
             requests w1 = requests w ->
             requests (snd (end_game w1)) = requests w
             \/ (requests (snd (end_game w1))
                 = requests w ++ [reward_request (self (snd (end_game w1)))]
                 /\ stars_earned (self (snd (end_game w1))) > 0)).
  { intros w1 Hw1. rewrite end_game_requests, end_game_self, Hw1.
    destruct (stars_earned (self w1) >? 0) eqn:Hs.
    - right. split; [ reflexivity | ]. rewrite Z.gtb_ltb in Hs. apply Z.ltb_lt in Hs. lia.
    - left. apply app_nil_r. }
  destruct (Hoff w) as (Hn & Hr & _). specialize (Hex w).
  unfold try_except, bind.
  destruct (m w) as [[[]|e] w1]; cbn [fst snd] in Hn, Hr, Hex.
  - pose proof (Hend w1 Hr) as H1.
    pose proof (end_game_start_outcome w1) as O1.
    pose proof (end_game_interrupted w1) as I1.
    pose proof (end_game_self w1) as S1.
    pose proof (end_game_requests w1) as R1.
    destruct (end_game w1) as [[[]|e] w2]; cbn [fst snd] in H1, O1, I1, S1, R1 |- *.
    + split; [ | exact O1 ]. destruct H1 as [H1 | H1]; [ left | right; left ]; exact H1.
    + destruct e as [|code|x]; cbn [start_handlers].
      * (* the request for the stars was interrupted: [end_game] runs again *)
        destruct (I1 eq_refl) as [Hs (rest & Hnet)].
        rewrite (gtb_true _ Hs), Hr in R1.
        rewrite (bind_val (print InterruptedFinal) (fun _ => end_game) w2
                   (put_line InterruptedFinal w2) tt eq_refl).
        split; [ | apply end_game_start_outcome ].
        right; right.
        rewrite end_game_requests, end_game_self. cbn [self requests put_line].
        rewrite S1, (gtb_true _ Hs), R1, <- app_assoc.
        split; [ reflexivity | exact Hs ].
      * cbn [fst snd]. split; [ | exact O1 ].
        destruct H1 as [H1 | H1]; [ left | right; left ]; exact H1.
      * destruct O1 as [O1 | [O1 | [O1 | O1]]]; discriminate O1.
  - destruct e as [|code|x]; cbn [start_handlers].
    + rewrite (bind_val (print InterruptedFinal) (fun _ => end_game) w1
                 (put_line InterruptedFinal w1) tt eq_refl).
      assert (Hr' : requests (put_line InterruptedFinal w1) = requests w) by exact Hr.
      split; [ | apply end_game_start_outcome ].
      destruct (Hend _ Hr') as [H1 | H1]; [ left | right; left ]; exact H1.
    + cbn [fst snd]. split; [ left; exact Hr | ].
      unfold start_outcome.
      destruct (Hex code eq_refl) as [-> | ->]; auto.
    + unfold print. cbn [fst snd]. split; [ left; exact Hr | left; reflexivity ].
Qed.

Lemma try_except_same {A : Type} (body body' : M A) (h : exn -> option (M A)) (w : World) :
  body w = body' w -> try_except body h w = try_except body' h w.
Proof. intros H. unfold try_except. rewrite H. reflexivity. Qed.

Lemma bind_assoc {A B C : Type} (m : M A) (k : A -> M B) (k' : B -> M C) (w : World) :
  bind m (fun a => bind (k a) k') w = bind (bind m k) k' w.
Proof. unfold bind. destruct (m w) as [[a|e] w']; reflexivity. Qed.

Lemma questions_params_limit (category : option string) (limit : Z) (difficulty : option Z) :
  In ("limit", VInt limit) (questions_params category limit difficulty).
Proof. unfold questions_params. apply in_or_app; left. left. reflexivity. Qed.

Lemma _get_interrupt (endpoint : string) (params : list (string * value)) (w : World)
    (rest : list response) :
  network w = Interrupt :: rest ->
  _get endpoint params w
  = (Raise KeyboardInterrupt,
     mkWorld (self w) (keyboard w) rest (stdout w) (stderr w)
       (requests w ++ [GET endpoint params])).
Proof.
  intros Hn. destruct w as [g keys net out err reqs]. cbn [network] in Hn. subst net.
  reflexivity.
Qed.

Lemma start_session_end (category : option string) (difficulty : option Z)
    (num_questions : Z) (w : World) :
  session_requests_shape w (snd (start category difficulty num_questions w))
    (questions_params category num_questions difficulty)
  /\ start_outcome (fst (start category difficulty num_questions w)).
Proof.
  unfold start. rewrite get_questions_params.
  set (params := questions_params category num_questions difficulty).
  destruct w as [g keys net out err reqs].
  destruct (pause_interrupted keys) eqn:Hp.
  { destruct keys as [|[s| |] keys]; try discriminate Hp.
    unfold session_requests_shape, start_outcome. cbn.
    split; [ left; reflexivity | right; left; reflexivity ]. }
  erewrite bind_val by reflexivity.
  erewrite bind_val by (apply sleep_quiet; exact Hp).
  erewrite try_except_val_bind by reflexivity.
  destruct (no_reply net) eqn:Hn.
  { destruct (_get_failure "questions" params
                (put_line Loading (put_line Starting (mkWorld g keys net out err reqs))) Hn)
      as [diag Hg].
    erewrite try_except_pass with (e := SystemExit 1);
      [ | erewrite bind_raise by exact Hg; reflexivity | reflexivity ].
    unfold session_requests_shape, start_outcome. cbn [fst snd requests put_line].
    split; [ right; left; reflexivity | right; right; right; reflexivity ]. }
  destruct net as [|[body|code detail| | |] net]; try discriminate Hn.
  - (* the service answers *)
    erewrite try_except_val_bind by (apply _get_reply; reflexivity).
    assert (Hnone : forall w0 : World,
               requests w0 = reqs ++ [GET "questions" params] ->
               session_requests_shape (mkWorld g keys (Reply body :: net) out err reqs)
                 (snd (try_except (print NoQuestions) start_handlers w0)) params
               /\ start_outcome (fst (try_except (print NoQuestions) start_handlers w0))).
    { intros w0 Hw0. unfold session_requests_shape, start_outcome.
      cbn [try_except print fst snd requests put_line].
      split; [ right; left; exact Hw0 | left; reflexivity ]. }
    destruct body as [[[[|q qs]|] sc bl]|]; cbv beta iota; try (apply Hnone; reflexivity).
    erewrite try_except_val_bind by reflexivity.
    erewrite try_except_same by apply bind_assoc.
    match goal with
    | |- context [try_except (?m ;; end_game) _ ?w0] =>
        destruct (rounds_then_end m w0) as [Hreq Hout]
    end.
    { apply offline_bind; [ apply offline_sleep | intros _; apply offline_play_questions ]. }
    { apply exits_bind; [ apply exits_sleep | intros _; apply exits_play_questions ]. }
    split; [ | exact Hout ].
    unfold session_requests_shape.
    match goal with
    | H : context [try_except ?b ?h ?w0] |- _ => set (r := try_except b h w0) in *
    end.
    cbn [requests network put_line] in Hreq |- *.
    destruct Hreq as [Hreq | [[Hreq Hs] | [Hreq Hs]]].
    + right; left. exact Hreq.
    + right; right; left. split; [ | exact Hs ]. rewrite Hreq, <- app_assoc. reflexivity.
    + right; right; right. split; [ | exact Hs ]. rewrite Hreq, <- app_assoc. reflexivity.
  - (* Ctrl-C while the questions are requested *)
    erewrite try_except_raise with (e := KeyboardInterrupt);
      [ | erewrite bind_raise by (apply _get_interrupt; reflexivity); reflexivity
        | reflexivity ].
    erewrite bind_val by reflexivity.
    split; [ | apply end_game_start_outcome ].
    unfold session_requests_shape.
    rewrite end_game_requests, end_game_self. cbn [self requests put_line].
    destruct (stars_earned g >? 0) eqn:Hs.
    + right; right; left. rewrite <- app_assoc.
      split; [ reflexivity | ]. rewrite Z.gtb_ltb in Hs. apply Z.ltb_lt in Hs. lia.
    + right; left. now rewrite app_nil_r.
Qed.

Lemma main_game_session_end (category : option string) (difficulty : option Z)
    (num_questions : Z) (w : World) :
  session_requests_shape w (snd (main_game category difficulty num_questions w))
    (questions_params category num_questions difficulty)
  /\ (fst (main_game category difficulty num_questions w) = Val tt
      \/ fst (main_game category difficulty num_questions w) = Raise (SystemExit 0)
      \/ fst (main_game category difficulty num_questions w) = Raise (SystemExit 1)).
Proof.
  destruct (start_session_end category difficulty num_questions
              (mkWorld new_game (keyboard w) (network w) (stdout w) (stderr w) (requests w)))
    as (Hreq & Hout).
  unfold main_game, try_except.
  erewrite bind_val by reflexivity.
  unfold session_requests_shape in *. cbn [requests network] in Hreq.
  destruct (start category difficulty num_questions _) as [[[]|e] w1];
    cbn [fst snd] in Hreq, Hout |- *.
  - split; [ exact Hreq | left; reflexivity ].
  - destruct Hout as [Hout | [Hout | [Hout | Hout]]]; try discriminate Hout;
      injection Hout as ->.
    + cbn [fst snd bind eprint sys_exit raise self requests].
      split; [ exact Hreq | right; right; reflexivity ].
    + split; [ exact Hreq | right; left; reflexivity ].
    + split; [ exact Hreq | right; right; reflexivity ].
Qed.

(** X14. Whatever the user does and whatever the service answers, a
    session sends its requests in this order: at most one GET for the
    questions, carrying the number of questions asked for as [limit]; then,
    only when stars were earned, a POST to [stars/add] carrying the stars
    and the counts of the game as it stands at the end; and then at most
    that same POST once more.  (The second POST is what happens when the
    user presses Ctrl-C while the first is under way: the
    [except KeyboardInterrupt] clause of [start] runs [end_game] again, see
    [stars_sent_twice].)  Nothing is sent during the rounds, and never more
    than these three requests. *)
Theorem session_requests (category : option string) (difficulty : option Z)
    (num_questions : Z) (w : World) :
  In ("limit", VInt num_questions) (questions_params category num_questions difficulty)
  /\ get_questions category num_questions difficulty
     = _get "questions" (questions_params category num_questions difficulty)
  /\ session_requests_shape w (snd (main_game category difficulty num_questions w))
       (questions_params category num_questions difficulty).
Proof.
  split; [ apply questions_params_limit | ].
  split; [ apply get_questions_params | ].
  apply main_game_session_end.
Qed.

(** A session in which the request for the stars is interrupted: the three
    stars are sent twice. *)
Example stars_sent_twice :
  requests (snd (run_game sample_keys [sample_reply; Interrupt; balance_reply 6]))
  = [GET "questions" [("limit", VInt 10)]; reward_request (mkGame 30 3 2 3);
     reward_request (mkGame 30 3 2 3)]
  /\ fst (run_game sample_keys [sample_reply; Interrupt; balance_reply 6]) = Val tt.
Proof. vm_compute. split; reflexivity. Qed.

(** X15. The [game] command never ends in a traceback: whatever the user
    does and whatever the service answers, [main] returns (status 0), or the
    process ends through [sys.exit] with status 0 or 1.  No
    [KeyboardInterrupt] and no other exception leaves it. *)
Theorem session_exit_status (category : option string) (difficulty : option Z)
    (num_questions : Z) (w : World) :
  (fst (main_game category difficulty num_questions w) = Val tt
   \/ fst (main_game category difficulty num_questions w) = Raise (SystemExit 0)
   \/ fst (main_game category difficulty num_questions w) = Raise (SystemExit 1))
  /\ (exit_status (fst (main_game category difficulty num_questions w)) = 0
      \/ exit_status (fst (main_game category difficulty num_questions w)) = 1).
Proof.
  destruct (main_game_session_end category difficulty num_questions w) as (_ & Hout).
  split; [ exact Hout | ].
  destruct Hout as [-> | [-> | ->]]; cbn; auto.
Qed.

(* ================================================================= *)
(** ** The commands of [main] *)

(** A command that calls the service once is one request followed by
    [print_json], under the handler of [main]. *)
Lemma command_request (c : command) :
  one_call c = true ->
  exists r,
    is_post r = changes_balance c
    /\ main (Some c)
       = try_except (result <- (a <- urlopen r ;; decode_or_exit a) ;; print_json result)
           main_handlers.
Proof.
  intros H.
  destruct c as [|category limit difficulty| | |category difficulty questions|
                 |[[|amount reason lesson|amount reason lesson
                    |limit type_filter lesson|]|]];
    try discriminate H; eexists; (split; [ | reflexivity ]); reflexivity.
Qed.

Lemma request_then_print (r : request) (w : World) :
  requests (snd (try_except (result <- (a <- urlopen r ;; decode_or_exit a) ;;
                              print_json result) main_handlers w))
  = requests w ++ [r]
  /\ network (snd (try_except (result <- (a <- urlopen r ;; decode_or_exit a) ;;
                                print_json result) main_handlers w))
     = tl (network w)
  /\ keyboard (snd (try_except (result <- (a <- urlopen r ;; decode_or_exit a) ;;
                                 print_json result) main_handlers w))
     = keyboard w
  /\ self (snd (try_except (result <- (a <- urlopen r ;; decode_or_exit a) ;;
                             print_json result) main_handlers w))
     = self w
  /\ match network w with
     | Reply body :: _ =>
         try_except (result <- (a <- urlopen r ;; decode_or_exit a) ;; print_json result)
           main_handlers w
         = (Val tt,
            mkWorld (self w) (keyboard w) (tl (network w)) (stdout w ++ [Json body])
              (stderr w) (requests w ++ [r]))
     | Interrupt :: _ =>
         try_except (result <- (a <- urlopen r ;; decode_or_exit a) ;; print_json result)
           main_handlers w
         = (Raise (SystemExit 1),
            mkWorld (self w) (keyboard w) (tl (network w)) (stdout w)
              (stderr w ++ [OperationCancelled]) (requests w ++ [r]))
     | _ =>
         exists diag,
           try_except (result <- (a <- urlopen r ;; decode_or_exit a) ;; print_json result)
             main_handlers w
           = (Raise (SystemExit 1),
              mkWorld (self w) (keyboard w) (tl (network w)) (stdout w)
                (stderr w ++ [diag]) (requests w ++ [r]))
     end.
Proof.
  destruct w as [g keys net out err reqs].
  destruct net as [|[body|code detail| | |] net]; cbn;
    repeat split; eexists; reflexivity.
Qed.

(** X16. [main], command by command.  Without a command it prints the help
    and ends the process with status 1.  [stars] without a subcommand prints
    the help of [stars] and returns; nothing is sent.  [game] starts a
    session with a new game.  Every other command sends exactly one request
    (a POST for [stars add] and [stars spend], a GET for the others); when
    the service answers with a body, [main] prints that body through
    [print_json] and returns; when the user presses Ctrl-C meanwhile, it
    writes that the operation was cancelled and ends with status 1; in every
    other case one diagnostic is written, nothing is printed and the
    process ends with status 1.  The keyboard and the game are not
    touched. *)
Theorem command_sends_one_request (w : World) :
  main None w = (Raise (SystemExit 1), put_line Help w)
  /\ main (Some (CmdStars None)) w = (Val tt, put_line StarsHelp w)
  /\ (forall category difficulty questions,
        main (Some (CmdGame category difficulty questions))
        = main_game category difficulty questions)
  /\ forall c, one_call c = true ->
       exists r,
         is_post r = changes_balance c
         /\ requests (snd (main (Some c) w)) = requests w ++ [r]
         /\ network (snd (main (Some c) w)) = tl (network w)
         /\ keyboard (snd (main (Some c) w)) = keyboard w
         /\ self (snd (main (Some c) w)) = self w
         /\ match network w with
            | Reply body :: _ =>
                main (Some c) w
                = (Val tt,
                   mkWorld (self w) (keyboard w) (tl (network w)) (stdout w ++ [Json body])
                     (stderr w) (requests w ++ [r]))
            | Interrupt :: _ =>
                main (Some c) w
                = (Raise (SystemExit 1),
                   mkWorld (self w) (keyboard w) (tl (network w)) (stdout w)
                     (stderr w ++ [OperationCancelled]) (requests w ++ [r]))
            | _ =>
                exists diag,
                  main (Some c) w
                  = (Raise (SystemExit 1),
                     mkWorld (self w) (keyboard w) (tl (network w)) (stdout w)
                       (stderr w ++ [diag]) (requests w ++ [r]))
            end.
Proof.
  split; [ reflexivity | ].
  split; [ destruct w; reflexivity | ].
  split; [ reflexivity | ].
  intros c Hc. destruct (command_request c Hc) as (r & Hpost & ->).
  exists r. split; [ exact Hpost | ].
  apply request_then_print.
Qed.

(* ================================================================= *)
(** ** The address of an endpoint *)

Lemma rstrip_char_slashes (n : nat) : rstrip_char "/" (slashes n) = "".
Proof. induction n as [|n IH]; cbn [slashes rstrip_char]; [ | rewrite IH ]; reflexivity. Qed.

Lemma rstrip_char_app_slashes (s : string) (n : nat) :
  rstrip_char "/" (s ++ slashes n) = rstrip_char "/" s.
Proof.
  induction s as [|a s IH]; cbn [String.append rstrip_char].
  - apply rstrip_char_slashes.
  - rewrite IH. reflexivity.
Qed.

Lemma lstrip_char_slashes_app (n : nat) (s : string) :
  lstrip_char "/" (slashes n ++ s) = lstrip_char "/" s.
Proof. induction n as [|n IH]; cbn [slashes String.append lstrip_char Ascii.eqb]; auto. Qed.

Lemma rstrip_char_no_trailing (c : ascii) (s : string) :
  no_trailing c (rstrip_char c s) = true.
Proof.
  induction s as [|a s IH]; cbn [rstrip_char]; [ reflexivity | ].
  destruct (rstrip_char c s) as [|b r] eqn:E.
  - destruct (Ascii.eqb a c) eqn:Ea; cbn [no_trailing]; [ reflexivity | now rewrite Ea ].
  - exact IH.
Qed.

Lemma lstrip_char_no_leading (c : ascii) (s : string) :
  no_leading c (lstrip_char c s) = true.
Proof.
  induction s as [|a s IH]; cbn [lstrip_char]; [ reflexivity | ].
  destruct (Ascii.eqb a c) eqn:Ea; [ exact IH | cbn [no_leading]; now rewrite Ea ].
Qed.

Lemma rstrip_char_removes (s : string) :
  exists n, s = (rstrip_char "/" s ++ slashes n)%string.
Proof.
  induction s as [|a s [n IH]]; cbn [rstrip_char].
  - exists O. reflexivity.
  - destruct (rstrip_char "/" s) as [|b r] eqn:E.
    + destruct (Ascii.eqb a "/") eqn:Ea.
      * apply Ascii.eqb_eq in Ea. subst a. exists (S n). cbn [String.append slashes] in *.
        now rewrite <- IH.
      * exists n. cbn [String.append] in *. now rewrite <- IH.
    + exists n. cbn [String.append] in *. now rewrite <- IH.
Qed.

Lemma lstrip_char_removes (s : string) :
  exists n, s = (slashes n ++ lstrip_char "/" s)%string.
Proof.
  induction s as [|a s [n IH]]; cbn [lstrip_char].
  - exists O. reflexivity.
  - destruct (Ascii.eqb a "/") eqn:Ea.
    + apply Ascii.eqb_eq in Ea. subst a. exists (S n). cbn [String.append slashes].
      now rewrite <- IH.
    + exists O. reflexivity.
Qed.

(** X17. The address of an endpoint has exactly one slash between the base
    address and the endpoint, however many slashes the base address ends
    with and the endpoint begins with: such slashes change nothing, the base
    kept ends with no slash and the endpoint kept begins with none, and
    nothing but slashes is dropped from either. *)
Theorem endpoint_url_one_slash (url : string) (key : option string) (endpoint : string)
    (n m : nat) :
  endpoint_url (new_api (url ++ slashes n) key) (slashes m ++ endpoint)
  = endpoint_url (new_api url key) endpoint
  /\ exists base path i j,
       endpoint_url (new_api url key) endpoint = (base ++ "/" ++ path)%string
       /\ no_trailing "/" base = true
       /\ no_leading "/" path = true
       /\ url = (base ++ slashes i)%string
       /\ endpoint = (slashes j ++ path)%string.
Proof.
  split.
  - unfold endpoint_url, new_api. cbn [base_url].
    now rewrite rstrip_char_app_slashes, lstrip_char_slashes_app.
  - destruct (rstrip_char_removes url) as [i Hi].
    destruct (lstrip_char_removes endpoint) as [j Hj].
    exists (rstrip_char "/" url), (lstrip_char "/" endpoint), i, j.
    split; [ reflexivity | ].
    split; [ apply rstrip_char_no_trailing | ].
    split; [ apply lstrip_char_no_leading | ].
    split; assumption.
Qed.

(* ================================================================= *)
(** ** The list of error reports *)

Lemma length_substring_le (n : nat) (s : string) :
  (String.length (substring 0 n s) <= n)%nat.
Proof.
  revert s. induction n as [|n IH]; intros s.
  - destruct s; cbn; lia.
  - destruct s as [|a s]; cbn [substring String.length]; [ lia | ].
    specialize (IH s). lia.
Qed.

Lemma substring_short (n : nat) (s : string) :
  (String.length s <= n)%nat -> substring 0 n s = s.
Proof.
  revert s. induction n as [|n IH]; intros s H.
  - destruct s; [ reflexivity | cbn in H; lia ].
  - destruct s as [|a s]; cbn [substring]; [ reflexivity | ].
    rewrite IH; [ reflexivity | cbn in H; lia ].
Qed.

Lemma substring_long (n : nat) (s : string) :
  (n <= String.length s)%nat -> String.length (substring 0 n s) = n.
Proof.
  revert s. induction n as [|n IH]; intros s H.
  - destruct s; reflexivity.
  - destruct s as [|a s]; cbn [substring String.length] in *; [ lia | ].
    rewrite IH; [ reflexivity | lia ].
Qed.

Lemma substring_begins (n : nat) (s : string) : ErrorAdmin.begins s (substring 0 n s).
Proof.
  unfold ErrorAdmin.begins. revert s. induction n as [|n IH]; intros s.
  - exists s. destruct s; reflexivity.
  - destruct s as [|a s]; cbn [substring]; [ exists ""; reflexivity | ].
    destruct (IH s) as [rest Hr]. exists rest. cbn [String.append]. now rewrite <- Hr.
Qed.

Lemma length_append (s t : string) :
  String.length (s ++ t) = (String.length s + String.length t)%nat.
Proof. induction s as [|a s IH]; cbn [String.append String.length]; [ reflexivity | now rewrite IH ]. Qed.

(** X18. A row of the tree shows at most 19 characters of the timestamp
    (its beginning) and at most 53 characters of the message.  The message is
    the user message of the record, or its technical message when the user
    message is empty or absent; it is shown whole when it has at most 50
    characters, and else as its first 50 characters followed by three dots.
    The tag of the row is the id of the record. *)
Theorem row_columns_bounded (e : ErrorAdmin.report) (r : ErrorAdmin.row) :
  ErrorAdmin.make_row e = inr r ->
  (exists stamp shown,
     ErrorAdmin.get e "timestamp" (ErrorAdmin.CStr "") = ErrorAdmin.CStr stamp
     /\ ErrorAdmin.timestamp r = ErrorAdmin.CStr shown
     /\ (String.length shown <= 19)%nat
     /\ ErrorAdmin.begins stamp shown)
  /\ (exists msg shown,
        ErrorAdmin.or_else (ErrorAdmin.get e "user_message" (ErrorAdmin.CStr ""))
          (ErrorAdmin.get e "error_message" (ErrorAdmin.CStr ""))
        = ErrorAdmin.CStr msg
        /\ ErrorAdmin.error_msg r = ErrorAdmin.CStr shown
        /\ (String.length shown <= 53)%nat
        /\ ((String.length msg <= 50)%nat -> shown = msg)
        /\ ((50 < String.length msg)%nat ->
            exists head, shown = (head ++ "...")%string
                         /\ String.length head = 50%nat
                         /\ ErrorAdmin.begins msg head))
  /\ ErrorAdmin.getitem e "id" = inr (hd ErrorAdmin.CNone (ErrorAdmin.tags r))
  /\ List.length (ErrorAdmin.tags r) = 1%nat.
Proof.
  unfold ErrorAdmin.make_row. intros H.
  destruct (ErrorAdmin.get e "timestamp" (ErrorAdmin.CStr "")) as [|stamp|z] eqn:Et;
    cbn [ErrorAdmin.slice_to] in H; try discriminate H.
  cbv zeta in H.
  destruct (ErrorAdmin.or_else _ _) as [|msg|z] eqn:Em;
    cbn [ErrorAdmin.cell_len] in H; try discriminate H.
  destruct (50 <? String.length msg)%nat eqn:Hlen;
    cbn [ErrorAdmin.slice_to ErrorAdmin.add_dots] in H;
    destruct (ErrorAdmin.getitem e "id") as [x|id] eqn:Eid; try discriminate H;
    injection H as <-; cbn [ErrorAdmin.timestamp ErrorAdmin.error_msg ErrorAdmin.tags hd
                             List.length].
  - apply Nat.ltb_lt in Hlen.
    split; [ exists stamp, (substring 0 19 stamp);
             repeat split; [ apply length_substring_le | apply substring_begins ] | ].
    split; [ | split; reflexivity ].
    exists msg, (substring 0 50 msg ++ "...")%string.
    split; [ reflexivity | split; [ reflexivity | ] ].
    split; [ rewrite length_append; pose proof (length_substring_le 50 msg); cbn; lia | ].
    split; [ intros; lia | intros _ ].
    exists (substring 0 50 msg).
    split; [ reflexivity | split; [ apply substring_long; lia | apply substring_begins ] ].
  - apply Nat.ltb_ge in Hlen.
    split; [ exists stamp, (substring 0 19 stamp);
             repeat split; [ apply length_substring_le | apply substring_begins ] | ].
    split; [ | split; reflexivity ].
    exists msg, msg.
    split; [ reflexivity | split; [ reflexivity | ] ].
    split; [ lia | split; [ reflexivity | intros; lia ] ].
Qed.

Lemma row_columns_bounded_witness :
  ErrorAdmin.make_row
    [("id", ErrorAdmin.CInt 7); ("timestamp", ErrorAdmin.CStr "2025-01-31T08:15:30.123456+00:00");
     ("user_message", ErrorAdmin.CStr "");
     ("error_message",
      ErrorAdmin.CStr "SocketException: connection refused while loading the questions")]
  = inr (ErrorAdmin.mkRow (ErrorAdmin.CStr "2025-01-31T08:15:30") (ErrorAdmin.CStr "")
           (ErrorAdmin.CStr "") (ErrorAdmin.CStr "")
           (ErrorAdmin.CStr "SocketException: connection refused while loading ...")
           [ErrorAdmin.CInt 7])
  /\ ErrorAdmin.getitem
       [("id", ErrorAdmin.CInt 7);
        ("timestamp", ErrorAdmin.CStr "2025-01-31T08:15:30.123456+00:00");
        ("user_message", ErrorAdmin.CStr "");
        ("error_message",
         ErrorAdmin.CStr "SocketException: connection refused while loading the questions")]
       "id"
     = inr (ErrorAdmin.CInt 7).
Proof.
  assert (H1 : ErrorAdmin.make_row
                 [("id", ErrorAdmin.CInt 7);
                  ("timestamp", ErrorAdmin.CStr "2025-01-31T08:15:30.123456+00:00");
                  ("user_message", ErrorAdmin.CStr "");
                  ("error_message",
                   ErrorAdmin.CStr
                     "SocketException: connection refused while loading the questions")]
               = inr (ErrorAdmin.mkRow (ErrorAdmin.CStr "2025-01-31T08:15:30")
                        (ErrorAdmin.CStr "") (ErrorAdmin.CStr "") (ErrorAdmin.CStr "")
                        (ErrorAdmin.CStr "SocketException: connection refused while loading ...")
                        [ErrorAdmin.CInt 7]))
    by (vm_compute; reflexivity).
  split; [ exact H1 | ].
  exact (proj1 (proj2 (proj2 (row_columns_bounded _ _ H1)))).
Defined.

Lemma insert_all_prefix (data : list ErrorAdmin.report) (tree : list ErrorAdmin.row) :
  exists k,
    (k <= List.length data)%nat
    /\ fst (ErrorAdmin.insert_all data tree) = tree ++ ErrorAdmin.rows_of (firstn k data)
    /\ List.length (ErrorAdmin.rows_of (firstn k data)) = k
    /\ match snd (ErrorAdmin.insert_all data tree) with
       | None => k = List.length data
       | Some x => exists bad, nth_error data k = Some bad /\ ErrorAdmin.make_row bad = inl x
       end.
Proof.
  revert tree. induction data as [|e data IH]; intros tree; cbn [ErrorAdmin.insert_all].
  - exists O. cbn. rewrite app_nil_r. repeat split. lia.
  - destruct (ErrorAdmin.make_row e) as [x|r] eqn:Er.
    + exists O. cbn. rewrite app_nil_r. repeat split; [ lia | ].
      exists e. split; [ reflexivity | exact Er ].
    + destruct (IH (tree ++ [r])) as (k & Hk & Htree & Hlen & Hend).
      exists (S k). cbn [firstn List.length nth_error].
      unfold ErrorAdmin.rows_of in *. cbn [flat_map]. rewrite Er. cbn [app List.length].
      split; [ lia | ].
      split; [ rewrite Htree, <- app_assoc; reflexivity | ].
      split; [ rewrite length_app, Hlen; cbn [List.length]; lia | ].
      destruct (snd (ErrorAdmin.insert_all data (tree ++ [r]))); [ exact Hend | ].
      now f_equal.
Qed.

(** X19. When the query is answered, [load_errors] replaces the rows of
    the tree: afterwards the tree holds one row for each record of the
    answer up to the first record that cannot be shown (no [id], or a
    timestamp or message that is not a text), in the order of the answer,
    and no row from before.  With no such record all rows are there and the
    status line counts the records; with one, the rows before it stay, the
    status line reports the error and one dialog is raised. *)
Theorem load_errors_fills_tree (execute : ErrorAdmin.database) (g : ErrorAdmin.gui)
    (data : list ErrorAdmin.report) :
  execute (ErrorAdmin.build_query g) = inr data ->
  exists k,
    (k <= List.length data)%nat
    /\ ErrorAdmin.error_tree (ErrorAdmin.load_errors (Some execute) g)
       = ErrorAdmin.rows_of (firstn k data)
    /\ List.length (ErrorAdmin.error_tree (ErrorAdmin.load_errors (Some execute) g)) = k
    /\ ((k = List.length data
         /\ ErrorAdmin.status_var (ErrorAdmin.load_errors (Some execute) g)
            = ErrorAdmin.Loaded (List.length data)
         /\ ErrorAdmin.dialogs (ErrorAdmin.load_errors (Some execute) g)
            = ErrorAdmin.dialogs g)
        \/ (exists bad x,
              nth_error data k = Some bad
              /\ ErrorAdmin.make_row bad = inl x
              /\ ErrorAdmin.status_var (ErrorAdmin.load_errors (Some execute) g)
                 = ErrorAdmin.ErrorLoading
              /\ ErrorAdmin.dialogs (ErrorAdmin.load_errors (Some execute) g)
                 = ErrorAdmin.dialogs g ++ [ErrorAdmin.FailedToLoad x])).
Proof.
  intros He. unfold ErrorAdmin.load_errors. rewrite He.
  destruct (insert_all_prefix data []) as (k & Hk & Htree & Hlen & Hend).
  exists k. split; [ exact Hk | ].
  destruct (ErrorAdmin.insert_all data []) as [tree [x|]]; cbn [fst snd] in *;
    cbn [ErrorAdmin.failed_to_load ErrorAdmin.error_tree ErrorAdmin.status_var
         ErrorAdmin.dialogs]; subst tree; cbn [app].
  - split; [ reflexivity | split; [ exact Hlen | right ] ].
    destruct Hend as (bad & Hbad & Hx). exists bad, x. repeat split; assumption.
  - split; [ reflexivity | split; [ exact Hlen | left ] ].
    repeat split. exact Hend.
Qed.

Lemma load_errors_fills_tree_witness :
  (fun _ : ErrorAdmin.query =>
     @inr ErrorAdmin.error _
       [[("id", ErrorAdmin.CInt 1); ("timestamp", ErrorAdmin.CStr "2025-01-31T08:15:30Z")];
        [("id", ErrorAdmin.CInt 2); ("timestamp", ErrorAdmin.CNone)];
        [("id", ErrorAdmin.CInt 3); ("timestamp", ErrorAdmin.CStr "2025-01-30T08:15:30Z")]])
    (ErrorAdmin.build_query (ErrorAdmin.mkGui "" "" "" [] ErrorAdmin.Ready []))
  = inr [[("id", ErrorAdmin.CInt 1); ("timestamp", ErrorAdmin.CStr "2025-01-31T08:15:30Z")];
         [("id", ErrorAdmin.CInt 2); ("timestamp", ErrorAdmin.CNone)];
         [("id", ErrorAdmin.CInt 3); ("timestamp", ErrorAdmin.CStr "2025-01-30T08:15:30Z")]]
  /\ exists k,
       (k <= 3)%nat
       /\ ErrorAdmin.error_tree
            (ErrorAdmin.load_errors
               (Some (fun _ : ErrorAdmin.query =>
                        @inr ErrorAdmin.error _
                          [[("id", ErrorAdmin.CInt 1);
                            ("timestamp", ErrorAdmin.CStr "2025-01-31T08:15:30Z")];
                           [("id", ErrorAdmin.CInt 2); ("timestamp", ErrorAdmin.CNone)];
                           [("id", ErrorAdmin.CInt 3);
                            ("timestamp", ErrorAdmin.CStr "2025-01-30T08:15:30Z")]]))
               (ErrorAdmin.mkGui "" "" "" [] ErrorAdmin.Ready []))
          = ErrorAdmin.rows_of
              (firstn k
                 [[("id", ErrorAdmin.CInt 1);
                   ("timestamp", ErrorAdmin.CStr "2025-01-31T08:15:30Z")];
                  [("id", ErrorAdmin.CInt 2); ("timestamp", ErrorAdmin.CNone)];
                  [("id", ErrorAdmin.CInt 3);
                   ("timestamp", ErrorAdmin.CStr "2025-01-30T08:15:30Z")]]).
Proof.
  assert (H1 : (fun _ : ErrorAdmin.query =>
                  @inr ErrorAdmin.error _
                    [[("id", ErrorAdmin.CInt 1);
                      ("timestamp", ErrorAdmin.CStr "2025-01-31T08:15:30Z")];
                     [("id", ErrorAdmin.CInt 2); ("timestamp", ErrorAdmin.CNone)];
                     [("id", ErrorAdmin.CInt 3);
                      ("timestamp", ErrorAdmin.CStr "2025-01-30T08:15:30Z")]])
                 (ErrorAdmin.build_query (ErrorAdmin.mkGui "" "" "" [] ErrorAdmin.Ready []))
               = inr [[("id", ErrorAdmin.CInt 1);
                       ("timestamp", ErrorAdmin.CStr "2025-01-31T08:15:30Z")];
                      [("id", ErrorAdmin.CInt 2); ("timestamp", ErrorAdmin.CNone)];
                      [("id", ErrorAdmin.CInt 3);
                       ("timestamp", ErrorAdmin.CStr "2025-01-30T08:15:30Z")]])
    by reflexivity.
  split; [ exact H1 | ].
  destruct (load_errors_fills_tree _ (ErrorAdmin.mkGui "" "" "" [] ErrorAdmin.Ready []) _ H1)
    as (k & Hk & Htree & _).
  exists k. split; [ exact Hk | exact Htree ].
Defined.

Lemma lstrip_blank (s : string) : all_chars Py.isspace s = true -> Py.lstrip s = "".
Proof.
  induction s as [|a s IH]; cbn [all_chars Py.lstrip]; [ reflexivity | ].
  intros H. apply andb_true_iff in H. destruct H as [Ha Hs]. rewrite Ha. apply IH, Hs.
Qed.

Lemma strip_blank (s : string) : all_chars Py.isspace s = true -> Py.strip s = "".
Proof. intros H. unfold Py.strip. rewrite lstrip_blank by exact H. reflexivity. Qed.

(** X20. The query of [load_errors] has a condition for a filter only when
    the filter is not blank: a user or question filter made of white space
    only counts as empty, so with an empty type filter and blank user and
    question filters the whole table is asked for (as after
    [clear_filters]); and every condition sent is one of the three columns
    with the non-empty text of its filter, stripped for the user and the
    question. *)
Theorem blank_filters_send_no_condition (g : ErrorAdmin.gui) :
  (ErrorAdmin.type_filter g = "" ->
   all_chars Py.isspace (ErrorAdmin.user_filter g) = true ->
   all_chars Py.isspace (ErrorAdmin.question_filter g) = true ->
   ErrorAdmin.build_query g = [])
  /\ (forall column text,
        In (column, text) (ErrorAdmin.build_query g) ->
        text <> ""
        /\ ((column = "error_type" /\ text = ErrorAdmin.type_filter g)
            \/ (column = "user_id" /\ text = Py.strip (ErrorAdmin.user_filter g))
            \/ (column = "question_id" /\ text = Py.strip (ErrorAdmin.question_filter g))))
  /\ (forall execute,
        ErrorAdmin.clear_filters (Some execute) g
        = ErrorAdmin.load_errors (Some (fun _ => execute []))
            (ErrorAdmin.mkGui "" "" "" (ErrorAdmin.error_tree g) (ErrorAdmin.status_var g)
               (ErrorAdmin.dialogs g))).
Proof.
  split; [ | split ].
  - intros Ht Hu Hq. unfold ErrorAdmin.build_query.
    rewrite Ht, (strip_blank _ Hu), (strip_blank _ Hq). reflexivity.
  - intros column text. unfold ErrorAdmin.build_query. cbv zeta.
    destruct (ErrorAdmin.type_filter g) as [|a t] eqn:Et;
      destruct (Py.strip (ErrorAdmin.user_filter g)) as [|b u] eqn:Eu;
      destruct (Py.strip (ErrorAdmin.question_filter g)) as [|c q] eqn:Eq;
      cbn [nonempty_str app In]; intros H;
      repeat (destruct H as [H | H]; [ injection H as <- <-; split; [ discriminate | tauto ] | ]);
      destruct H.
  - intros execute. reflexivity.
Qed.

(* ================================================================= *)
(** ** Selections are compared as text *)

Lemma int_string_of_uint (u : uint) :
  u <> Nil -> Py.int (NilEmpty.string_of_uint u) = Some (Z.of_uint u).
Proof.
  intros Hu. unfold Py.int.
  rewrite PyFacts.int_lstrip_string_of_uint, PyFacts.int_rstrip_string_of_uint.
  pose proof (PyFacts.digits_string_of_uint u Hu) as Hd.
  destruct u; [ congruence | .. ]; cbn [NilEmpty.string_of_uint] in *;
    cbv iota; rewrite Hd; reflexivity.
Qed.

Lemma leading_zero_numeral (s : Z) :
  1 <= s ->
  Py.int ("0" ++ Py.str s) = Some s
  /\ Py.lower (Py.strip ("0" ++ Py.str s)) = ("0" ++ Py.str s)%string.
Proof.
  intros Hs. destruct s as [|p|p]; try lia.
  rewrite PyFacts.str_pos.
  change ("0" ++ NilEmpty.string_of_uint (Pos.to_uint p))%string
    with (NilEmpty.string_of_uint (D0 (Pos.to_uint p))).
  split.
  - rewrite int_string_of_uint by discriminate. f_equal.
    unfold Z.of_uint. cbn [Pos.of_uint]. fold (N.of_uint (Pos.to_uint p)).
    change (Pos.of_uint (Pos.to_uint p)) with (N.of_uint (Pos.to_uint p)).
    rewrite DecimalPos.Unsigned.of_to. reflexivity.
  - unfold Py.strip.
    rewrite PyFacts.lstrip_string_of_uint, PyFacts.rstrip_string_of_uint.
    apply PyFacts.lower_string_of_uint.
Qed.

(** X21. The selection is compared as text with the numerals of
    [1 .. len(allOptions)], not as a number: a numeral written with a leading
    zero, which [int()] reads as the number of an option, is not accepted.
    The hint is printed and the prompt is shown again, as for any other
    invalid line. *)
Theorem zero_padded_selection_rejected (q : QuizQuestion) (w : World) (s : Z)
    (rest : list key_event) :
  1 <= s <= len (allOptions q) ->
  keyboard w = Typed ("0" ++ Py.str s) :: rest ->
  Py.int ("0" ++ Py.str s) = Some s
  /\ Py.mem (Py.lower (Py.strip (Py.str s))) (valid_choices_of q) = true
  /\ Py.mem (Py.lower (Py.strip ("0" ++ Py.str s))) (valid_choices_of q) = false
  /\ get_user_input (AskChoice (len (allOptions q))) (valid_choices_of q) w
     = get_user_input (AskChoice (len (allOptions q))) (valid_choices_of q)
         (put_line (PleaseEnter (valid_choices_of q))
            (put_line (Prompt (AskChoice (len (allOptions q)))) (set_keyboard rest w))).
Proof.
  intros Hs Hk.
  destruct (leading_zero_numeral s) as [Hint Hnorm]; [ lia | ].
  assert (Hopts : allOptions q <> []).
  { intros Hn. rewrite Hn in Hs. unfold len in Hs. cbn in Hs. lia. }
  assert (Hout : Py.mem (Py.lower (Py.strip ("0" ++ Py.str s))) (valid_choices_of q) = false).
  { destruct (Py.mem _ _) eqn:Hm; [ | reflexivity ].
    apply valid_choice_iff in Hm. destruct Hm as (s' & Hs' & Heq).
    rewrite Hnorm in Heq. pose proof Hint as Hint'.
    rewrite Heq, PyFacts.int_str in Hint'. injection Hint' as ->.
    apply (f_equal String.length) in Heq.
    cbn [String.append String.length] in Heq. lia. }
  split; [ exact Hint | ].
  split; [ rewrite PyFacts.strip_str, PyFacts.lower_str; apply valid_choice_iff; now exists s | ].
  split; [ exact Hout | ].
  apply get_user_input_rejects with (raw := ("0" ++ Py.str s)%string); [ exact Hk | ].
  rewrite valid_choices_nonempty by exact Hopts. rewrite Hout. reflexivity.
Qed.

Lemma zero_padded_selection_rejected_witness :
  (1 <= 3 <= len (allOptions (sample_question (DInt 2) 2))
   /\ keyboard (initial_world [Typed "03"; Typed "3"] []) = Typed ("0" ++ Py.str 3) :: [Typed "3"])
  /\ Py.int ("0" ++ Py.str 3) = Some 3
  /\ Py.mem (Py.lower (Py.strip ("0" ++ Py.str 3)))
       (valid_choices_of (sample_question (DInt 2) 2)) = false.
Proof.
  assert (H1 : 1 <= 3 <= len (allOptions (sample_question (DInt 2) 2)))
    by (vm_compute; split; discriminate).
  assert (H2 : keyboard (initial_world [Typed "03"; Typed "3"] [])
               = Typed ("0" ++ Py.str 3) :: [Typed "3"]) by reflexivity.
  split; [ exact (conj H1 H2) | ].
  split.
  - exact (proj1 (zero_padded_selection_rejected (sample_question (DInt 2) 2)
                    (initial_world [Typed "03"; Typed "3"] []) 3 [Typed "3"] H1 H2)).
  - exact (proj1 (proj2 (proj2 (zero_padded_selection_rejected (sample_question (DInt 2) 2)
                                  (initial_world [Typed "03"; Typed "3"] []) 3 [Typed "3"]
                                  H1 H2)))).
Defined.
